(** * Now-SC prompt commands: template store, context formatter,
      local-process backend and session controller.

    A shallow embedding of
      - the template store and context formatter (ListPrompts, FindPrompt,
        DiscoverFiles, ReadFileContent, FormatFileContext),
      - internal/claude/client.go (ExecutePrompt, IsAvailable,
        ExecuteWithFiles, ReadStreamResponse),
      - internal/commands/prompt.go (runPrompt, runPromptRun,
        discoverAndSelectFiles, savePromptOutput,
        savePromptOutputInteractive).

    Go strings are byte strings: they are embedded as [string] (a list of
    8-bit [ascii]), [len] is [String.length] and slicing is [substring].
    [strings.ToLower] and [strings.TrimSpace] read them as UTF-8, as Go
    does: [TrimSpace] removes the white space of Unicode, [ToLower] maps
    every character through the case table of Unicode, which is a field of
    the environment.

    Everything the program asks of its environment (file system, clock,
    standard input, the child process, the remote API, the terminal user)
    is a field of the record [World]; the effects the program has on it are
    recorded in a trace of [event]s. *)

From Stdlib Require Import String Ascii List NArith ZArith Lia Bool Arith DecimalString.
Import ListNotations.
Local Open Scope string_scope.

(* ================================================================== *)
(** ** Go's [unicode/utf8] and [unicode] packages *)
(* ================================================================== *)

Module Utf8.

Local Open Scope N_scope.

(** A rune is a code point; a byte is read as its number. *)
Definition RuneError : N := 0xFFFD.
Definition MaxRune : N := 0x10FFFF.

Definition byte (c : ascii) : N := N_of_ascii c.
Definition chr (n : N) : ascii := ascii_of_N n.

Fixpoint ofBytes (bs : list N) : string :=
  match bs with
  | [] => EmptyString
  | b :: rest => String (chr b) (ofBytes rest)
  end.

Definition between (lo hi b : N) : bool := (lo <=? b) && (b <=? hi).

(** The table [first]: the size of the encoding a byte starts, 0 for a
    byte that starts none (0x80..0xC1 and 0xF5..0xFF). *)
Definition size (b0 : N) : nat :=
  if b0 <? 0x80 then 1%nat
  else if between 0xC2 0xDF b0 then 2%nat
  else if between 0xE0 0xEF b0 then 3%nat
  else if between 0xF0 0xF4 b0 then 4%nat
  else 0%nat.

(** A continuation byte, [locb..hicb]. *)
Definition cont (b : N) : bool := between 0x80 0xBF b.

(** The table [acceptRanges]: the second bytes admitted after [b0]. *)
Definition accept (b0 b1 : N) : bool :=
  if b0 =? 0xE0 then between 0xA0 0xBF b1
  else if b0 =? 0xED then between 0x80 0x9F b1
  else if b0 =? 0xF0 then between 0x90 0xBF b1
  else if b0 =? 0xF4 then between 0x80 0x8F b1
  else cont b1.

Definition rune2 (b0 b1 : N) : N :=
  N.lor (N.shiftl (N.land b0 0x1F) 6) (N.land b1 0x3F).

Definition rune3 (b0 b1 b2 : N) : N :=
  N.lor (N.shiftl (N.land b0 0x0F) 12)
    (N.lor (N.shiftl (N.land b1 0x3F) 6) (N.land b2 0x3F)).

Definition rune4 (b0 b1 b2 b3 : N) : N :=
  N.lor (N.shiftl (N.land b0 0x07) 18)
    (N.lor (N.shiftl (N.land b1 0x3F) 12)
       (N.lor (N.shiftl (N.land b2 0x3F) 6) (N.land b3 0x3F))).

(** The runes a [for range] loop over a string sees, each decoded as
    utf8.DecodeRuneInString does: a byte that does not start a well-formed
    encoding is one rune, [RuneError], of width 1. *)
Fixpoint decodeRunes (s : string) : list N :=
  match s with
  | EmptyString => []
  | String c0 s1 =>
      let b0 := byte c0 in
      let invalid := RuneError :: decodeRunes s1 in
      match size b0, s1 with
      | 1%nat, _ => b0 :: decodeRunes s1
      | 2%nat, String c1 s2 =>
          if accept b0 (byte c1)
          then rune2 b0 (byte c1) :: decodeRunes s2
          else invalid
      | 3%nat, String c1 (String c2 s3) =>
          if accept b0 (byte c1) && cont (byte c2)
          then rune3 b0 (byte c1) (byte c2) :: decodeRunes s3
          else invalid
      | 4%nat, String c1 (String c2 (String c3 s4)) =>
          if accept b0 (byte c1) && cont (byte c2) && cont (byte c3)
          then rune4 b0 (byte c1) (byte c2) (byte c3) :: decodeRunes s4
          else invalid
      | _, _ => invalid
      end
  end.

(** utf8.AppendRune: a surrogate or a value above [MaxRune] is written as
    [RuneError]. *)
Definition EncodeRune (r : N) : string :=
  if r <=? 0x7F then String (chr r) EmptyString
  else if r <=? 0x7FF then
    String (chr (N.lor 0xC0 (N.shiftr r 6)))
      (String (chr (N.lor 0x80 (N.land r 0x3F))) EmptyString)
  else if (MaxRune <? r) || between 0xD800 0xDFFF r then
    String (chr 0xEF) (String (chr 0xBF) (String (chr 0xBD) EmptyString))
  else if r <=? 0xFFFF then
    String (chr (N.lor 0xE0 (N.shiftr r 12)))
      (String (chr (N.lor 0x80 (N.land (N.shiftr r 6) 0x3F)))
         (String (chr (N.lor 0x80 (N.land r 0x3F))) EmptyString))
  else
    String (chr (N.lor 0xF0 (N.shiftr r 18)))
      (String (chr (N.lor 0x80 (N.land (N.shiftr r 12) 0x3F)))
         (String (chr (N.lor 0x80 (N.land (N.shiftr r 6) 0x3F)))
            (String (chr (N.lor 0x80 (N.land r 0x3F))) EmptyString))).

End Utf8.
Import Utf8.

Module Unicode.

Local Open Scope N_scope.

Definition MaxASCII : N := 0x7F.

(** unicode.IsSpace: the Latin-1 switch, then the table [White_Space]. *)
Definition IsSpace (r : N) : bool :=
  if r <=? 0xFF then
    between 0x09 0x0D r || (r =? 0x20) || (r =? 0x85) || (r =? 0xA0)
  else
    (r =? 0x1680) || between 0x2000 0x200A r || between 0x2028 0x2029 r
    || (r =? 0x202F) || (r =? 0x205F) || (r =? 0x3000).

(** unicode.ToLower: the letters of ASCII are mapped on the spot, every
    other rune through the lower-case column of [unicode.CaseRanges],
    here [caseTable]. *)
Definition ToLower (caseTable : N -> N) (r : N) : N :=
  if r <=? MaxASCII then
    if between 0x41 0x5A r then r + 0x20 else r
  else caseTable r.

End Unicode.

(* ================================================================== *)
(** ** Go's [strings] package, on byte strings *)
(* ================================================================== *)

Module Strings.

Definition LF : ascii := "010"%char.
Definition nl : string := String LF EmptyString.

(** strings.HasPrefix *)
Definition HasPrefix (s pre : string) : bool := String.prefix pre s.

(** strings.HasSuffix *)
Definition HasSuffix (s suf : string) : bool :=
  (String.length suf <=? String.length s)%nat &&
  (substring (String.length s - String.length suf) (String.length suf) s =? suf).

(** strings.TrimPrefix *)
Definition TrimPrefix (s pre : string) : string :=
  if HasPrefix s pre
  then substring (String.length pre) (String.length s - String.length pre) s
  else s.

(** strings.TrimSuffix *)
Definition TrimSuffix (s suf : string) : string :=
  if HasSuffix s suf
  then substring 0 (String.length s - String.length suf) s
  else s.

Fixpoint map_bytes (f : ascii -> ascii) (s : string) : string :=
  match s with
  | EmptyString => EmptyString
  | String c s' => String (f c) (map_bytes f s')
  end.

(** strings.ReplaceAll, for a one-byte [old] and a one-byte [new] (the
    two call sites replace "_" by " "). *)
Definition ReplaceAll (s : string) (old new : ascii) : string :=
  map_bytes (fun c => if Ascii.eqb c old then new else c) s.

(** The ASCII path of strings.ToLower: 'A'..'Z' to 'a'..'z'. *)
Definition lower_byte (c : ascii) : ascii :=
  if between 0x41 0x5A (byte c) then chr (byte c + 0x20) else c.

Fixpoint isASCII (s : string) : bool :=
  match s with
  | EmptyString => true
  | String c s' => (byte c <? 0x80)%N && isASCII s'
  end.

(** What a strings.Builder holds after WriteRune of each rune. *)
Fixpoint writeRunes (rs : list N) : string :=
  match rs with
  | [] => EmptyString
  | r :: rest => EncodeRune r ++ writeRunes rest
  end.

(** strings.Map, for a mapping without negative values (one that drops
    no character): every rune of the [for range] loop is written mapped,
    so a byte that is not part of a well-formed encoding comes out as the
    three bytes of U+FFFD. *)
Definition Map (mapping : N -> N) (s : string) : string :=
  writeRunes (map mapping (decodeRunes s)).

(** strings.ToLower, with the case table of the Go release in
    [caseTable]: the byte path for a text of ASCII, [Map] with
    unicode.ToLower otherwise. *)
Definition ToLower (caseTable : N -> N) (s : string) : string :=
  if isASCII s then map_bytes lower_byte s
  else Map (Unicode.ToLower caseTable) s.

(** The bytes of [s] are the encoding of one white-space character of
    Unicode (unicode.IsSpace of the one rune decoded). *)
Definition spaceRune (s : string) : bool :=
  match decodeRunes s with
  | [r] => Unicode.IsSpace r
  | _ => false
  end.

(** White space of one byte ('\t', '\n', '\v', '\f', '\r', ' '), of two
    bytes (U+0085, U+00A0) and of three bytes (U+1680, U+2000..U+200A,
    U+2028, U+2029, U+202F, U+205F, U+3000); no character of four bytes is
    white space. *)
Definition space1 (c0 : ascii) : bool :=
  spaceRune (String c0 EmptyString).
Definition space2 (c0 c1 : ascii) : bool :=
  spaceRune (String c0 (String c1 EmptyString)).
Definition space3 (c0 c1 c2 : ascii) : bool :=
  spaceRune (String c0 (String c1 (String c2 EmptyString))).

(** The text left once every leading group of one, two or three bytes
    that [p1], [p2], [p3] accept is removed. *)
Fixpoint trimLeft (p1 : ascii -> bool) (p2 : ascii -> ascii -> bool)
  (p3 : ascii -> ascii -> ascii -> bool) (s : string) : string :=
  match s with
  | EmptyString => EmptyString
  | String c0 s1 =>
      if p1 c0 then trimLeft p1 p2 p3 s1
      else
        match s1 with
        | EmptyString => s
        | String c1 s2 =>
            if p2 c0 c1 then trimLeft p1 p2 p3 s2
            else
              match s2 with
              | EmptyString => s
              | String c2 s3 =>
                  if p3 c0 c1 c2 then trimLeft p1 p2 p3 s3 else s
              end
        end
  end.

Fixpoint reverse (s : string) : string :=
  match s with
  | EmptyString => EmptyString
  | String c s' => reverse s' ++ String c EmptyString
  end.

(** strings.TrimLeftFunc(s, unicode.IsSpace): the first rune of a text is
    white space exactly when the text starts with the encoding of a
    white-space character. *)
Definition TrimLeftSpace (s : string) : string :=
  trimLeft space1 space2 space3 s.

(** strings.TrimRightFunc(s, unicode.IsSpace): the last rune of a text,
    decoded from its end, is white space exactly when the text ends with
    the encoding of a white-space character; the bytes are looked at from
    the last one back. *)
Definition TrimRightSpace (s : string) : string :=
  reverse
    (trimLeft space1 (fun c1 c0 => space2 c0 c1)
       (fun c2 c1 c0 => space3 c0 c1 c2) (reverse s)).

(** strings.TrimSpace *)
Definition TrimSpace (s : string) : string := TrimRightSpace (TrimLeftSpace s).

(** strings.Contains *)
Fixpoint Contains (s sub : string) : bool :=
  String.prefix sub s ||
  match s with
  | EmptyString => false
  | String _ s' => Contains s' sub
  end.

(** strings.Split, for a one-byte separator; never returns the empty
    list. *)
Fixpoint Split (s : string) (sep : ascii) : list string :=
  match s with
  | EmptyString => [""]
  | String c s' =>
      if Ascii.eqb c sep then "" :: Split s' sep
      else match Split s' sep with
           | h :: t => String c h :: t
           | [] => [String c ""]
           end
  end.

(** strings.Join *)
Fixpoint JoinWith (elems : list string) (sep : string) : string :=
  match elems with
  | [] => ""
  | [e] => e
  | e :: rest => e ++ sep ++ JoinWith rest sep
  end.

(** fmt's %d on an integer *)
Definition itoa (z : Z) : string := NilZero.string_of_int (Z.to_int z).

End Strings.
Import Strings.

(* ================================================================== *)
(** ** Go's [path/filepath] package, with '/' as the separator *)
(* ================================================================== *)

Module Filepath.

Definition slash : ascii := "/"%char.

Fixpoint stripTrailingSlashes (s : string) : string :=
  match s with
  | EmptyString => EmptyString
  | String c s' =>
      let t := stripTrailingSlashes s' in
      if Ascii.eqb c slash && (t =? "") then "" else String c t
  end.

(** filepath.Base *)
Definition Base (path : string) : string :=
  if path =? "" then "."
  else
    let e := last (Split (stripTrailingSlashes path) slash) "" in
    if e =? "" then "/" else e.

(** One step of Clean over the elements already kept (innermost first). *)
Definition cleanStep (rooted : bool) (kept : list string) (elem : string)
  : list string :=
  if (elem =? "") || (elem =? ".") then kept
  else if elem =? ".." then
    match kept with
    | top :: below =>
        if top =? ".." then elem :: kept else below
    | [] => if rooted then [] else [elem]
    end
  else elem :: kept.

(** filepath.Clean *)
Definition Clean (path : string) : string :=
  let rooted := HasPrefix path "/" in
  let kept := rev (fold_left (cleanStep rooted) (Split path slash) []) in
  if rooted then "/" ++ JoinWith kept "/"
  else match kept with
       | [] => "."
       | _ => JoinWith kept "/"
       end.

Fixpoint dropEmpty (elems : list string) : list string :=
  match elems with
  | [] => []
  | e :: rest => if e =? "" then dropEmpty rest else elems
  end.

(** filepath.Join *)
Definition Join (elems : list string) : string :=
  match dropEmpty elems with
  | [] => ""
  | es => Clean (JoinWith es "/")
  end.

(** [path[:i+1]] for [i] the index of the last separator. *)
Fixpoint uptoLastSlash (s : string) : string :=
  match s with
  | EmptyString => EmptyString
  | String c s' =>
      let t := uptoLastSlash s' in
      if (t =? "") && negb (Ascii.eqb c slash) then "" else String c t
  end.

(** filepath.Dir *)
Definition Dir (path : string) : string := Clean (uptoLastSlash path).

End Filepath.
Import Filepath.

(* ================================================================== *)
(** ** Errors, the environment and the trace of effects *)
(* ================================================================== *)

(** The message of an error that comes from outside this program (the
    operating system, the terminal library, the remote API). *)
Definition oserror := string.

Inductive outcome (E A : Type) : Type :=
| Ok (a : A)
| Err (e : E).
Arguments Ok {E A} a.
Arguments Err {E A} e.

(** One constructor per [fmt.Errorf] site of the program; [E_Foreign] is
    an error of the terminal library returned as it is, and
    [E_IndexOutOfRange] the run-time panic of an index outside a slice. *)
Inductive error : Type :=
(* template store *)
| E_TemplatesDirNotFoundAt (promptsPath : string)
| E_ReadPromptsDir (e : oserror)
| E_NoTemplatesFoundIn (promptsPath : string)
| E_PromptNotFound (promptName : string)
| E_InboxNotFoundAt (inboxPath : string)
| E_ScanInbox (e : oserror)
| E_ReadFile (filePath : string) (e : oserror)
(* internal/claude/client.go *)
| E_StdinPipe (e : oserror)
| E_StartClaude (e : oserror)
| E_WritePrompt (e : oserror)
| E_ExecutionFailed (e : oserror) (stderr : string)
| E_NoResponse
(* internal/commands/prompt.go *)
| E_NoProviderConfigured
| E_TemplatesDirNotFound
| E_NoTemplatesFound
| E_SelectionFailed (e : oserror)
| E_ReadPromptFile (e : oserror)
| E_InputPromptFailed (e : oserror)
| E_ExecWithClaude (inner : error)
| E_ExecWithOpenRouter (e : oserror)
| E_ReadStdin (e : oserror)
| E_ReadContextFiles (inner : error)
| E_ClaudeNotAvailable
| E_OpenRouterNotImplemented
| E_NoFilesInInbox
| E_Foreign (e : oserror)
| E_CreateDirectory (e : oserror)
| E_WriteFile (e : oserror)
| E_IndexOutOfRange.

(** The text of an error, as [err.Error()] gives it. *)
Fixpoint Error (e : error) : string :=
  match e with
  | E_TemplatesDirNotFoundAt p => "prompt templates directory not found at: " ++ p
  | E_ReadPromptsDir e => "failed to read prompts directory: " ++ e
  | E_NoTemplatesFoundIn p => "no prompt templates found in: " ++ p
  | E_PromptNotFound n => "prompt not found: " ++ n
  | E_InboxNotFoundAt p => "inbox directory not found at: " ++ p
  | E_ScanInbox e => "failed to scan inbox: " ++ e
  | E_ReadFile p e => "failed to read file " ++ p ++ ": " ++ e
  | E_StdinPipe e => "failed to create stdin pipe: " ++ e
  | E_StartClaude e =>
      "failed to start claude code: " ++ e ++ " (is Claude Code installed?)"
  | E_WritePrompt e => "failed to write prompt: " ++ e
  | E_ExecutionFailed e stderr =>
      "claude code execution failed: " ++ e ++ nl ++ "Stderr: " ++ stderr
  | E_NoResponse => "no response from Claude Code"
  | E_NoProviderConfigured => "no AI provider configured"
  | E_TemplatesDirNotFound => "prompt templates directory not found"
  | E_NoTemplatesFound => "no prompt templates found"
  | E_SelectionFailed e => "prompt selection failed: " ++ e
  | E_ReadPromptFile e => "failed to read prompt file: " ++ e
  | E_InputPromptFailed e => "input prompt failed: " ++ e
  | E_ExecWithClaude inner =>
      "failed to execute prompt with Claude Code: " ++ Error inner
  | E_ExecWithOpenRouter e => "failed to execute prompt with OpenRouter: " ++ e
  | E_ReadStdin e => "failed to read stdin: " ++ e
  | E_ReadContextFiles inner => "failed to read context files: " ++ Error inner
  | E_ClaudeNotAvailable => "Claude Code not available"
  | E_OpenRouterNotImplemented =>
      "OpenRouter integration not yet implemented for run command"
  | E_NoFilesInInbox => "no files found in inbox"
  | E_Foreign e => e
  | E_CreateDirectory e => "failed to create directory: " ++ e
  | E_WriteFile e => "failed to write file: " ++ e
  | E_IndexOutOfRange => "runtime error: index out of range"
  end.

(** The flat taxonomy of the specification. *)
Inductive ErrorKind : Type :=
| NotFound | IOError | BackendUnavailable | ExecutionFailed | EmptyResponse
| NoProviderConfigured | NotImplemented | Interaction | Panic.

Fixpoint kind (e : error) : ErrorKind :=
  match e with
  | E_TemplatesDirNotFoundAt _ | E_NoTemplatesFoundIn _ | E_PromptNotFound _
  | E_InboxNotFoundAt _ | E_TemplatesDirNotFound | E_NoTemplatesFound
  | E_NoFilesInInbox => NotFound
  | E_ReadPromptsDir _ | E_ScanInbox _ | E_ReadFile _ _ | E_ReadPromptFile _
  | E_ReadStdin _ | E_CreateDirectory _ | E_WriteFile _
  | E_StdinPipe _ | E_WritePrompt _ => IOError
  | E_StartClaude _ | E_ClaudeNotAvailable => BackendUnavailable
  | E_ExecutionFailed _ _ | E_ExecWithOpenRouter _ => ExecutionFailed
  | E_NoResponse => EmptyResponse
  | E_NoProviderConfigured => NoProviderConfigured
  | E_ExecWithClaude inner | E_ReadContextFiles inner => kind inner
  | E_OpenRouterNotImplemented => NotImplemented
  | E_SelectionFailed _ | E_InputPromptFailed _ | E_Foreign _ => Interaction
  | E_IndexOutOfRange => Panic
  end.

Definition result (A : Type) : Type := outcome error A.
Definition os_result (A : Type) : Type := outcome oserror A.

(** What [os.Stat] followed by [os.IsNotExist(err)] can tell. *)
Inductive StatResult : Type :=
| StatOk
| StatNotExist
| StatOtherError (e : oserror).

(** An [os.DirEntry], as far as the program looks at it. *)
Record DirEntry : Type := mkDirEntry {
  entry_Name : string;
  entry_IsDir : bool
}.

(** What [filepath.Walk] hands to its callback for one path it visits. *)
Record WalkItem : Type := mkWalkItem {
  walk_path : string;
  walk_IsDir : bool;
  walk_Name : string;
  walk_Size : Z;
  walk_ModTime : string    (* info.ModTime().Format("2006-01-02 15:04") *)
}.

Record World : Type := mkWorld {
  (* the Go release: unicode.To(unicode.LowerCase, r, unicode.CaseRanges),
     asked for the runes above unicode.MaxASCII *)
  unicode_LowerCase : N -> N;
  (* environment and availability *)
  env_OPENROUTER_API_KEY : string;          (* os.Getenv *)
  claude_version_runs : bool;               (* `claude code --version` exits 0 *)
  (* file system *)
  os_Stat : string -> StatResult;
  os_ReadDir : string -> os_result (list DirEntry);
  os_ReadFile : string -> os_result string;
  filepath_Walk : string -> os_result (list WalkItem);
  filepath_Rel : string -> string -> os_result string;
  os_MkdirAll : string -> option oserror;
  os_WriteFile : string -> string -> option oserror;
  (* clock *)
  now_day : string;                         (* Format("2006-01-02") *)
  now_stamp : string;                       (* Format("2006-01-02 15:04:05") *)
  (* standard input: [None] when it is a character device *)
  stdin_pipe : option (os_result string);
  (* the child process `claude code --stdio` *)
  cmd_StdinPipe : option oserror;
  cmd_Start : option oserror;
  cmd_WriteStdin : string -> option oserror;
  cmd_Wait : string -> option oserror;
  cmd_stdout : string -> string;
  cmd_stderr : string -> string;
  (* the remote API client, openrouter.NewClient(apiKey).ExecutePrompt *)
  openrouter_ExecutePrompt : string -> string -> string -> os_result string;
  (* the terminal user, through promptui *)
  ui_selectTemplate : list string -> os_result nat;
  ui_enterInput : os_result string;
  ui_confirmSave : os_result string;
  ui_selectLocation : list string -> os_result nat;
  ui_enterCustomPath : os_result string;
  ui_enterFilename : string -> os_result string;
  ui_selectFile : list string -> os_result nat
}.

(** The effects of a run, in the order they happen. *)
Inductive event : Type :=
| EvReadFile (path : string)
| EvWriteStdin (fullPrompt : string)
| EvOpenRouter (apiKey promptContent userInput : string)
| EvMkdirAll (dir : string)
| EvWriteFile (path content : string).

(** Computations that return a value or an error and log their effects. *)
Definition M (A : Type) : Type := result A * list event.

Definition ret {A} (a : A) : M A := (Ok a, []).
Definition fail {A} (e : error) : M A := (Err e, []).
Definition emit (ev : event) : M unit := (Ok tt, [ev]).
Definition bind {A B} (m : M A) (f : A -> M B) : M B :=
  match m with
  | (Ok a, t) => let '(r, t') := f a in (r, (t ++ t')%list)
  | (Err e, t) => (Err e, t)
  end.

Notation "x <- m ;; k" := (bind m (fun x => k))
  (at level 61, m at next level, right associativity).
Notation "m ;;; k" := (bind m (fun _ => k))
  (at level 61, right associativity).

Definition succeeded (r : option oserror) : bool :=
  match r with
  | None => true
  | Some _ => false
  end.

(** The last content written with success to [path] by the effects of
    [t], if any. *)
Fixpoint last_write (w : World) (t : list event) (path : string)
  : option string :=
  match t with
  | [] => None
  | ev :: t' =>
      match last_write w t' path with
      | Some c => Some c
      | None =>
          match ev with
          | EvWriteFile p c =>
              if (p =? path) && succeeded (os_WriteFile w p c)
              then Some c else None
          | _ => None
          end
      end
  end.

(** [os.ReadFile path] once the effects of [t] have happened on the file
    system of [w]. *)
Definition read_back (w : World) (t : list event) (path : string)
  : os_result string :=
  match last_write w t path with
  | Some c => Ok c
  | None => os_ReadFile w path
  end.

(* ================================================================== *)
(** ** Template store *)
(* ================================================================== *)

Record PromptInfo : Type := mkPromptInfo {
  Name : string;          (* display name (without .md extension) *)
  FileName : string;      (* actual filename *)
  Path : string;          (* full path to file *)
  Description : string    (* first line of the prompt (if available) *)
}.

(** The description ListPrompts derives from the content of a template
    that could be read. *)
Definition describe (content : string) : string :=
  match Split content LF with
  | [] => ""
  | line0 :: _ =>
      let description := TrimSpace (TrimPrefix line0 "#") in
      if (60 <? String.length description)%nat
      then substring 0 60 description ++ "..."
      else description
  end.

(** The loop of ListPrompts over the directory entries; every template
    file is read once for its description. *)
Fixpoint ListPrompts_loop (w : World) (promptsPath : string)
  (entries : list DirEntry) : list PromptInfo * list event :=
  match entries with
  | [] => ([], [])
  | entry :: rest =>
      if entry_IsDir entry || negb (HasSuffix (entry_Name entry) ".md")
      then ListPrompts_loop w promptsPath rest
      else
        let fullPath := Join [promptsPath; entry_Name entry] in
        let name := TrimSuffix (entry_Name entry) ".md" in
        let name := ReplaceAll name "_" " " in
        let description :=
          match os_ReadFile w fullPath with
          | Ok content => describe content
          | Err _ => ""
          end in
        let '(prompts, t) := ListPrompts_loop w promptsPath rest in
        (mkPromptInfo name (entry_Name entry) fullPath description :: prompts,
         EvReadFile fullPath :: t)
  end.

Definition ListPrompts (w : World) (projectRoot : string)
  : M (list PromptInfo) :=
  let promptsPath := Join [projectRoot; "10_PromptTemplates"] in
  match os_Stat w promptsPath with
  | StatNotExist => fail (E_TemplatesDirNotFoundAt promptsPath)
  | _ =>
      match os_ReadDir w promptsPath with
      | Err e => fail (E_ReadPromptsDir e)
      | Ok entries =>
          let '(prompts, t) := ListPrompts_loop w promptsPath entries in
          match prompts with
          | [] => (Err (E_NoTemplatesFoundIn promptsPath), t)
          | _ => (Ok prompts, t)
          end
      end
  end.

(** The test of the first loop of FindPrompt. *)
Definition exactMatch (w : World) (searchTerm : string) (prompt : PromptInfo)
  : bool :=
  (ToLower (unicode_LowerCase w) (Name prompt) =? searchTerm) ||
  (ToLower (unicode_LowerCase w) (TrimSuffix (FileName prompt) ".md")
     =? searchTerm).

(** The test of the second loop of FindPrompt. *)
Definition partialMatch (w : World) (searchTerm : string) (prompt : PromptInfo)
  : bool :=
  Contains (ToLower (unicode_LowerCase w) (Name prompt)) searchTerm.

(** FindPrompt once the templates are listed: the two loops. *)
Definition searchPrompts (w : World) (prompts : list PromptInfo)
  (promptName : string) : result PromptInfo :=
  let searchTerm := ToLower (unicode_LowerCase w) (TrimSpace promptName) in
  match find (exactMatch w searchTerm) prompts with
  | Some prompt => Ok prompt
  | None =>
      match find (partialMatch w searchTerm) prompts with
      | Some prompt => Ok prompt
      | None => Err (E_PromptNotFound promptName)
      end
  end.

Definition FindPrompt (w : World) (projectRoot promptName : string)
  : M PromptInfo :=
  prompts <- ListPrompts w projectRoot ;;
  (searchPrompts w prompts promptName, []).

(* ================================================================== *)
(** ** File discovery *)
(* ================================================================== *)

Record FileInfo : Type := mkFileInfo {
  file_Path : string;
  file_RelativePath : string;
  file_Name : string;
  file_Size : Z;
  file_ModTime : string
}.

Definition DiscoverFiles_callback (w : World) (projectRoot : string)
  (files : list FileInfo) (it : WalkItem) : list FileInfo :=
  if walk_IsDir it then files
  else
    let relPath :=
      match filepath_Rel w projectRoot (walk_path it) with
      | Ok r => r
      | Err _ => walk_path it
      end in
    (files ++ [mkFileInfo (walk_path it) relPath (walk_Name it)
                          (walk_Size it) (walk_ModTime it)])%list.

Definition DiscoverFiles (w : World) (projectRoot : string)
  : M (list FileInfo) :=
  let inboxPath := Join [projectRoot; "00_Inbox"] in
  match os_Stat w inboxPath with
  | StatNotExist => fail (E_InboxNotFoundAt inboxPath)
  | _ =>
      match filepath_Walk w inboxPath with
      | Err e => fail (E_ScanInbox e)
      | Ok visited =>
          ret (fold_left (DiscoverFiles_callback w projectRoot) visited [])
      end
  end.

(* ================================================================== *)
(** ** Context formatter *)
(* ================================================================== *)

(** A Go pair [(string, error)] with the effects of computing it. *)
Definition GoString : Type := (string * option error) * list event.

Definition ReadFileContent (w : World) (filePath : string) : GoString :=
  match os_ReadFile w filePath with
  | Err e => (("", Some (E_ReadFile filePath e)), [EvReadFile filePath])
  | Ok content => ((content, None), [EvReadFile filePath])
  end.

Definition contextHeader : string := "Context Files:" ++ nl ++ nl.

Definition banner (filePath : string) : string :=
  "=== File: " ++ Base filePath ++ " ===" ++ nl ++ nl.

(** The loop of FormatFileContext, with the strings.Builder as an
    accumulator. *)
Fixpoint FormatFileContext_loop (w : World) (files : list string)
  (builder : string) : GoString :=
  match files with
  | [] => ((builder, None), [])
  | filePath :: rest =>
      let '((content, err), t) := ReadFileContent w filePath in
      match err with
      | Some e => (("", Some e), t)
      | None =>
          let builder := builder ++ banner filePath in
          let builder := builder ++ content in
          let builder := builder ++ nl ++ nl in
          let '(r, t') := FormatFileContext_loop w rest builder in
          (r, (t ++ t')%list)
      end
  end.

Definition FormatFileContext (w : World) (files : list string) : GoString :=
  FormatFileContext_loop w files contextHeader.

(* ================================================================== *)
(** ** internal/claude/client.go: the local-process backend *)
(* ================================================================== *)

(** The text written to the standard input of the child process. *)
Definition combinedPrompt (promptContent userInput : string) : string :=
  promptContent ++ nl ++ nl ++ "User Request:" ++ nl ++ userInput.

Definition ExecutePrompt (w : World) (promptContent userInput : string)
  : GoString :=
  let fullPrompt := combinedPrompt promptContent userInput in
  match cmd_StdinPipe w with
  | Some e => (("", Some (E_StdinPipe e)), [])
  | None =>
      match cmd_Start w with
      | Some e => (("", Some (E_StartClaude e)), [])
      | None =>
          match cmd_WriteStdin w fullPrompt with
          | Some e =>
              (("", Some (E_WritePrompt e)), [EvWriteStdin fullPrompt])
          | None =>
              match cmd_Wait w fullPrompt with
              | Some e =>
                  (("", Some (E_ExecutionFailed e (cmd_stderr w fullPrompt))),
                   [EvWriteStdin fullPrompt])
              | None =>
                  let response := cmd_stdout w fullPrompt in
                  if response =? ""
                  then (("", Some E_NoResponse), [EvWriteStdin fullPrompt])
                  else ((TrimSpace response, None), [EvWriteStdin fullPrompt])
              end
          end
      end
  end.

Definition IsAvailable (w : World) : bool := claude_version_runs w.

(** The loop of ExecuteWithFiles over the files, with the
    strings.Builder as an accumulator: the path is written, the content
    is not read. *)
Fixpoint ExecuteWithFiles_loop (files : list string) (contextBuilder : string)
  : string :=
  match files with
  | [] => contextBuilder
  | filePath :: rest =>
      let contextBuilder :=
        contextBuilder ++ ("=== File: " ++ filePath ++ " ===" ++ nl) in
      let contextBuilder := contextBuilder ++ nl ++ nl in
      ExecuteWithFiles_loop rest contextBuilder
  end.

Definition ExecuteWithFiles (w : World) (promptContent : string)
  (files : list string) (userInput : string) : GoString :=
  let context := ExecuteWithFiles_loop files ("Context Files:" ++ nl ++ nl) in
  let fullPrompt :=
    context ++ nl ++ nl ++ promptContent ++ nl ++ nl
      ++ "User Request:" ++ nl ++ userInput in
  ExecutePrompt w fullPrompt "".

(** The [fmt.Errorf] site of ReadStreamResponse. *)
Inductive stream_error : Type :=
| S_ReadStream (e : oserror).

Definition stream_Error (e : stream_error) : string :=
  match e with
  | S_ReadStream e => "error reading stream: " ++ e
  end.

(** What an [io.Reader] gives before it ends: the bytes it delivers, and
    the error it ends with, if it is not the end of the input. The end is
    reported by a read of its own, after the last bytes. *)
Record Reader : Type := mkReader {
  delivered : string;
  failure : option oserror
}.

Definition CR : ascii := "013"%char.

(** bufio.MaxScanTokenSize *)
Definition maxScanTokenSize : nat := 64 * 1024.

(** bufio's dropCR: one trailing carriage return is dropped. *)
Fixpoint dropCR (line : string) : string :=
  match line with
  | EmptyString => EmptyString
  | String c EmptyString => if Ascii.eqb c CR then "" else line
  | String c rest => String c (dropCR rest)
  end.

(** The lines bufio.ScanLines finds in the whole input, line feeds
    removed and carriage returns still there: the text between line
    feeds, without the empty text after the last line feed. *)
Definition scanLines (data : string) : list string :=
  let segments := Split data LF in
  if last segments "" =? "" then removelast segments else segments.

(** A line that does not fit in the buffer of the scanner with its line
    feed. *)
Definition tokenTooLong (line : string) : bool :=
  (maxScanTokenSize <=? String.length line)%nat.

Fixpoint writeLines (lines : list string) (response : string) : string :=
  match lines with
  | [] => response
  | line :: rest =>
      let response := response ++ dropCR line in
      let response := response ++ nl in
      writeLines rest response
  end.

Definition ReadStreamResponse (reader : Reader)
  : string * option stream_error :=
  let lines := scanLines (delivered reader) in
  if existsb tokenTooLong lines
  then ("", Some (S_ReadStream "bufio.Scanner: token too long"))
  else
    match failure reader with
    | Some e => ("", Some (S_ReadStream e))
    | None => (TrimSpace (writeLines lines ""), None)
    end.

(* ================================================================== *)
(** ** internal/commands/prompt.go: the session controller *)
(* ================================================================== *)

(** A Go pair [(value, error)] read as a computation. *)
Definition liftGo (g : GoString) : M string :=
  match g with
  | ((s, None), t) => (Ok s, t)
  | ((_, Some e), t) => (Err e, t)
  end.

(** [return fmt.Errorf("...: %w", err)] around a computation. *)
Definition wrapErr {A} (f : error -> error) (m : M A) : M A :=
  match m with
  | (Err e, t) => (Err (f e), t)
  | ok => ok
  end.

Definition locations : list string :=
  [ "Project Overview (99_Assets/Project_Overview)";
    "Communications (99_Assets/Communications)";
    "POC Documents (99_Assets/POC_Documents)";
    "Notes (00_Inbox/notes)";
    "Other (specify)" ].

(** The switch on the chosen location; [None] is the early [return nil]
    of a cancelled custom-path prompt. An index without a case leaves
    [savePath] empty. *)
Definition chooseSavePath (w : World) (locIdx : nat) : option string :=
  match locIdx with
  | 0 => Some "99_Assets/Project_Overview"
  | 1 => Some "99_Assets/Communications"
  | 2 => Some "99_Assets/POC_Documents"
  | 3 => Some "00_Inbox/notes"
  | 4 =>
      match ui_enterCustomPath w with
      | Err _ => None
      | Ok customPath => Some customPath
      end
  | _ => Some ""
  end.

(** [os.MkdirAll(dir)] then [os.WriteFile(path, content)], as both save
    paths end. *)
Definition mkdirAndWrite (w : World) (dir path content : string) : M unit :=
  emit (EvMkdirAll dir) ;;;
  match os_MkdirAll w dir with
  | Some e => fail (E_CreateDirectory e)
  | None =>
      emit (EvWriteFile path content) ;;;
      match os_WriteFile w path content with
      | Some e => fail (E_WriteFile e)
      | None => ret tt
      end
  end.

Definition modelIdentifier : string := "google/gemini-2.0-flash-exp:free".

(** The output content of the interactive session (runPrompt). *)
Definition sessionLayout (title stamp template model userInput response : string)
  : string :=
  "# " ++ title ++ nl ++
  nl ++
  "**Date:** " ++ stamp ++ nl ++
  "**Prompt Template:** " ++ template ++ nl ++
  "**Model:** " ++ model ++ nl ++
  nl ++
  "## User Input" ++ nl ++
  nl ++
  userInput ++ nl ++
  nl ++
  "## Response" ++ nl ++
  nl ++
  response ++ nl.

(** The output content of savePromptOutput. *)
Definition runLayout (promptName stamp input response : string) : string :=
  "# " ++ promptName ++ nl ++
  nl ++
  "**Date:** " ++ stamp ++ nl ++
  "**Prompt:** " ++ promptName ++ nl ++
  nl ++
  "## Input" ++ nl ++
  nl ++
  input ++ nl ++
  nl ++
  "## Response" ++ nl ++
  nl ++
  response ++ nl.

(** The save step of runPrompt, from the confirmation on. *)
Definition runPrompt_save (w : World) (selectedPrompt userInput result : string)
  : M unit :=
  match ui_confirmSave w with
  | Err _ => ret tt                         (* user declined to save *)
  | Ok _ =>
      match ui_selectLocation w locations with
      | Err _ => ret tt
      | Ok locIdx =>
          match chooseSavePath w locIdx with
          | None => ret tt
          | Some savePath =>
              let defaultFilename :=
                TrimSuffix selectedPrompt ".md" ++ "_" ++ now_day w in
              match ui_enterFilename w defaultFilename with
              | Err _ => ret tt
              | Ok filename =>
                  let outputContent :=
                    sessionLayout (ReplaceAll filename "_" " ") (now_stamp w)
                      selectedPrompt modelIdentifier userInput result in
                  let fullPath := Join ["."; savePath; filename ++ ".md"] in
                  mkdirAndWrite w (Dir fullPath) fullPath outputContent
              end
          end
      end
  end.

(** The execution step of runPrompt. *)
Definition runPrompt_execute (w : World) (useClaudeCode : bool)
  (apiKey promptContent userInput : string) : M string :=
  if useClaudeCode
  then wrapErr E_ExecWithClaude (liftGo (ExecutePrompt w promptContent userInput))
  else
    emit (EvOpenRouter apiKey promptContent userInput) ;;;
    match openrouter_ExecutePrompt w apiKey promptContent userInput with
    | Err e => fail (E_ExecWithOpenRouter e)
    | Ok result => ret result
    end.

(** runPrompt up to the displayed response: the selected template file,
    the user input and the response. *)
Definition runPrompt_respond (w : World) : M (string * string * string) :=
  let apiKey := env_OPENROUTER_API_KEY w in
  let hasClaudeCode := IsAvailable w in
  if (apiKey =? "") && negb hasClaudeCode
  then fail E_NoProviderConfigured
  else
    let useClaudeCode :=
      if negb (apiKey =? "") && negb hasClaudeCode then false
      else hasClaudeCode in
    let promptsPath := Join ["."; "10_PromptTemplates"] in
    match os_Stat w promptsPath with
    | StatNotExist => fail E_TemplatesDirNotFound
    | _ =>
    match os_ReadDir w promptsPath with
    | Err e => fail (E_ReadPromptsDir e)
    | Ok entries =>
    let promptFiles :=
      map entry_Name
        (filter (fun entry =>
                   negb (entry_IsDir entry) && HasSuffix (entry_Name entry) ".md")
                entries) in
    match promptFiles with
    | [] => fail E_NoTemplatesFound
    | _ =>
    let templates :=
      map (fun file => TrimSuffix (ReplaceAll file "_" " ") ".md") promptFiles in
    match ui_selectTemplate w templates with
    | Err e => fail (E_SelectionFailed e)
    | Ok idx =>
    match nth_error promptFiles idx with
    | None => fail E_IndexOutOfRange
    | Some selectedPrompt =>
    emit (EvReadFile (Join [promptsPath; selectedPrompt])) ;;;
    match os_ReadFile w (Join [promptsPath; selectedPrompt]) with
    | Err e => fail (E_ReadPromptFile e)
    | Ok promptContent =>
    match ui_enterInput w with
    | Err e => fail (E_InputPromptFailed e)
    | Ok userInput =>
    result <- runPrompt_execute w useClaudeCode apiKey
                (promptContent : string) userInput ;;
    ret (selectedPrompt, userInput, result)
    end end end end end end end.

(** runPrompt; [Ok tt] is the nil error. *)
Definition runPrompt (w : World) : M unit :=
  shown <- runPrompt_respond w ;;
  let '(selectedPrompt, userInput, result) := shown in
  runPrompt_save w selectedPrompt userInput result.

(** The flags of the run command (package-level variables in the
    source). *)
Record Flags : Type := mkFlags {
  inputFiles : list string;     (* --file, default [] *)
  useClaudeCode : bool;         (* --claude, default true *)
  discoverFiles : bool;         (* --discover, default false *)
  saveOutput : bool;            (* --save, default true *)
  outputPath : string           (* --output, default "" *)
}.

Definition defaultFlags : Flags := mkFlags [] true false true "".

Definition discoverItem (file : FileInfo) : string :=
  let sizeKB := Z.quot (file_Size file) 1024 in
  file_RelativePath file ++ " (" ++ itoa sizeKB ++ " KB, modified: "
    ++ file_ModTime file ++ ")".

Definition discoverAndSelectFiles (w : World) (projectRoot : string)
  : M (list string) :=
  files <- DiscoverFiles w projectRoot ;;
  match files with
  | [] => fail E_NoFilesInInbox
  | _ =>
      let items := map discoverItem files in
      match ui_selectFile w items with
      | Err e => fail (E_Foreign e)
      | Ok idx =>
          match nth_error files idx with
          | None => fail E_IndexOutOfRange
          | Some file => ret [file_Path file]
          end
      end
  end.

Definition savePromptOutput (w : World)
  (projectRoot promptName input response outputPath : string) : M unit :=
  let outputContent := runLayout promptName (now_stamp w) input response in
  let dir := Dir outputPath in
  mkdirAndWrite w dir outputPath outputContent.

Definition savePromptOutputInteractive (w : World)
  (projectRoot promptName input response : string) : M unit :=
  match ui_selectLocation w locations with
  | Err _ => ret tt
  | Ok locIdx =>
      match chooseSavePath w locIdx with
      | None => ret tt
      | Some savePath =>
          let defaultFilename :=
            ReplaceAll promptName " " "_" ++ "_" ++ now_day w in
          match ui_enterFilename w defaultFilename with
          | Err _ => ret tt
          | Ok filename =>
              let fullPath := Join [projectRoot; savePath; filename ++ ".md"] in
              savePromptOutput w projectRoot promptName input response fullPath
          end
      end
  end.

(** runPromptRun, step by step. *)

(** Standard input: the piped data, or "" at a terminal. *)
Definition run_readStdin (w : World) : M string :=
  match stdin_pipe w with
  | None => ret ""
  | Some (Err e) => fail (E_ReadStdin e)
  | Some (Ok data) => ret data
  end.

(** --discover: a failure is a warning only, and leaves [inputFiles] as
    it is; the panic of an index outside the slice is not caught. *)
Definition run_discover (w : World) (fl : Flags) (projectRoot : string)
  : M (list string) :=
  if discoverFiles fl then
    match discoverAndSelectFiles w projectRoot with
    | (Err E_IndexOutOfRange, t) => (Err E_IndexOutOfRange, t)
    | (Err _, t) => (Ok (inputFiles fl), t)
    | (Ok selectedFiles, t) => (Ok (inputFiles fl ++ selectedFiles)%list, t)
    end
  else ret (inputFiles fl).

Definition run_fileContext (w : World) (files : list string) : M string :=
  match files with
  | [] => ret ""
  | _ => wrapErr E_ReadContextFiles (liftGo (FormatFileContext w files))
  end.

Definition run_promptInput (w : World) (userInput fileContext : string)
  : M string :=
  if (userInput =? "") && (fileContext =? "") then
    match ui_enterInput w with
    | Err e => fail (E_InputPromptFailed e)
    | Ok s => ret s
    end
  else ret userInput.

Definition combineInput (fileContext userInput : string) : string :=
  if userInput =? "" then fileContext
  else if fileContext =? "" then userInput
  else fileContext ++ nl ++ nl ++ "User Input:" ++ nl ++ userInput.

Definition run_execute (w : World) (fl : Flags)
  (promptContent fullInput : string) : M string :=
  if useClaudeCode fl then
    if negb (IsAvailable w) then fail E_ClaudeNotAvailable
    else wrapErr E_ExecWithClaude
           (liftGo (ExecutePrompt w promptContent fullInput))
  else fail E_OpenRouterNotImplemented.

Definition run_save (w : World) (fl : Flags)
  (projectRoot promptName fullInput result : string) : M unit :=
  if negb (outputPath fl =? "") then
    savePromptOutput w projectRoot promptName fullInput result (outputPath fl)
  else if saveOutput fl then
    match ui_confirmSave w with
    | Err _ => ret tt                       (* user declined to save *)
    | Ok _ =>
        savePromptOutputInteractive w projectRoot promptName fullInput result
    end
  else ret tt.

(** runPromptRun on [args[0] = promptName], up to the combined input: the
    template found, its content and the full input. *)
Definition run_gather (w : World) (fl : Flags) (promptName : string)
  : M (PromptInfo * string * string) :=
  let projectRoot := "." in
  match FindPrompt w projectRoot promptName with
  | (Err err, t) =>
      (* the available prompts are listed again for the message *)
      let '(_, t') := ListPrompts w projectRoot in
      (Err err, (t ++ t')%list)
  | (Ok prompt, t) =>
      bind (Ok tt, t) (fun _ =>
      emit (EvReadFile (Path prompt)) ;;;
      match os_ReadFile w (Path prompt) with
      | Err e => fail (E_ReadPromptFile e)
      | Ok promptContent =>
          userInput <- run_readStdin w ;;
          files <- run_discover w fl projectRoot ;;
          fileContext <- run_fileContext w files ;;
          userInput <- run_promptInput w userInput fileContext ;;
          ret (prompt, promptContent, combineInput fileContext userInput)
      end)
  end.

(** runPromptRun; [Ok tt] is the nil error. *)
Definition runPromptRun (w : World) (fl : Flags) (promptName : string)
  : M unit :=
  let projectRoot := "." in
  gathered <- run_gather w fl promptName ;;
  let '(prompt, promptContent, fullInput) := gathered in
  result <- run_execute w fl promptContent fullInput ;;
  run_save w fl projectRoot (Name prompt) fullInput result.

(* ================================================================== *)
(** ** Notions the properties are stated with *)
(* ================================================================== *)

(** The first line of a text: its bytes before the first line feed. *)
Fixpoint firstLine (s : string) : string :=
  match s with
  | EmptyString => EmptyString
  | String c s' => if Ascii.eqb c LF then "" else String c (firstLine s')
  end.

(** A text of white space only (the empty text included): every rune of
    it is white space to unicode.IsSpace. *)
Definition allSpace (s : string) : bool :=
  forallb Unicode.IsSpace (decodeRunes s).

(** Truncation to 60 bytes with the 3-byte ellipsis marker. *)
Definition truncate60 (d : string) : string :=
  if (60 <? String.length d)%nat then substring 0 60 d ++ "..." else d.



(** A template entry of a directory listing: a non-directory whose name
    ends in ".md". *)
Definition isTemplateEntry (entry : DirEntry) : bool :=
  negb (entry_IsDir entry) && HasSuffix (entry_Name entry) ".md".

(** The block the formatter writes for one readable file. *)
Definition contextBlock (w : World) (filePath : string) : string :=
  match os_ReadFile w filePath with
  | Ok content => banner filePath ++ content ++ nl ++ nl
  | Err _ => ""
  end.

(** The concatenation of a list of texts, in order. *)
Definition concatAll (texts : list string) : string :=
  fold_right append "" texts.

Definition readable (w : World) (filePath : string) : bool :=
  match os_ReadFile w filePath with
  | Ok _ => true
  | Err _ => false
  end.

(** An execution of a template: a write to the child process or a call
    of the remote API. *)
Definition isExecution (ev : event) : bool :=
  match ev with
  | EvWriteStdin _ | EvOpenRouter _ _ _ => true
  | _ => false
  end.

(** A change of the file system. *)
Definition isFileChange (ev : event) : bool :=
  match ev with
  | EvMkdirAll _ | EvWriteFile _ _ => true
  | _ => false
  end.

(** No template is executed in the course of [t]. *)
Definition noExecution (t : list event) : bool :=
  forallb (fun ev => negb (isExecution ev)) t.

(** The file system is left as it is in the course of [t]. *)
Definition noFileChange (t : list event) : bool :=
  forallb (fun ev => negb (isFileChange ev)) t.

Definition isRead (ev : event) : bool :=
  match ev with
  | EvReadFile _ => true
  | _ => false
  end.

(** The only effects of [t] are reads of files. *)
Definition onlyReads (t : list event) : bool := forallb isRead t.

(** A computation that only reads files and does not fail for want of a
    provider. *)
Definition gathers {A} (m : M A) : Prop :=
  onlyReads (snd m) = true /\
  forall e, fst m = Err e -> kind e <> NoProviderConfigured.

(** The user cancels a step of the save dialogue: the confirmation, the
    destination menu, the custom path of destination 4, or the filename
    prompt (offered [defaultFilename]). *)
Definition saveCancelled (w : World) (defaultFilename : string) : bool :=
  match ui_confirmSave w with
  | Err _ => true
  | Ok _ =>
      match ui_selectLocation w locations with
      | Err _ => true
      | Ok locIdx =>
          match chooseSavePath w locIdx with
          | None => true
          | Some _ =>
              match ui_enterFilename w defaultFilename with
              | Err _ => true
              | Ok _ => false
              end
          end
      end
  end.



(** The template ListPrompts builds for one template entry. *)
Definition templateOf (w : World) (promptsPath : string) (entry : DirEntry)
  : PromptInfo :=
  let fullPath := Join [promptsPath; entry_Name entry] in
  mkPromptInfo
    (ReplaceAll (TrimSuffix (entry_Name entry) ".md") "_" " ")
    (entry_Name entry)
    fullPath
    match os_ReadFile w fullPath with
    | Ok content => describe content
    | Err _ => ""
    end.

(** The query equals, case-insensitively and after trimming, the display
    name of a template or its filename without extension. *)
Definition equalsName (w : World) (query : string) (T : PromptInfo) : Prop :=
  let lower := ToLower (unicode_LowerCase w) in
  lower (TrimSpace query) = lower (Name T) \/
  lower (TrimSpace query) = lower (TrimSuffix (FileName T) ".md").

(** The query is, case-insensitively and after trimming, a substring of
    the display name of a template. *)
Definition withinName (w : World) (query : string) (T : PromptInfo) : Prop :=
  let lower := ToLower (unicode_LowerCase w) in
  Contains (lower (Name T)) (lower (TrimSpace query)) = true.

(** Every effect of a computation satisfies [P]. *)
Definition traceAll {A} (P : event -> bool) (m : M A) : Prop :=
  forallb P (snd m) = true.

Definition isOpenRouter (ev : event) : bool :=
  match ev with
  | EvOpenRouter _ _ _ => true
  | _ => false
  end.

Definition isWriteStdin (ev : event) : bool :=
  match ev with
  | EvWriteStdin _ => true
  | _ => false
  end.

(** The FileInfo DiscoverFiles builds for one regular file the walk
    visits. *)
Definition fileInfoOf (w : World) (projectRoot : string) (it : WalkItem)
  : FileInfo :=
  mkFileInfo (walk_path it)
    match filepath_Rel w projectRoot (walk_path it) with
    | Ok r => r
    | Err _ => walk_path it
    end
    (walk_Name it) (walk_Size it) (walk_ModTime it).

Definition isRegular (it : WalkItem) : bool := negb (walk_IsDir it).

(** A byte string without the byte [c]. *)
Fixpoint without (c : ascii) (s : string) : bool :=
  match s with
  | EmptyString => true
  | String x s' => negb (Ascii.eqb x c) && without c s'
  end.

(** The text starts with a group of one, two or three bytes that [p1],
    [p2], [p3] accept. *)
Definition startsWith (p1 : ascii -> bool) (p2 : ascii -> ascii -> bool)
  (p3 : ascii -> ascii -> ascii -> bool) (s : string) : bool :=
  match s with
  | EmptyString => false
  | String c0 s1 =>
      p1 c0 ||
      match s1 with
      | EmptyString => false
      | String c1 s2 =>
          p2 c0 c1 ||
          match s2 with
          | EmptyString => false
          | String c2 _ => p3 c0 c1 c2
          end
      end
  end.

(** The text starts, or ends, with the encoding of a white-space
    character of Unicode. *)
Definition startsWithSpace (s : string) : bool :=
  startsWith space1 space2 space3 s.

Definition endsWithSpace (s : string) : bool :=
  startsWith space1 (fun c1 c0 => space2 c0 c1)
    (fun c2 c1 c0 => space3 c0 c1 c2) (reverse s).

(** There is no white space at the start or at the end of the text (the
    empty text has neither). *)
Definition noSpaceAround (s : string) : Prop :=
  startsWithSpace s = false /\ endsWithSpace s = false.

(** A text that is empty or starts with a byte that is not a
    continuation byte. *)
Definition atBoundary (v : string) : Prop :=
  match v with
  | EmptyString => True
  | String d _ => cont (byte d) = false
  end.

(** A text made of whole encodings: the runes of what follows it are
    those of what follows, whatever it is. *)
Definition wholeRunes (pre : string) : Prop :=
  forall rest,
    decodeRunes (pre ++ rest) = (decodeRunes pre ++ decodeRunes rest)%list.

(** The 256 bytes. *)
Definition allBytes : list ascii := map ascii_of_nat (seq 0 256).

(** The terminal library returns an index of the list it was given. *)
Definition menuInRange (w : World) : Prop :=
  forall items idx, ui_selectFile w items = Ok idx -> idx < List.length items.

(* ================================================================== *)
(** ** Concrete environments *)
(* ================================================================== *)

(** The white space of Unicode, as the documentation of unicode.IsSpace
    and the table [White_Space] list it. *)
Definition White_Space : list N :=
  [ 0x09; 0x0A; 0x0B; 0x0C; 0x0D; 0x20; 0x85; 0xA0; 0x1680;
    0x2000; 0x2001; 0x2002; 0x2003; 0x2004; 0x2005; 0x2006; 0x2007;
    0x2008; 0x2009; 0x200A; 0x2028; 0x2029; 0x202F; 0x205F; 0x3000 ]%N.

(** The lower-case column of [unicode.CaseRanges] for the Unicode
    Character Database 14.0, as runs [(lo, hi, stride, lower case of lo)]:
    the upper-case and title-case letters from [lo] to [hi], [stride]
    apart, whose lower case lies at one and the same distance. *)
Definition CaseRanges : list (N * N * N * N) :=
  [ (0x00C0, 0x00D6, 1, 0x00E0); (0x00D8, 0x00DE, 1, 0x00F8);
    (0x0100, 0x012E, 2, 0x0101); (0x0130, 0x0130, 1, 0x0069);
    (0x0132, 0x0136, 2, 0x0133); (0x0139, 0x0147, 2, 0x013A);
    (0x014A, 0x0176, 2, 0x014B); (0x0178, 0x0178, 1, 0x00FF);
    (0x0179, 0x017D, 2, 0x017A); (0x0181, 0x0181, 1, 0x0253);
    (0x0182, 0x0184, 2, 0x0183); (0x0186, 0x0186, 1, 0x0254);
    (0x0187, 0x0187, 1, 0x0188); (0x0189, 0x018A, 1, 0x0256);
    (0x018B, 0x018B, 1, 0x018C); (0x018E, 0x018E, 1, 0x01DD);
    (0x018F, 0x018F, 1, 0x0259); (0x0190, 0x0190, 1, 0x025B);
    (0x0191, 0x0191, 1, 0x0192); (0x0193, 0x0193, 1, 0x0260);
    (0x0194, 0x0194, 1, 0x0263); (0x0196, 0x0196, 1, 0x0269);
    (0x0197, 0x0197, 1, 0x0268); (0x0198, 0x0198, 1, 0x0199);
    (0x019C, 0x019C, 1, 0x026F); (0x019D, 0x019D, 1, 0x0272);
    (0x019F, 0x019F, 1, 0x0275); (0x01A0, 0x01A4, 2, 0x01A1);
    (0x01A6, 0x01A6, 1, 0x0280); (0x01A7, 0x01A7, 1, 0x01A8);
    (0x01A9, 0x01A9, 1, 0x0283); (0x01AC, 0x01AC, 1, 0x01AD);
    (0x01AE, 0x01AE, 1, 0x0288); (0x01AF, 0x01AF, 1, 0x01B0);
    (0x01B1, 0x01B2, 1, 0x028A); (0x01B3, 0x01B5, 2, 0x01B4);
    (0x01B7, 0x01B7, 1, 0x0292); (0x01B8, 0x01B8, 1, 0x01B9);
    (0x01BC, 0x01BC, 1, 0x01BD); (0x01C4, 0x01C4, 1, 0x01C6);
    (0x01C5, 0x01C5, 1, 0x01C6); (0x01C7, 0x01C7, 1, 0x01C9);
    (0x01C8, 0x01C8, 1, 0x01C9); (0x01CA, 0x01CA, 1, 0x01CC);
    (0x01CB, 0x01DB, 2, 0x01CC); (0x01DE, 0x01EE, 2, 0x01DF);
    (0x01F1, 0x01F1, 1, 0x01F3); (0x01F2, 0x01F4, 2, 0x01F3);
    (0x01F6, 0x01F6, 1, 0x0195); (0x01F7, 0x01F7, 1, 0x01BF);
    (0x01F8, 0x021E, 2, 0x01F9); (0x0220, 0x0220, 1, 0x019E);
    (0x0222, 0x0232, 2, 0x0223); (0x023A, 0x023A, 1, 0x2C65);
    (0x023B, 0x023B, 1, 0x023C); (0x023D, 0x023D, 1, 0x019A);
    (0x023E, 0x023E, 1, 0x2C66); (0x0241, 0x0241, 1, 0x0242);
    (0x0243, 0x0243, 1, 0x0180); (0x0244, 0x0244, 1, 0x0289);
    (0x0245, 0x0245, 1, 0x028C); (0x0246, 0x024E, 2, 0x0247);
    (0x0370, 0x0372, 2, 0x0371); (0x0376, 0x0376, 1, 0x0377);
    (0x037F, 0x037F, 1, 0x03F3); (0x0386, 0x0386, 1, 0x03AC);
    (0x0388, 0x038A, 1, 0x03AD); (0x038C, 0x038C, 1, 0x03CC);
    (0x038E, 0x038F, 1, 0x03CD); (0x0391, 0x03A1, 1, 0x03B1);
    (0x03A3, 0x03AB, 1, 0x03C3); (0x03CF, 0x03CF, 1, 0x03D7);
    (0x03D8, 0x03EE, 2, 0x03D9); (0x03F4, 0x03F4, 1, 0x03B8);
    (0x03F7, 0x03F7, 1, 0x03F8); (0x03F9, 0x03F9, 1, 0x03F2);
    (0x03FA, 0x03FA, 1, 0x03FB); (0x03FD, 0x03FF, 1, 0x037B);
    (0x0400, 0x040F, 1, 0x0450); (0x0410, 0x042F, 1, 0x0430);
    (0x0460, 0x0480, 2, 0x0461); (0x048A, 0x04BE, 2, 0x048B);
    (0x04C0, 0x04C0, 1, 0x04CF); (0x04C1, 0x04CD, 2, 0x04C2);
    (0x04D0, 0x052E, 2, 0x04D1); (0x0531, 0x0556, 1, 0x0561);
    (0x10A0, 0x10C5, 1, 0x2D00); (0x10C7, 0x10C7, 1, 0x2D27);
    (0x10CD, 0x10CD, 1, 0x2D2D); (0x13A0, 0x13EF, 1, 0xAB70);
    (0x13F0, 0x13F5, 1, 0x13F8); (0x1C90, 0x1CBA, 1, 0x10D0);
    (0x1CBD, 0x1CBF, 1, 0x10FD); (0x1E00, 0x1E94, 2, 0x1E01);
    (0x1E9E, 0x1E9E, 1, 0x00DF); (0x1EA0, 0x1EFE, 2, 0x1EA1);
    (0x1F08, 0x1F0F, 1, 0x1F00); (0x1F18, 0x1F1D, 1, 0x1F10);
    (0x1F28, 0x1F2F, 1, 0x1F20); (0x1F38, 0x1F3F, 1, 0x1F30);
    (0x1F48, 0x1F4D, 1, 0x1F40); (0x1F59, 0x1F5F, 2, 0x1F51);
    (0x1F68, 0x1F6F, 1, 0x1F60); (0x1F88, 0x1F8F, 1, 0x1F80);
    (0x1F98, 0x1F9F, 1, 0x1F90); (0x1FA8, 0x1FAF, 1, 0x1FA0);
    (0x1FB8, 0x1FB9, 1, 0x1FB0); (0x1FBA, 0x1FBB, 1, 0x1F70);
    (0x1FBC, 0x1FBC, 1, 0x1FB3); (0x1FC8, 0x1FCB, 1, 0x1F72);
    (0x1FCC, 0x1FCC, 1, 0x1FC3); (0x1FD8, 0x1FD9, 1, 0x1FD0);
    (0x1FDA, 0x1FDB, 1, 0x1F76); (0x1FE8, 0x1FE9, 1, 0x1FE0);
    (0x1FEA, 0x1FEB, 1, 0x1F7A); (0x1FEC, 0x1FEC, 1, 0x1FE5);
    (0x1FF8, 0x1FF9, 1, 0x1F78); (0x1FFA, 0x1FFB, 1, 0x1F7C);
    (0x1FFC, 0x1FFC, 1, 0x1FF3); (0x2126, 0x2126, 1, 0x03C9);
    (0x212A, 0x212A, 1, 0x006B); (0x212B, 0x212B, 1, 0x00E5);
    (0x2132, 0x2132, 1, 0x214E); (0x2160, 0x216F, 1, 0x2170);
    (0x2183, 0x2183, 1, 0x2184); (0x24B6, 0x24CF, 1, 0x24D0);
    (0x2C00, 0x2C2F, 1, 0x2C30); (0x2C60, 0x2C60, 1, 0x2C61);
    (0x2C62, 0x2C62, 1, 0x026B); (0x2C63, 0x2C63, 1, 0x1D7D);
    (0x2C64, 0x2C64, 1, 0x027D); (0x2C67, 0x2C6B, 2, 0x2C68);
    (0x2C6D, 0x2C6D, 1, 0x0251); (0x2C6E, 0x2C6E, 1, 0x0271);
    (0x2C6F, 0x2C6F, 1, 0x0250); (0x2C70, 0x2C70, 1, 0x0252);
    (0x2C72, 0x2C72, 1, 0x2C73); (0x2C75, 0x2C75, 1, 0x2C76);
    (0x2C7E, 0x2C7F, 1, 0x023F); (0x2C80, 0x2CE2, 2, 0x2C81);
    (0x2CEB, 0x2CED, 2, 0x2CEC); (0x2CF2, 0x2CF2, 1, 0x2CF3);
    (0xA640, 0xA66C, 2, 0xA641); (0xA680, 0xA69A, 2, 0xA681);
    (0xA722, 0xA72E, 2, 0xA723); (0xA732, 0xA76E, 2, 0xA733);
    (0xA779, 0xA77B, 2, 0xA77A); (0xA77D, 0xA77D, 1, 0x1D79);
    (0xA77E, 0xA786, 2, 0xA77F); (0xA78B, 0xA78B, 1, 0xA78C);
    (0xA78D, 0xA78D, 1, 0x0265); (0xA790, 0xA792, 2, 0xA791);
    (0xA796, 0xA7A8, 2, 0xA797); (0xA7AA, 0xA7AA, 1, 0x0266);
    (0xA7AB, 0xA7AB, 1, 0x025C); (0xA7AC, 0xA7AC, 1, 0x0261);
    (0xA7AD, 0xA7AD, 1, 0x026C); (0xA7AE, 0xA7AE, 1, 0x026A);
    (0xA7B0, 0xA7B0, 1, 0x029E); (0xA7B1, 0xA7B1, 1, 0x0287);
    (0xA7B2, 0xA7B2, 1, 0x029D); (0xA7B3, 0xA7B3, 1, 0xAB53);
    (0xA7B4, 0xA7C2, 2, 0xA7B5); (0xA7C4, 0xA7C4, 1, 0xA794);
    (0xA7C5, 0xA7C5, 1, 0x0282); (0xA7C6, 0xA7C6, 1, 0x1D8E);
    (0xA7C7, 0xA7C9, 2, 0xA7C8); (0xA7D0, 0xA7D0, 1, 0xA7D1);
    (0xA7D6, 0xA7D8, 2, 0xA7D7); (0xA7F5, 0xA7F5, 1, 0xA7F6);
    (0xFF21, 0xFF3A, 1, 0xFF41); (0x10400, 0x10427, 1, 0x10428);
    (0x104B0, 0x104D3, 1, 0x104D8); (0x10570, 0x1057A, 1, 0x10597);
    (0x1057C, 0x1058A, 1, 0x105A3); (0x1058C, 0x10592, 1, 0x105B3);
    (0x10594, 0x10595, 1, 0x105BB); (0x10C80, 0x10CB2, 1, 0x10CC0);
    (0x118A0, 0x118BF, 1, 0x118C0); (0x16E40, 0x16E5F, 1, 0x16E60);
    (0x1E900, 0x1E921, 1, 0x1E922) ]%N.

(** unicode.To(unicode.LowerCase, r, unicode.CaseRanges) *)
Definition LowerCase (r : N) : N :=
  match
    find (fun '(lo, hi, stride, _) =>
            if between lo hi r then ((r - lo) mod stride =? 0)%N else false)
         CaseRanges
  with
  | Some (lo, _, _, lower) => (lower + (r - lo))%N
  | None => r
  end.

Inductive DirState : Type :=
| Absent
| Unreadable (e : oserror)
| Listing (entries : list DirEntry).

Fixpoint lookupFile (files : list (string * string)) (path : string)
  : os_result string :=
  match files with
  | [] => Err ("open " ++ path ++ ": no such file or directory")
  | (p, c) :: rest => if p =? path then Ok c else lookupFile rest path
  end.

(** A scenario: what a concrete environment is made of. *)
Record Scenario : Type := mkScenario {
  sc_apiKey : string;
  sc_claude : bool;
  sc_templates : DirState;                 (* ./10_PromptTemplates *)
  sc_files : list (string * string);       (* path, content *)
  sc_stdout : string;                      (* of the child process *)
  sc_exit : option oserror;                (* of the child process *)
  sc_selectTemplate : os_result nat;
  sc_enterInput : os_result string;
  sc_confirmSave : os_result string;
  sc_selectLocation : os_result nat;
  sc_enterFilename : os_result string
}.

Definition worldOf (sc : Scenario) : World :=
  {| unicode_LowerCase := LowerCase;
     env_OPENROUTER_API_KEY := sc_apiKey sc;
     claude_version_runs := sc_claude sc;
     os_Stat := fun path =>
       if path =? "10_PromptTemplates" then
         match sc_templates sc with Absent => StatNotExist | _ => StatOk end
       else StatNotExist;
     os_ReadDir := fun path =>
       if path =? "10_PromptTemplates" then
         match sc_templates sc with
         | Absent => Err "no such file or directory"
         | Unreadable e => Err e
         | Listing entries => Ok entries
         end
       else Err "no such file or directory";
     os_ReadFile := lookupFile (sc_files sc);
     filepath_Walk := fun _ => Err "no such file or directory";
     filepath_Rel := fun _ path => Ok path;
     os_MkdirAll := fun _ => None;
     os_WriteFile := fun _ _ => None;
     now_day := "2025-01-31";
     now_stamp := "2025-01-31 09:30:00";
     stdin_pipe := None;
     cmd_StdinPipe := None;
     cmd_Start := if sc_claude sc then None else Some "executable file not found";
     cmd_WriteStdin := fun _ => None;
     cmd_Wait := fun _ => sc_exit sc;
     cmd_stdout := fun _ => sc_stdout sc;
     cmd_stderr := fun _ => "";
     openrouter_ExecutePrompt := fun _ _ _ => Err "unreachable";
     ui_selectTemplate := fun _ => sc_selectTemplate sc;
     ui_enterInput := sc_enterInput sc;
     ui_confirmSave := sc_confirmSave sc;
     ui_selectLocation := fun _ => sc_selectLocation sc;
     ui_enterCustomPath := Err "^C";
     ui_enterFilename := fun _ => sc_enterFilename sc;
     ui_selectFile := fun _ => Err "^C" |}.

Definition file (name : string) : DirEntry := mkDirEntry name false.
Definition directory (name : string) : DirEntry := mkDirEntry name true.

(** A store with the given directory state and files, a working local
    assistant that answers [stdout], and a user who types "input", picks
    the first template and declines to save. *)
Definition storeWorld (templates : DirState) (files : list (string * string))
  : World :=
  worldOf (mkScenario "" true templates files ("answer" ++ nl) None
             (Ok 0) (Ok "input") (Err "") (Ok 3) (Ok "meeting")).

(** The project of the specification's scenarios. *)
Definition salesFiles : list (string * string) :=
  [ ("10_PromptTemplates/Sales_Discovery.md",
     "# Discover Needs" ++ nl ++ "Ask about budget." ++ nl) ].

Definition salesDir : DirState :=
  Listing [file "Sales_Discovery.md"; file "notes.txt"].

Definition salesWorld : World := storeWorld salesDir salesFiles.

(** Three templates whose display names all contain "sales". *)
Definition collidingDir : DirState :=
  Listing [file "Big_Sales.md"; file "Sales.md"; file "Sales_Discovery.md"].

(** Two templates with one display name, "a b". *)
Definition sameNameDir : DirState := Listing [file "a b.md"; file "a_b.md"].

(** A template file named ".md" after another template. *)
Definition bareExtensionDir : DirState := Listing [file "-a.md"; file ".md"].

(** A directory without template entries. *)
Definition noTemplateDir : DirState :=
  Listing [file "notes.txt"; directory "archive.md"; file "README"].



(** The sales project with a user who saves to destination 3 under the
    filename "meeting". *)
Definition savingWorld : World :=
  worldOf (mkScenario "" true salesDir salesFiles ("answer" ++ nl) None
             (Ok 0) (Ok "input") (Ok "y") (Ok 3) (Ok "meeting")).

(** The sales project with neither the local assistant nor the
    credential variable. *)
Definition noProviderWorld : World :=
  worldOf (mkScenario "" false salesDir salesFiles ("answer" ++ nl) None
             (Ok 0) (Ok "input") (Ok "y") (Ok 3) (Ok "meeting")).

(** The sales project with a user who cancels the template menu. *)
Definition cancelMenuWorld : World :=
  worldOf (mkScenario "" true salesDir salesFiles ("answer" ++ nl) None
             (Err "^C") (Ok "input") (Ok "y") (Ok 3) (Ok "meeting")).

(** The sales project with a user who cancels the input prompt. *)
Definition cancelInputWorld : World :=
  worldOf (mkScenario "" true salesDir salesFiles ("answer" ++ nl) None
             (Ok 0) (Err "^C") (Ok "y") (Ok 3) (Ok "meeting")).

(** The sales project with a user who confirms the save and then cancels
    the filename prompt. *)
Definition cancelFilenameWorld : World :=
  worldOf (mkScenario "" true salesDir salesFiles ("answer" ++ nl) None
             (Ok 0) (Ok "input") (Ok "y") (Ok 3) (Err "^C")).


(** [w] with another inbox, standard input, file menu answer, credential,
    remote answer and outcome of MkdirAll. *)
Definition amendWorld (w : World) (apiKey : string)
  (inbox : option (os_result (list WalkItem)))
  (pipe : option (os_result string))
  (selectFile : list string -> os_result nat)
  (remote : os_result string) (mkdir : option oserror) : World :=
  {| unicode_LowerCase := unicode_LowerCase w;
     env_OPENROUTER_API_KEY := apiKey;
     claude_version_runs := claude_version_runs w;
     os_Stat := fun path =>
       if path =? "00_Inbox" then
         match inbox with None => StatNotExist | Some _ => StatOk end
       else os_Stat w path;
     os_ReadDir := os_ReadDir w;
     os_ReadFile := os_ReadFile w;
     filepath_Walk := fun path =>
       match inbox with
       | Some r => if path =? "00_Inbox" then r else filepath_Walk w path
       | None => filepath_Walk w path
       end;
     filepath_Rel := filepath_Rel w;
     os_MkdirAll := fun _ => mkdir;
     os_WriteFile := os_WriteFile w;
     now_day := now_day w;
     now_stamp := now_stamp w;
     stdin_pipe := pipe;
     cmd_StdinPipe := cmd_StdinPipe w;
     cmd_Start := cmd_Start w;
     cmd_WriteStdin := cmd_WriteStdin w;
     cmd_Wait := cmd_Wait w;
     cmd_stdout := cmd_stdout w;
     cmd_stderr := cmd_stderr w;
     openrouter_ExecutePrompt := fun _ _ _ => remote;
     ui_selectTemplate := ui_selectTemplate w;
     ui_enterInput := ui_enterInput w;
     ui_confirmSave := ui_confirmSave w;
     ui_selectLocation := ui_selectLocation w;
     ui_enterCustomPath := ui_enterCustomPath w;
     ui_enterFilename := ui_enterFilename w;
     ui_selectFile := selectFile |}.

(** A user who cancels the file menu, and one who picks its last
    item. *)
Definition cancelFile (items : list string) : os_result nat := Err "^C".

Definition pickLast (items : list string) : os_result nat :=
  match items with
  | [] => Err "nothing to select"
  | _ :: rest => Ok (List.length rest)
  end.

(** An inbox with a folder and two files in it. *)
Definition inboxItems : list WalkItem :=
  [ mkWalkItem "00_Inbox" true "00_Inbox" 4096 "2025-01-30 08:00";
    mkWalkItem "00_Inbox/notes" true "notes" 4096 "2025-01-30 08:00";
    mkWalkItem "00_Inbox/notes/call.txt" false "call.txt" 2500 "2025-01-30 08:05";
    mkWalkItem "00_Inbox/brief.md" false "brief.md" 120 "2025-01-29 17:40" ].

(** The sales project with that inbox and a user who picks its second
    file. *)
Definition inboxWorld : World :=
  amendWorld salesWorld "" (Some (Ok inboxItems)) None pickLast
    (Err "unreachable") None.

(** The sales project with "from the pipe" on standard input. *)
Definition pipedWorld : World :=
  amendWorld salesWorld "" None (Some (Ok "from the pipe")) cancelFile
    (Err "unreachable") None.

(** The sales project with the credential and without the local
    assistant; the remote API answers "remote answer". *)
Definition remoteWorld : World :=
  amendWorld noProviderWorld "sk-key" None None cancelFile
    (Ok "remote answer") None.

(** The sales project where no directory can be created. *)
Definition readOnlyWorld : World :=
  amendWorld savingWorld "" None None cancelFile (Err "unreachable")
    (Some "read-only file system").

(** A child process that prints white space only: a line feed, a
    no-break space (U+00A0), an ideographic space (U+3000), two blanks and
    a line feed. *)
Definition blankAnswerWorld : World :=
  worldOf (mkScenario "" true salesDir salesFiles
             (nl ++ ofBytes [0xC2; 0xA0; 0xE3; 0x80; 0x80]%N ++ "  " ++ nl) None
             (Ok 0) (Ok "input") (Err "") (Ok 3) (Ok "meeting")).

(** A child process that prints "\u00a0\u2003answer\u0085\n": the answer
    with a no-break space and an em space before it, a next-line
    character and a line feed after it. *)
Definition paddedAnswerWorld : World :=
  worldOf (mkScenario "" true salesDir salesFiles
             (ofBytes [0xC2; 0xA0; 0xE2; 0x80; 0x83]%N ++ "answer"
                ++ ofBytes [0xC2; 0x85]%N ++ nl) None
             (Ok 0) (Ok "input") (Err "") (Ok 3) (Ok "meeting")).

(** A child process that prints nothing. *)
Definition silentWorld : World :=
  worldOf (mkScenario "" true salesDir salesFiles "" None
             (Ok 0) (Ok "input") (Err "") (Ok 3) (Ok "meeting")).

(** "\u00a0École_Notes": a file name that starts with a no-break space. *)
Definition paddedName : string :=
  ofBytes [0xC2; 0xA0; 0xC3; 0x89]%N ++ "cole_Notes".

(** A template file that cannot be read, beside one that can. *)
Definition lockedDir : DirState :=
  Listing [file "Locked.md"; file "Sales_Discovery.md"].

(* ================================================================== *)
(** ** The library functions on the paths and texts of the program *)
(* ================================================================== *)

Example Base_ex1 : Base "00_Inbox/notes/meeting.txt" = "meeting.txt".
Proof. reflexivity. Qed.
Example Base_ex2 : Base "a/b//" = "b" /\ Base "///" = "/" /\ Base "" = ".".
Proof. repeat split. Qed.
Example Join_ex1 : Join ["."; "00_Inbox/notes"; "meeting.md"] = "00_Inbox/notes/meeting.md".
Proof. reflexivity. Qed.
Example Join_ex2 : Join ["."; "10_PromptTemplates"] = "10_PromptTemplates".
Proof. reflexivity. Qed.
Example Clean_ex : Clean "a//b/./c/../../d" = "a/d" /\ Clean "/../a" = "/a"
                   /\ Clean "../../a/.." = "../.." /\ Clean "" = ".".
Proof. repeat split. Qed.
Example Dir_ex : Dir "out/sub/x.md" = "out/sub" /\ Dir "x.md" = "." /\ Dir "/x" = "/".
Proof. repeat split. Qed.
Example TrimSpace_ex : TrimSpace ("  a b " ++ nl) = "a b".
Proof. reflexivity. Qed.

(** utf8.DecodeRuneInString and utf8.AppendRune on well-formed and on
    ill-formed text: "É", U+2003, "A", U+1F600; then an overlong form, a
    surrogate and a truncated encoding, one [RuneError] for each byte. *)
Example decodeRunes_ex :
  decodeRunes (ofBytes [0xC3; 0x89; 0xE2; 0x80; 0x83; 0x41;
                        0xF0; 0x9F; 0x98; 0x80]%N)
    = [0xC9; 0x2003; 0x41; 0x1F600]%N
  /\ decodeRunes (ofBytes [0xC0; 0x80; 0xED; 0xA0; 0x80; 0xE2; 0x80]%N)
    = repeat RuneError 7.
Proof. split; reflexivity. Qed.

Example EncodeRune_ex :
  map EncodeRune [0x41; 0xC9; 0x2003; 0x1F600; 0xD800; 0x110000]%N
    = [ "A"; ofBytes [0xC3; 0x89]%N; ofBytes [0xE2; 0x80; 0x83]%N;
        ofBytes [0xF0; 0x9F; 0x98; 0x80]%N; ofBytes [0xEF; 0xBF; 0xBD]%N;
        ofBytes [0xEF; 0xBF; 0xBD]%N ].
Proof. reflexivity. Qed.

(** unicode.IsSpace holds of these 25 characters and of no other. *)
Example IsSpace_White_Space :
  filter Unicode.IsSpace (map N.of_nat (seq 0 0x3100)) = White_Space
  /\ forall r, (0x3000 < r)%N -> Unicode.IsSpace r = false.
Proof.
  split; [vm_compute; reflexivity |].
  intros r Hr. unfold Unicode.IsSpace, between.
  destruct (N.leb_spec r 0xFF); [lia |].
  repeat rewrite ?orb_false_iff, ?andb_false_iff, ?N.leb_gt, ?N.eqb_neq.
  repeat split; lia.
Qed.

(** Each white-space character is trimmed on both sides, alone or
    repeated. *)
Example TrimSpace_White_Space :
  forallb (fun r =>
             (TrimSpace (EncodeRune r ++ "x y" ++ EncodeRune r) =? "x y")
             && (TrimSpace (EncodeRune r ++ EncodeRune r) =? ""))
          White_Space = true.
Proof. vm_compute. reflexivity. Qed.

(** Their neighbours are not, nor are U+180E, U+200B, U+2060 and U+FEFF,
    nor a byte that is not part of a well-formed encoding. *)
Example TrimSpace_not_space :
  forallb (fun r =>
             let s := EncodeRune r ++ "x" ++ EncodeRune r in
             TrimSpace s =? s)
          [ 0x08; 0x0E; 0x1F; 0x21; 0x84; 0x86; 0x9F; 0xA1; 0x167F; 0x1681;
            0x180E; 0x1FFF; 0x200B; 0x2027; 0x202A; 0x202E; 0x2030; 0x205E;
            0x2060; 0x2FFF; 0x3001; 0xFEFF; 0xFFFD ]%N = true
  /\ TrimSpace (ofBytes [0xC2; 0x20; 0x41; 0x20; 0xA0]%N)
     = ofBytes [0xC2; 0x20; 0x41; 0x20; 0xA0]%N.
Proof. split; vm_compute; reflexivity. Qed.

(** "\u00a0\u2003Title\u3000\u0085\n" *)
Example TrimSpace_unicode :
  TrimSpace (ofBytes [0xC2; 0xA0; 0xE2; 0x80; 0x83]%N ++ "Title"
               ++ ofBytes [0xE3; 0x80; 0x80; 0xC2; 0x85]%N ++ nl) = "Title".
Proof. vm_compute. reflexivity. Qed.
Example Split_ex : Split ("# T" ++ nl ++ "x" ++ nl) LF = ["# T"; "x"; ""].
Proof. reflexivity. Qed.
(** White space next to bytes that are not part of a well-formed
    encoding: the text and what is left of it. A truncated or overlong
    encoding, a surrogate and a lone continuation byte are no white space
    and the trimming stops at them, from either side; U+200B, U+180E and
    U+FEFF stay. *)
Example TrimSpace_ill_formed :
  forallb (fun '(s, t) => TrimSpace s =? t)
    [ (ofBytes [0xE2; 0x80; 0x20]%N, ofBytes [0xE2; 0x80]%N);
      (ofBytes [0x20; 0xE2; 0x80]%N, ofBytes [0xE2; 0x80]%N);
      (ofBytes [0xC2; 0xA0; 0xC2]%N, ofBytes [0xC2]%N);
      (ofBytes [0xC2; 0xC2; 0xA0]%N, ofBytes [0xC2]%N);
      (ofBytes [0xA0; 0xC2; 0xA0]%N, ofBytes [0xA0]%N);
      (ofBytes [0xE2; 0x80; 0x80; 0x80]%N, ofBytes [0x80]%N);
      (ofBytes [0x80; 0xE2; 0x80; 0x80]%N, ofBytes [0x80]%N);
      (ofBytes [0xE3; 0x80; 0x80; 0x41; 0xE1; 0x9A; 0x80]%N, "A");
      (ofBytes [0xC0; 0xA0; 0x41; 0x20]%N, ofBytes [0xC0; 0xA0; 0x41]%N);
      (ofBytes [0xE0; 0x80; 0x80; 0x41]%N, ofBytes [0xE0; 0x80; 0x80; 0x41]%N);
      (ofBytes [0xED; 0xA0; 0x80; 0x20]%N, ofBytes [0xED; 0xA0; 0x80]%N);
      (ofBytes [0xF0; 0x9F; 0x98; 0x80; 0x0A]%N,
       ofBytes [0xF0; 0x9F; 0x98; 0x80]%N);
      (ofBytes [0x0A; 0xF0; 0x80; 0x80; 0x80]%N,
       ofBytes [0xF0; 0x80; 0x80; 0x80]%N);
      (ofBytes [0x85; 0x41; 0x85]%N, ofBytes [0x85; 0x41; 0x85]%N);
      (ofBytes [0xC2; 0x85; 0x41; 0xC2; 0x85]%N, "A");
      (ofBytes [0xE2; 0x80; 0xA8; 0xE2; 0x80; 0xA9; 0x41;
                0xE2; 0x80; 0xAF; 0xE2; 0x81; 0x9F]%N, "A");
      (ofBytes [0xE2; 0x80; 0x8B; 0x41]%N, ofBytes [0xE2; 0x80; 0x8B; 0x41]%N);
      (ofBytes [0xE1; 0xA0; 0x8E; 0x41]%N, ofBytes [0xE1; 0xA0; 0x8E; 0x41]%N);
      (ofBytes [0xEF; 0xBB; 0xBF; 0x41; 0x20]%N,
       ofBytes [0xEF; 0xBB; 0xBF; 0x41]%N) ] = true.
Proof. vm_compute. reflexivity. Qed.

Example ToLower_ex :
  forall caseTable,
    ToLower caseTable "Sales Discovery_9Z" = "sales discovery_9z".
Proof. reflexivity. Qed.

(** "École ΣΑΣ ЖЗ" and "école σασ жз"; a byte that is not part of a
    well-formed encoding becomes U+FFFD once the text is not ASCII. *)
Example ToLower_unicode :
  ToLower LowerCase
    (ofBytes [0xC3; 0x89]%N ++ "cole "
       ++ ofBytes [0xCE; 0xA3; 0xCE; 0x91; 0xCE; 0xA3; 0x20;
                   0xD0; 0x96; 0xD0; 0x97]%N)
    = ofBytes [0xC3; 0xA9]%N ++ "cole "
        ++ ofBytes [0xCF; 0x83; 0xCE; 0xB1; 0xCF; 0x83; 0x20;
                    0xD0; 0xB6; 0xD0; 0xB7]%N
  /\ ToLower LowerCase (ofBytes [0xC3; 0x89; 0xFF; 0x41]%N)
     = ofBytes [0xC3; 0xA9; 0xEF; 0xBF; 0xBD; 0x61]%N
  /\ ToLower LowerCase (ofBytes [0x41; 0x42]%N) = "ab".
Proof. repeat split; vm_compute; reflexivity. Qed.
(** Lower case outside ASCII and next to bytes that are not part of a
    well-formed encoding: U+0130 becomes "i", U+1E9E becomes U+00DF,
    U+10400 becomes U+10428, and every ill-formed byte U+FFFD. *)
Example ToLower_ill_formed :
  forallb (fun '(s, t) => ToLower LowerCase s =? t)
    [ (ofBytes [0x41; 0xFF]%N, ofBytes [0x61; 0xEF; 0xBF; 0xBD]%N);
      (ofBytes [0xE2; 0x80]%N, ofBytes [0xEF; 0xBF; 0xBD; 0xEF; 0xBF; 0xBD]%N);
      (ofBytes [0xC4; 0xB0]%N, "i");
      (ofBytes [0xE1; 0xBA; 0x9E; 0xED; 0xA0; 0x80]%N,
       ofBytes [0xC3; 0x9F; 0xEF; 0xBF; 0xBD; 0xEF; 0xBF; 0xBD;
                0xEF; 0xBF; 0xBD]%N);
      (ofBytes [0xCE; 0xA3; 0xC2]%N, ofBytes [0xCF; 0x83; 0xEF; 0xBF; 0xBD]%N);
      (ofBytes [0xF0; 0x90; 0x90; 0x80; 0x5A]%N,
       ofBytes [0xF0; 0x90; 0x90; 0xA8; 0x7A]%N) ] = true.
Proof. vm_compute. reflexivity. Qed.

Example itoa_ex : itoa 1204 = "1204" /\ itoa 0 = "0".
Proof. split; reflexivity. Qed.
Example HasSuffix_ex :
  HasSuffix "Sales_Discovery.md" ".md" = true /\ HasSuffix "notes.txt" ".md" = false
  /\ HasSuffix "md" ".md" = false /\ HasSuffix ".md" ".md" = true.
Proof. repeat split. Qed.
Example TrimPrefix_ex :
  TrimPrefix "# Title" "#" = " Title" /\ TrimPrefix "## Title" "#" = "# Title"
  /\ TrimPrefix "Title" "#" = "Title".
Proof. repeat split. Qed.
Example Contains_ex :
  Contains "sales discovery" "sales" = true /\ Contains "big sales" "sales" = true
  /\ Contains "sales" "sales discovery" = false.
Proof. repeat split. Qed.

(* ================================================================== *)
(** ** Facts about byte strings *)
(* ================================================================== *)

Lemma append_length (a b : string) :
  String.length (a ++ b) = String.length a + String.length b.
Proof. induction a as [|c a IH]; simpl; [reflexivity | now rewrite IH]. Qed.

Lemma append_nil_r (a : string) : a ++ "" = a.
Proof. induction a as [|c a IH]; simpl; [reflexivity | now rewrite IH]. Qed.

Lemma append_assoc (a b c : string) : (a ++ b) ++ c = a ++ (b ++ c).
Proof. induction a as [|x a IH]; simpl; [reflexivity | now rewrite IH]. Qed.

Lemma substring_all (s : string) : substring 0 (String.length s) s = s.
Proof. induction s as [|c s IH]; simpl; [reflexivity | now rewrite IH]. Qed.

Lemma substring_split (n m : nat) (s : string) :
  n + m = String.length s -> substring 0 n s ++ substring n m s = s.
Proof.
  revert m s. induction n as [|n IH]; intros m s H.
  - simpl in H. subst m. replace (substring 0 0 s) with "" by now destruct s.
    apply substring_all.
  - destruct s as [|c s]; simpl in H; [lia |]. simpl. f_equal. apply IH. lia.
Qed.

Lemma substring_app_l (pre suf : string) :
  substring 0 (String.length pre) (pre ++ suf) = pre.
Proof.
  induction pre as [|c pre IH]; simpl; [now destruct suf | now rewrite IH].
Qed.

Lemma substring_app_r (pre suf : string) :
  substring (String.length pre) (String.length suf) (pre ++ suf) = suf.
Proof. induction pre as [|c pre IH]; simpl; [apply substring_all | exact IH]. Qed.

(** [HasSuffix s suf] holds exactly when [s] ends in [suf]. *)
Lemma HasSuffix_spec (s suf : string) :
  HasSuffix s suf = true <-> exists pre, s = pre ++ suf.
Proof.
  unfold HasSuffix. rewrite andb_true_iff, Nat.leb_le, String.eqb_eq. split.
  - intros [Hle Hsub].
    exists (substring 0 (String.length s - String.length suf) s).
    pose proof (substring_split (String.length s - String.length suf)
                  (String.length suf) s ltac:(lia)) as H.
    rewrite Hsub in H. now symmetry.
  - intros [pre ->]. rewrite append_length. split; [lia |].
    replace (String.length pre + String.length suf - String.length suf)
      with (String.length pre) by lia.
    apply substring_app_r.
Qed.

(** [TrimSuffix] removes the suffix it finds. *)
Lemma TrimSuffix_app (pre suf : string) : TrimSuffix (pre ++ suf) suf = pre.
Proof.
  unfold TrimSuffix.
  rewrite (proj2 (HasSuffix_spec (pre ++ suf) suf)) by now exists pre.
  rewrite append_length.
  replace (String.length pre + String.length suf - String.length suf)
    with (String.length pre) by lia.
  apply substring_app_l.
Qed.

Lemma substring0_length (n : nat) (s : string) :
  n <= String.length s -> String.length (substring 0 n s) = n.
Proof.
  revert s; induction n as [|n IH]; intros s Hn.
  - destruct s; reflexivity.
  - destruct s as [|c s]; simpl in *; [lia |].
    rewrite IH; [reflexivity | lia].
Qed.

Lemma prefix_empty (s : string) : String.prefix "" s = true.
Proof. destruct s; reflexivity. Qed.

Lemma Contains_empty (s : string) : Contains s "" = true.
Proof. destruct s; simpl; now rewrite ?prefix_empty. Qed.

Lemma map_bytes_empty (f : ascii -> ascii) (s : string) :
  map_bytes f s = "" <-> s = "".
Proof. destruct s; simpl; split; intro H; try reflexivity; discriminate. Qed.

Lemma eqb_map_bytes_empty (f : ascii -> ascii) (s : string) :
  (map_bytes f s =? "") = (s =? "").
Proof. destruct s; reflexivity. Qed.

Lemma Split_not_nil (s : string) (sep : ascii) : Split s sep <> [].
Proof.
  destruct s as [|c s]; simpl; [discriminate |].
  destruct (Ascii.eqb c sep); [discriminate |].
  destruct (Split s sep); discriminate.
Qed.

Lemma hd_Split_firstLine (s : string) : hd "" (Split s LF) = firstLine s.
Proof.
  induction s as [|c s IH]; simpl; [reflexivity |].
  destruct (Ascii.eqb c LF); [reflexivity |].
  destruct (Split s LF) as [|h t] eqn:E; simpl in *; now rewrite <- IH.
Qed.

Lemma describe_firstLine (content : string) :
  describe content = truncate60 (TrimSpace (TrimPrefix (firstLine content) "#")).
Proof.
  unfold describe, truncate60. rewrite <- hd_Split_firstLine.
  destruct (Split content LF) as [|line0 rest] eqn:E; [|reflexivity].
  now destruct (Split_not_nil content LF).
Qed.

(** Every byte of a text starts or is a rune of the [for range] loop. *)
Lemma decodeRunes_cons (c : ascii) (s : string) :
  exists r rest, decodeRunes (String c s) = r :: rest.
Proof.
  simpl. destruct (size (byte c)) as [|[|[|[|[|n]]]]].
  - now eexists _, _.
  - now eexists _, _.
  - destruct s as [|c1 s2]; [now eexists _, _ |].
    destruct (accept _ _); now eexists _, _.
  - destruct s as [|c1 [|c2 s3]]; try now eexists _, _.
    destruct (accept _ _ && cont _); now eexists _, _.
  - destruct s as [|c1 [|c2 [|c3 s4]]]; try now eexists _, _.
    destruct (accept _ _ && cont _ && cont _); now eexists _, _.
  - now eexists _, _.
Qed.

Lemma EncodeRune_cons (r : N) : exists c s, EncodeRune r = String c s.
Proof.
  unfold EncodeRune.
  repeat match goal with
         | |- context [if ?b then _ else _] => destruct b
         end; now eexists _, _.
Qed.

(** strings.ToLower gives the empty text for the empty text only. *)
Lemma ToLower_eqb_empty (caseTable : N -> N) (s : string) :
  (ToLower caseTable s =? "") = (s =? "").
Proof.
  destruct s as [|c s]; [reflexivity |].
  unfold ToLower. destruct (isASCII (String c s)); [reflexivity |].
  unfold Map. destruct (decodeRunes_cons c s) as (r & rest & ->).
  simpl. now destruct (EncodeRune_cons (Unicode.ToLower caseTable r)) as (a & x & ->).
Qed.

(* ================================================================== *)
(** ** Facts about UTF-8 text: white space and lower case *)
(* ================================================================== *)

Lemma string_strong_ind (P : string -> Prop) :
  (forall s, (forall t, String.length t < String.length s -> P t) -> P s) ->
  forall s, P s.
Proof.
  intros H s. remember (String.length s) as n eqn:E.
  revert s E. induction n as [n IH] using lt_wf_ind.
  intros s ->. apply H. intros t Ht. now apply (IH (String.length t)).
Qed.

Lemma reverse_app (a b : string) : reverse (a ++ b) = reverse b ++ reverse a.
Proof.
  induction a as [|c a IH]; simpl.
  - now rewrite append_nil_r.
  - now rewrite IH, append_assoc.
Qed.

Lemma reverse_involutive (s : string) : reverse (reverse s) = s.
Proof.
  induction s as [|c s IH]; simpl; [reflexivity |].
  now rewrite reverse_app, IH.
Qed.

Section TrimLeft.

Variable p1 : ascii -> bool.
Variable p2 : ascii -> ascii -> bool.
Variable p3 : ascii -> ascii -> ascii -> bool.

Lemma trimLeft_startsWith (s : string) :
  startsWith p1 p2 p3 (trimLeft p1 p2 p3 s) = false.
Proof.
  induction s as [s IH] using string_strong_ind.
  destruct s as [|c0 s1]; [reflexivity |]. cbn [trimLeft].
  destruct (p1 c0) eqn:E1; [apply IH; simpl; lia |].
  destruct s1 as [|c1 s2]; [simpl; now rewrite E1 |].
  destruct (p2 c0 c1) eqn:E2; [apply IH; simpl; lia |].
  destruct s2 as [|c2 s3]; [simpl; now rewrite E1, E2 |].
  destruct (p3 c0 c1 c2) eqn:E3; [apply IH; simpl; lia |].
  simpl. now rewrite E1, E2, E3.
Qed.

Lemma trimLeft_fixed (s : string) :
  startsWith p1 p2 p3 s = false -> trimLeft p1 p2 p3 s = s.
Proof.
  destruct s as [|c0 s1]; [reflexivity |]. cbn [trimLeft startsWith].
  destruct (p1 c0); [discriminate |].
  destruct s1 as [|c1 s2]; [reflexivity |].
  destruct (p2 c0 c1); [discriminate |].
  destruct s2 as [|c2 s3]; [reflexivity |].
  destruct (p3 c0 c1 c2); [discriminate | reflexivity].
Qed.

(** What is trimmed is a prefix. *)
Lemma trimLeft_suffix (s : string) :
  exists pre, s = pre ++ trimLeft p1 p2 p3 s.
Proof.
  induction s as [s IH] using string_strong_ind.
  destruct s as [|c0 s1]; [now exists "" |]. cbn [trimLeft].
  destruct (p1 c0).
  { destruct (IH s1) as [pre H]; [simpl; lia |].
    exists (String c0 pre). simpl. now rewrite <- H. }
  destruct s1 as [|c1 s2]; [now exists "" |].
  destruct (p2 c0 c1).
  { destruct (IH s2) as [pre H]; [simpl; lia |].
    exists (String c0 (String c1 pre)). simpl. now rewrite <- H. }
  destruct s2 as [|c2 s3]; [now exists "" |].
  destruct (p3 c0 c1 c2); [| now exists ""].
  destruct (IH s3) as [pre H]; [simpl; lia |].
  exists (String c0 (String c1 (String c2 pre))). simpl. now rewrite <- H.
Qed.

Lemma startsWith_app (a b : string) :
  startsWith p1 p2 p3 a = true -> startsWith p1 p2 p3 (a ++ b) = true.
Proof.
  destruct a as [|c0 [|c1 [|c2 a3]]]; cbn [startsWith append]; try discriminate.
  - rewrite orb_false_r. now intros ->.
  - rewrite orb_false_r. intro H. destruct (p1 c0); [reflexivity |].
    simpl in *. now rewrite H.
  - trivial.
Qed.

End TrimLeft.

Lemma TrimSpace_noSpaceAround (s : string) : noSpaceAround (TrimSpace s).
Proof.
  unfold noSpaceAround, TrimSpace. split.
  - unfold startsWithSpace.
    destruct (startsWith _ _ _ (TrimRightSpace (TrimLeftSpace s))) eqn:E;
      [| reflexivity].
    unfold TrimRightSpace in E.
    destruct (trimLeft_suffix space1 (fun c1 c0 => space2 c0 c1)
                (fun c2 c1 c0 => space3 c0 c1 c2) (reverse (TrimLeftSpace s)))
      as [pre Hpre].
    apply (f_equal reverse) in Hpre.
    rewrite reverse_involutive, reverse_app in Hpre.
    apply (startsWith_app _ _ _ _ (reverse pre)) in E.
    rewrite <- Hpre in E. unfold TrimLeftSpace in E.
    now rewrite trimLeft_startsWith in E.
  - unfold endsWithSpace, TrimRightSpace. rewrite reverse_involutive.
    apply trimLeft_startsWith.
Qed.

Lemma decodeRunes_step (c0 : ascii) (s1 : string) :
  decodeRunes (String c0 s1) =
  match size (byte c0), s1 with
  | 1%nat, _ => byte c0 :: decodeRunes s1
  | 2%nat, String c1 s2 =>
      if accept (byte c0) (byte c1)
      then rune2 (byte c0) (byte c1) :: decodeRunes s2
      else RuneError :: decodeRunes s1
  | 3%nat, String c1 (String c2 s3) =>
      if accept (byte c0) (byte c1) && cont (byte c2)
      then rune3 (byte c0) (byte c1) (byte c2) :: decodeRunes s3
      else RuneError :: decodeRunes s1
  | 4%nat, String c1 (String c2 (String c3 s4)) =>
      if accept (byte c0) (byte c1) && cont (byte c2) && cont (byte c3)
      then rune4 (byte c0) (byte c1) (byte c2) (byte c3) :: decodeRunes s4
      else RuneError :: decodeRunes s1
  | _, _ => RuneError :: decodeRunes s1
  end.
Proof. reflexivity. Qed.

Lemma IsSpace_RuneError : Unicode.IsSpace RuneError = false.
Proof. reflexivity. Qed.

(** A list of runes that starts with [RuneError], or has two runes or
    more, is not one white-space character. *)
Lemma not_spaceRune_invalid (rest : list N) :
  match RuneError :: rest with
  | [r] => Unicode.IsSpace r
  | _ => false
  end = false.
Proof. destruct rest; reflexivity. Qed.

Lemma not_spaceRune_two (r : N) (c : ascii) (s : string) :
  match r :: decodeRunes (String c s) with
  | [r] => Unicode.IsSpace r
  | _ => false
  end = false.
Proof. now destruct (decodeRunes_cons c s) as (r' & rest & ->). Qed.

Lemma space1_inv (c0 : ascii) :
  space1 c0 = true ->
  size (byte c0) = 1 /\ Unicode.IsSpace (byte c0) = true.
Proof.
  unfold space1, spaceRune. rewrite decodeRunes_step.
  destruct (size (byte c0)) as [|[|[|[|[|n]]]]]; cbn [decodeRunes];
    try discriminate.
  now split.
Qed.

Lemma space2_inv (c0 c1 : ascii) :
  space2 c0 c1 = true ->
  size (byte c0) = 2 /\ accept (byte c0) (byte c1) = true /\
  Unicode.IsSpace (rune2 (byte c0) (byte c1)) = true.
Proof.
  unfold space2, spaceRune. rewrite decodeRunes_step.
  destruct (size (byte c0)) as [|[|[|[|[|n]]]]];
    rewrite ?not_spaceRune_invalid, ?not_spaceRune_two; try discriminate.
  destruct (accept _ _); rewrite ?not_spaceRune_invalid; [| discriminate].
  cbn [decodeRunes]. now repeat split.
Qed.

Lemma space3_inv (c0 c1 c2 : ascii) :
  space3 c0 c1 c2 = true ->
  size (byte c0) = 3 /\ accept (byte c0) (byte c1) = true /\
  cont (byte c2) = true /\
  Unicode.IsSpace (rune3 (byte c0) (byte c1) (byte c2)) = true.
Proof.
  unfold space3, spaceRune. rewrite decodeRunes_step.
  destruct (size (byte c0)) as [|[|[|[|[|n]]]]];
    rewrite ?not_spaceRune_invalid, ?not_spaceRune_two; try discriminate.
  - destruct (accept _ _); rewrite ?not_spaceRune_invalid, ?not_spaceRune_two;
      discriminate.
  - destruct (accept _ _) eqn:Ea; destruct (cont (byte c2)) eqn:Ec; simpl;
      rewrite ?not_spaceRune_invalid; try discriminate.
    now repeat split.
Qed.

Lemma space1_intro (c0 : ascii) :
  size (byte c0) = 1 -> space1 c0 = Unicode.IsSpace (byte c0).
Proof. intro H. unfold space1, spaceRune. rewrite decodeRunes_step, H. reflexivity. Qed.

Lemma space1_other (c0 : ascii) : size (byte c0) <> 1 -> space1 c0 = false.
Proof.
  intro H. destruct (space1 c0) eqn:E; [| reflexivity].
  now apply space1_inv in E.
Qed.

Lemma space2_intro (c0 c1 : ascii) :
  size (byte c0) = 2 -> accept (byte c0) (byte c1) = true ->
  space2 c0 c1 = Unicode.IsSpace (rune2 (byte c0) (byte c1)).
Proof.
  intros H Ha. unfold space2, spaceRune. rewrite decodeRunes_step, H, Ha.
  reflexivity.
Qed.

Lemma space2_other (c0 c1 : ascii) : size (byte c0) <> 2 -> space2 c0 c1 = false.
Proof.
  intro H. destruct (space2 c0 c1) eqn:E; [| reflexivity].
  now apply space2_inv in E.
Qed.

Lemma space3_intro (c0 c1 c2 : ascii) :
  size (byte c0) = 3 -> accept (byte c0) (byte c1) = true ->
  cont (byte c2) = true ->
  space3 c0 c1 c2 = Unicode.IsSpace (rune3 (byte c0) (byte c1) (byte c2)).
Proof.
  intros H Ha Hc. unfold space3, spaceRune.
  rewrite decodeRunes_step, H, Ha, Hc. reflexivity.
Qed.

(** A line feed is no second or third byte of an encoding. *)
Lemma accept_cont (b0 b1 : N) : accept b0 b1 = true -> cont b1 = true.
Proof.
  unfold accept, cont, between.
  repeat match goal with
         | |- context [if ?b then _ else _] => destruct b
         end; trivial;
    rewrite !andb_true_iff, !N.leb_le; lia.
Qed.

Lemma space2_LF (c0 : ascii) : space2 c0 LF = false.
Proof.
  destruct (space2 c0 LF) eqn:E; [| reflexivity].
  apply space2_inv in E as (_ & H & _). apply accept_cont in H. discriminate.
Qed.

Lemma space3_LF (c0 c1 : ascii) : space3 c0 c1 LF = false.
Proof.
  destruct (space3 c0 c1 LF) eqn:E; [| reflexivity].
  now apply space3_inv in E as (_ & _ & H & _).
Qed.

Lemma space3_LF_mid (c0 c2 : ascii) : space3 c0 LF c2 = false.
Proof.
  destruct (space3 c0 LF c2) eqn:E; [| reflexivity].
  apply space3_inv in E as (_ & H & _). apply accept_cont in H. discriminate.
Qed.

Lemma TrimLeftSpace_app_nl (s : string) :
  TrimLeftSpace (s ++ nl) =
  if TrimLeftSpace s =? "" then "" else TrimLeftSpace s ++ nl.
Proof.
  unfold TrimLeftSpace.
  induction s as [s IH] using string_strong_ind.
  destruct s as [|c0 s1]; [reflexivity |].
  cbn [append trimLeft].
  destruct (space1 c0) eqn:E1; [apply IH; simpl; lia |].
  destruct s1 as [|c1 s2].
  { cbn [append]. unfold nl at 1. now rewrite space2_LF. }
  cbn [append].
  destruct (space2 c0 c1) eqn:E2; [apply IH; simpl; lia |].
  destruct s2 as [|c2 s3].
  { cbn [append]. unfold nl at 1. now rewrite space3_LF. }
  cbn [append].
  destruct (space3 c0 c1 c2) eqn:E3; [apply IH; simpl; lia |].
  reflexivity.
Qed.

Lemma TrimRightSpace_app_nl (u : string) :
  TrimRightSpace (u ++ nl) = TrimRightSpace u.
Proof. unfold TrimRightSpace. now rewrite reverse_app. Qed.

Lemma TrimSpace_app_nl (s : string) : TrimSpace (s ++ nl) = TrimSpace s.
Proof.
  unfold TrimSpace. rewrite TrimLeftSpace_app_nl.
  destruct (String.eqb_spec (TrimLeftSpace s) "") as [-> | _]; [reflexivity |].
  apply TrimRightSpace_app_nl.
Qed.

Lemma In_allBytes (c : ascii) : In c allBytes.
Proof.
  rewrite <- (ascii_nat_embedding c). apply in_map, in_seq.
  pose proof (nat_ascii_bounded c). lia.
Qed.

Lemma rune4_high :
  forallb (fun c0 =>
    forallb (fun c1 =>
      implb ((size (byte c0) =? 4)%nat && accept (byte c0) (byte c1))
            (16 <=? N.max (N.log2 (N.shiftl (N.land (byte c0) 0x07) 18))
                          (N.log2 (N.shiftl (N.land (byte c1) 0x3F) 12)))%N)
      allBytes) allBytes = true.
Proof. vm_compute. reflexivity. Qed.

Lemma IsSpace_low (r : N) : Unicode.IsSpace r = true -> (N.log2 r < 16)%N.
Proof.
  intro H. assert (r <= 0x3000)%N as Hr.
  { unfold Unicode.IsSpace, between in H.
    destruct (N.leb_spec r 0xFF); [lia |].
    repeat rewrite ?orb_true_iff, ?andb_true_iff, ?N.leb_le, ?N.eqb_eq in H.
    lia. }
  destruct (N.eq_dec r 0) as [-> | Hz]; [reflexivity |].
  apply N.log2_lt_pow2; [lia |]. change (2 ^ 16)%N with 65536%N. lia.
Qed.

Lemma IsSpace_rune4 (c0 c1 c2 c3 : ascii) :
  size (byte c0) = 4 -> accept (byte c0) (byte c1) = true ->
  Unicode.IsSpace (rune4 (byte c0) (byte c1) (byte c2) (byte c3)) = false.
Proof.
  intros Hs Ha.
  destruct (Unicode.IsSpace _) eqn:E; [| reflexivity].
  apply IsSpace_low in E. unfold rune4 in E. rewrite !N.log2_lor in E.
  pose proof rune4_high as H.
  rewrite forallb_forall in H. specialize (H c0 (In_allBytes c0)).
  rewrite forallb_forall in H. specialize (H c1 (In_allBytes c1)).
  rewrite Hs, Ha in H. simpl in H. apply N.leb_le in H. lia.
Qed.

Lemma TrimLeftSpace_allSpace (s : string) :
  allSpace s = true -> TrimLeftSpace s = "".
Proof.
  unfold TrimLeftSpace, allSpace.
  induction s as [s IH] using string_strong_ind.
  destruct s as [|c0 s1]; [reflexivity |].
  rewrite decodeRunes_step. cbn [trimLeft].
  destruct (size (byte c0)) as [|[|[|[|[|n]]]]] eqn:Hs;
    try (cbn [forallb]; rewrite IsSpace_RuneError; discriminate).
  - (* one byte *)
    cbn [forallb]. rewrite andb_true_iff. intros [Hr Hrest].
    rewrite (space1_intro c0 Hs), Hr. apply IH; [simpl; lia | exact Hrest].
  - (* two bytes *)
    rewrite (space1_other c0) by lia.
    destruct s1 as [|c1 s2];
      [cbn [forallb]; rewrite IsSpace_RuneError; discriminate |].
    destruct (accept (byte c0) (byte c1)) eqn:Ha;
      [| cbn [forallb]; rewrite IsSpace_RuneError; discriminate].
    cbn [forallb]. rewrite andb_true_iff. intros [Hr Hrest].
    rewrite (space2_intro c0 c1 Hs Ha), Hr. apply IH; [simpl; lia | exact Hrest].
  - (* three bytes *)
    rewrite (space1_other c0) by lia.
    destruct s1 as [|c1 [|c2 s3]];
      try (cbn [forallb]; rewrite IsSpace_RuneError; discriminate).
    rewrite (space2_other c0 c1) by lia.
    destruct (accept (byte c0) (byte c1)) eqn:Ha;
      [| cbn [forallb andb]; rewrite IsSpace_RuneError; discriminate].
    destruct (cont (byte c2)) eqn:Hc;
      [| cbn [forallb andb]; rewrite IsSpace_RuneError; discriminate].
    cbn [forallb andb]. rewrite andb_true_iff. intros [Hr Hrest].
    rewrite (space3_intro c0 c1 c2 Hs Ha Hc), Hr.
    apply IH; [simpl; lia | exact Hrest].
  - (* four bytes *)
    destruct s1 as [|c1 [|c2 [|c3 s4]]];
      try (cbn [forallb]; rewrite IsSpace_RuneError; discriminate).
    destruct (accept (byte c0) (byte c1)) eqn:Ha;
      [| cbn [forallb andb]; rewrite IsSpace_RuneError; discriminate].
    destruct (cont (byte c2));
      [| cbn [forallb andb]; rewrite IsSpace_RuneError; discriminate].
    destruct (cont (byte c3));
      [| cbn [forallb andb]; rewrite IsSpace_RuneError; discriminate].
    cbn [forallb andb]. rewrite (IsSpace_rune4 c0 c1 c2 c3 Hs Ha). discriminate.
Qed.

Lemma TrimSpace_allSpace (s : string) : allSpace s = true -> TrimSpace s = "".
Proof. intro H. unfold TrimSpace. now rewrite TrimLeftSpace_allSpace. Qed.

Lemma size_ascii (b : N) : (b <? 0x80)%N = true -> size b = 1.
Proof. unfold size. now intros ->. Qed.

Lemma ToLower_Map (caseTable : N -> N) (s : string) :
  ToLower caseTable s = Map (Unicode.ToLower caseTable) s.
Proof.
  unfold ToLower. destruct (isASCII s) eqn:E; [| reflexivity].
  unfold Map. induction s as [|c s IH]; [reflexivity |].
  simpl in E. apply andb_true_iff in E as [Hc Hs].
  rewrite decodeRunes_step, (size_ascii _ Hc).
  cbn [map writeRunes map_bytes]. rewrite <- (IH Hs).
  apply N.ltb_lt in Hc.
  unfold Unicode.ToLower, Unicode.MaxASCII, lower_byte.
  destruct (N.leb_spec (byte c) 0x7F) as [_ | H]; [| lia].
  unfold EncodeRune.
  destruct (between 0x41 0x5A (byte c)) eqn:Eb.
  - unfold between in Eb. apply andb_true_iff in Eb as [_ Eb].
    apply N.leb_le in Eb.
    destruct (N.leb_spec (byte c + 0x20) 0x7F) as [_ | H]; [reflexivity | lia].
  - destruct (N.leb_spec (byte c) 0x7F) as [_ | H]; [| lia].
    unfold chr, byte. now rewrite ascii_N_embedding.
Qed.

Lemma writeRunes_app (xs ys : list N) :
  writeRunes (xs ++ ys)%list = writeRunes xs ++ writeRunes ys.
Proof.
  induction xs as [|x xs IH]; simpl; [reflexivity |].
  now rewrite IH, append_assoc.
Qed.

Lemma accept_boundary (b0 : N) (d : ascii) :
  cont (byte d) = false -> accept b0 (byte d) = false.
Proof.
  intro H. destruct (accept b0 (byte d)) eqn:E; [| reflexivity].
  apply accept_cont in E. congruence.
Qed.

Lemma decodeRunes_app (m v : string) :
  atBoundary v ->
  decodeRunes (m ++ v) = (decodeRunes m ++ decodeRunes v)%list.
Proof.
  destruct v as [|d v1];
    [intros _; rewrite append_nil_r; simpl; now rewrite app_nil_r |].
  set (v := String d v1). simpl. intro Hv.
  induction m as [m IH] using string_strong_ind.
  destruct m as [|c0 m1]; [reflexivity |].
  assert (forall r, r :: decodeRunes (m1 ++ v) =
                    ((r :: decodeRunes m1) ++ decodeRunes v)%list) as Hnext.
  { intro r. cbn [app]. f_equal. apply IH. simpl. lia. }
  cbn [append]. rewrite !decodeRunes_step.
  destruct (size (byte c0)) as [|[|[|[|[|n]]]]]; try apply Hnext.
  - (* two bytes *)
    destruct m1 as [|c1 m2]; cbn [append].
    + subst v; cbv beta iota. now rewrite (accept_boundary _ d Hv).
    + destruct (accept _ _); [| apply Hnext].
      cbn [app]. f_equal. apply IH. simpl. lia.
  - (* three bytes *)
    destruct m1 as [|c1 [|c2 m3]]; cbn [append].
    + subst v; cbv beta iota. destruct v1 as [|d2 v2]; [reflexivity |].
      now rewrite (accept_boundary _ d Hv).
    + subst v; cbv beta iota. rewrite Hv, andb_false_r. apply (Hnext RuneError).
    + destruct (accept _ _ && cont _); [| apply Hnext].
      cbn [app]. f_equal. apply IH. simpl. lia.
  - (* four bytes *)
    destruct m1 as [|c1 [|c2 [|c3 m4]]]; cbn [append].
    + subst v; cbv beta iota. destruct v1 as [|d2 [|d3 v3]]; try reflexivity.
      now rewrite (accept_boundary _ d Hv).
    + subst v; cbv beta iota. destruct v1 as [|d2 v2]; [apply (Hnext RuneError) |].
      rewrite Hv, andb_false_r. apply (Hnext RuneError).
    + subst v; cbv beta iota. rewrite Hv, andb_false_r. apply (Hnext RuneError).
    + destruct (accept _ _ && cont _ && cont _); [| apply Hnext].
      cbn [app]. f_equal. apply IH. simpl. lia.
Qed.

Lemma size_boundary (c : ascii) (n : nat) :
  size (byte c) = S n -> cont (byte c) = false.
Proof.
  unfold size, cont, between.
  destruct (N.ltb_spec (byte c) 0x80).
  { intros _. apply andb_false_iff. left. apply N.leb_gt. lia. }
  destruct (N.leb_spec 0xC2 (byte c)); simpl.
  { intros _. apply andb_false_iff. right. apply N.leb_gt. lia. }
  destruct (N.leb_spec 0xE0 (byte c)); simpl.
  { intros _. apply andb_false_iff. right. apply N.leb_gt. lia. }
  destruct (N.leb_spec 0xF0 (byte c)); simpl.
  { intros _. apply andb_false_iff. right. apply N.leb_gt. lia. }
  discriminate.
Qed.

Lemma wholeRunes_nil : wholeRunes "".
Proof. intro rest. reflexivity. Qed.

Lemma wholeRunes_space1 (c0 : ascii) (pre : string) :
  space1 c0 = true -> wholeRunes pre -> wholeRunes (String c0 pre).
Proof.
  intros H Hpre rest. apply space1_inv in H as [Hs _].
  cbn [append]. rewrite !decodeRunes_step, Hs, Hpre. reflexivity.
Qed.

Lemma wholeRunes_space2 (c0 c1 : ascii) (pre : string) :
  space2 c0 c1 = true -> wholeRunes pre ->
  wholeRunes (String c0 (String c1 pre)).
Proof.
  intros H Hpre rest. apply space2_inv in H as (Hs & Ha & _).
  cbn [append]. rewrite !decodeRunes_step, Hs, Ha, Hpre. reflexivity.
Qed.

Lemma wholeRunes_space3 (c0 c1 c2 : ascii) (pre : string) :
  space3 c0 c1 c2 = true -> wholeRunes pre ->
  wholeRunes (String c0 (String c1 (String c2 pre))).
Proof.
  intros H Hpre rest. apply space3_inv in H as (Hs & Ha & Hc & _).
  cbn [append]. rewrite !decodeRunes_step, Hs, Ha, Hc, Hpre. reflexivity.
Qed.

(** The white space trimmed on the left is made of whole encodings. *)
Lemma TrimLeftSpace_split (s : string) :
  exists pre, s = pre ++ TrimLeftSpace s /\ wholeRunes pre.
Proof.
  unfold TrimLeftSpace.
  induction s as [s IH] using string_strong_ind.
  destruct s as [|c0 s1]; [exists ""; split; [reflexivity | apply wholeRunes_nil] |].
  cbn [trimLeft].
  destruct (space1 c0) eqn:E1.
  { destruct (IH s1) as (pre & H & Hw); [simpl; lia |].
    exists (String c0 pre). split; [simpl; now rewrite <- H |].
    now apply wholeRunes_space1. }
  destruct s1 as [|c1 s2];
    [exists ""; split; [reflexivity | apply wholeRunes_nil] |].
  destruct (space2 c0 c1) eqn:E2.
  { destruct (IH s2) as (pre & H & Hw); [simpl; lia |].
    exists (String c0 (String c1 pre)). split; [simpl; now rewrite <- H |].
    now apply wholeRunes_space2. }
  destruct s2 as [|c2 s3];
    [exists ""; split; [reflexivity | apply wholeRunes_nil] |].
  destruct (space3 c0 c1 c2) eqn:E3;
    [| exists ""; split; [reflexivity | apply wholeRunes_nil]].
  destruct (IH s3) as (pre & H & Hw); [simpl; lia |].
  exists (String c0 (String c1 (String c2 pre))).
  split; [simpl; now rewrite <- H |]. now apply wholeRunes_space3.
Qed.

Lemma atBoundary_app (a b : string) :
  atBoundary a -> atBoundary b -> atBoundary (a ++ b).
Proof. destruct a; simpl; trivial. Qed.

(** The white space trimmed on the right starts at a boundary. *)
Lemma TrimRightSpace_split (u : string) :
  exists post, u = TrimRightSpace u ++ post /\ atBoundary post.
Proof.
  unfold TrimRightSpace.
  assert (forall x, exists pre,
            x = pre ++ trimLeft space1 (fun c1 c0 => space2 c0 c1)
                         (fun c2 c1 c0 => space3 c0 c1 c2) x /\
            atBoundary (reverse pre)) as H.
  { intro x. induction x as [x IH] using string_strong_ind.
    destruct x as [|c0 x1]; [exists ""; now split |].
    cbn [trimLeft].
    destruct (space1 c0) eqn:E1.
    { destruct (IH x1) as (pre & H & Hb); [simpl; lia |].
      exists (String c0 pre). split; [simpl; now rewrite <- H |].
      simpl. apply atBoundary_app; [exact Hb |].
      apply space1_inv in E1 as [Hs _]. simpl. now apply (size_boundary c0 0). }
    destruct x1 as [|c1 x2]; [exists ""; now split |].
    destruct (space2 c1 c0) eqn:E2.
    { destruct (IH x2) as (pre & H & Hb); [simpl; lia |].
      exists (String c0 (String c1 pre)). split; [simpl; now rewrite <- H |].
      simpl. rewrite append_assoc. apply atBoundary_app; [exact Hb |].
      apply space2_inv in E2 as (Hs & _). simpl. now apply (size_boundary c1 1). }
    destruct x2 as [|c2 x3]; [exists ""; now split |].
    destruct (space3 c2 c1 c0) eqn:E3; [| exists ""; now split].
    destruct (IH x3) as (pre & H & Hb); [simpl; lia |].
    exists (String c0 (String c1 (String c2 pre))).
    split; [simpl; now rewrite <- H |].
    simpl. rewrite !append_assoc. apply atBoundary_app; [exact Hb |].
    apply space3_inv in E3 as (Hs & _). simpl. now apply (size_boundary c2 2). }
  destruct (H (reverse u)) as (pre & Hpre & Hb).
  exists (reverse pre). split; [| exact Hb].
  apply (f_equal reverse) in Hpre.
  now rewrite reverse_involutive, reverse_app in Hpre.
Qed.

Lemma prefix_app (b c : string) : String.prefix b (b ++ c) = true.
Proof.
  induction b as [|x b IH]; simpl; [apply prefix_empty |].
  destruct (ascii_dec x x); [exact IH | contradiction].
Qed.

Lemma Contains_middle (a b c : string) : Contains (a ++ b ++ c) b = true.
Proof.
  induction a as [|x a IH].
  - cbn [append]. pose proof (prefix_app b c) as H.
    destruct (b ++ c); cbn [Contains]; now rewrite H.
  - cbn [append Contains]. rewrite IH. apply orb_true_r.
Qed.

(** Lower-casing goes through trimming: the lower-cased text contains
    the lower-cased trimmed text. *)
Lemma ToLower_TrimSpace (caseTable : N -> N) (s : string) :
  Contains (ToLower caseTable s) (ToLower caseTable (TrimSpace s)) = true.
Proof.
  rewrite !ToLower_Map. unfold TrimSpace.
  destruct (TrimLeftSpace_split s) as (pre & Hpre & Hw).
  destruct (TrimRightSpace_split (TrimLeftSpace s)) as (post & Hpost & Hb).
  rewrite Hpre at 1. rewrite Hpost at 1. unfold Map.
  rewrite Hw, (decodeRunes_app _ post Hb), !map_app, !writeRunes_app.
  apply Contains_middle.
Qed.

(* ================================================================== *)
(** ** Facts about the template store *)
(* ================================================================== *)

Section Store.

Variable w : World.

Lemma ListPrompts_loop_map (promptsPath : string) (entries : list DirEntry) :
  ListPrompts_loop w promptsPath entries =
  (map (templateOf w promptsPath) (filter isTemplateEntry entries),
   map (fun entry => EvReadFile (Join [promptsPath; entry_Name entry]))
       (filter isTemplateEntry entries)).
Proof.
  induction entries as [|entry rest IH]; simpl; [reflexivity |].
  unfold isTemplateEntry in *.
  destruct (entry_IsDir entry); simpl; [exact IH |].
  destruct (HasSuffix (entry_Name entry) ".md"); simpl; [| exact IH].
  rewrite IH. reflexivity.
Qed.

(** A listing that succeeds returns the templates of the template
    entries, in the order of the directory listing, and is not empty. *)
Lemma ListPrompts_listed (projectRoot : string) (prompts : list PromptInfo)
  (t : list event) :
  ListPrompts w projectRoot = (Ok prompts, t) ->
  exists entries,
    os_ReadDir w (Join [projectRoot; "10_PromptTemplates"]) = Ok entries /\
    prompts = map (templateOf w (Join [projectRoot; "10_PromptTemplates"]))
                  (filter isTemplateEntry entries) /\
    prompts <> [].
Proof.
  unfold ListPrompts, fail.
  set (promptsPath := Join [projectRoot; "10_PromptTemplates"]).
  destruct (os_ReadDir w promptsPath) as [entries|rerr] eqn:Hdir;
    [| destruct (os_Stat w promptsPath); discriminate].
  rewrite ListPrompts_loop_map.
  destruct (map (templateOf w promptsPath) (filter isTemplateEntry entries))
    as [|P rest] eqn:E;
    [destruct (os_Stat w promptsPath); discriminate |].
  intro H. exists entries.
  assert (prompts = P :: rest) as ->
    by (destruct (os_Stat w promptsPath); inversion H; reflexivity).
  repeat split; [symmetry; exact E | discriminate].
Qed.

Lemma FindPrompt_listed (projectRoot promptName : string)
  (prompts : list PromptInfo) (t : list event) :
  ListPrompts w projectRoot = (Ok prompts, t) ->
  FindPrompt w projectRoot promptName = (searchPrompts w prompts promptName, t).
Proof.
  intro H. unfold FindPrompt, bind. rewrite H. now rewrite app_nil_r.
Qed.

End Store.

Lemma find_first {A} (f : A -> bool) (pre : list A) (x : A) (post : list A) :
  f x = true -> forallb (fun y => negb (f y)) pre = true ->
  find f (pre ++ x :: post) = Some x.
Proof.
  intros Hx. induction pre as [|y pre IH]; simpl; intro Hpre.
  - now rewrite Hx.
  - apply andb_true_iff in Hpre as [Hy Hpre].
    apply negb_true_iff in Hy. rewrite Hy. now apply IH.
Qed.

Lemma find_none_iff {A} (f : A -> bool) (l : list A) :
  find f l = None <-> forall x, In x l -> f x = false.
Proof.
  split; [apply find_none |].
  induction l as [|x l IH]; simpl; intro H; [reflexivity |].
  rewrite (H x (or_introl eq_refl)). apply IH. intros y Hy. apply H. now right.
Qed.

Lemma exactMatch_equalsName (w : World) (query : string) (T : PromptInfo) :
  exactMatch w (ToLower (unicode_LowerCase w) (TrimSpace query)) T = true <-> equalsName w query T.
Proof.
  unfold exactMatch, equalsName.
  rewrite orb_true_iff, !String.eqb_eq. intuition congruence.
Qed.

(* ================================================================== *)
(** ** Template store: listing *)
(* ================================================================== *)

(** C7. Listing fails with NotFound when the templates directory is
    absent, with IOError when reading the directory fails, and with
    NotFound when every entry of the directory is a directory or a file
    whose name does not end in ".md"; no template file is read in any of
    these cases. *)
Theorem ListPrompts_failures (w : World) (projectRoot : string) :
  let promptsPath := Join [projectRoot; "10_PromptTemplates"] in
  (os_Stat w promptsPath = StatNotExist ->
   ListPrompts w projectRoot = (Err (E_TemplatesDirNotFoundAt promptsPath), []) /\
   kind (E_TemplatesDirNotFoundAt promptsPath) = NotFound) /\
  (forall e,
   os_Stat w promptsPath <> StatNotExist ->
   os_ReadDir w promptsPath = Err e ->
   ListPrompts w projectRoot = (Err (E_ReadPromptsDir e), []) /\
   kind (E_ReadPromptsDir e) = IOError) /\
  (forall entries,
   os_Stat w promptsPath <> StatNotExist ->
   os_ReadDir w promptsPath = Ok entries ->
   (forall entry, In entry entries ->
      entry_IsDir entry = true \/ HasSuffix (entry_Name entry) ".md" = false) ->
   ListPrompts w projectRoot = (Err (E_NoTemplatesFoundIn promptsPath), []) /\
   kind (E_NoTemplatesFoundIn promptsPath) = NotFound).
Proof.
  intro promptsPath. unfold ListPrompts. fold promptsPath.
  split; [| split].
  - intros ->. split; reflexivity.
  - intros e Hstat ->.
    destruct (os_Stat w promptsPath); [| contradiction |]; split; reflexivity.
  - intros entries Hstat -> Hnone.
    rewrite ListPrompts_loop_map.
    assert (filter isTemplateEntry entries = []) as ->.
    { clear Hstat. induction entries as [|entry rest IH]; simpl; [reflexivity |].
      unfold isTemplateEntry at 1.
      destruct (Hnone entry (or_introl eq_refl)) as [-> | ->]; simpl;
        rewrite ?andb_false_r; apply IH; intros x Hx; apply Hnone; now right. }
    simpl.
    destruct (os_Stat w promptsPath); [| contradiction |]; split; reflexivity.
Qed.

Lemma ListPrompts_failures_witness :
  ListPrompts (storeWorld Absent []) "." =
    (Err (E_TemplatesDirNotFoundAt "10_PromptTemplates"), []) /\
  ListPrompts (storeWorld (Unreadable "permission denied") []) "." =
    (Err (E_ReadPromptsDir "permission denied"), []) /\
  ListPrompts (storeWorld noTemplateDir []) "." =
    (Err (E_NoTemplatesFoundIn "10_PromptTemplates"), []).
Proof.
  split; [| split].
  - apply (proj1 (ListPrompts_failures (storeWorld Absent []) ".")).
    reflexivity.
  - apply (proj1 (proj2 (ListPrompts_failures
                           (storeWorld (Unreadable "permission denied") []) "."))
                 "permission denied").
    + discriminate.
    + reflexivity.
  - apply (proj2 (proj2 (ListPrompts_failures (storeWorld noTemplateDir []) "."))
                 [file "notes.txt"; directory "archive.md"; file "README"]).
    + discriminate.
    + reflexivity.
    + simpl. intros entry [<- | [<- | [<- | []]]]; simpl; auto.
Defined.

(* ================================================================== *)
(** ** Template store: descriptions *)
(* ================================================================== *)

Lemma truncate60_cases (d : string) :
  (String.length d <= 60 -> truncate60 d = d) /\
  (60 < String.length d ->
   truncate60 d = substring 0 60 d ++ "..." /\
   String.length (truncate60 d) = 63).
Proof.
  unfold truncate60. split; intro H.
  - destruct (Nat.ltb_spec 60 (String.length d)); [lia | reflexivity].
  - destruct (Nat.ltb_spec 60 (String.length d)); [| lia].
    split; [reflexivity |].
    rewrite append_length, substring0_length by lia. reflexivity.
Qed.



(** A first line that ends in a no-break space and an em space,
    "# Title\u00a0\u2003": the description is "Title". *)
Example ListPrompts_description_unicode :
  fst (ListPrompts
         (storeWorld (Listing [file "t.md"])
            [("10_PromptTemplates/t.md",
              "# Title" ++ ofBytes [0xC2; 0xA0; 0xE2; 0x80; 0x83]%N ++ nl
                ++ "Body." ++ nl)]) ".") =
    Ok [mkPromptInfo "t" "t.md" "10_PromptTemplates/t.md" "Title"].
Proof. vm_compute. reflexivity. Qed.


(* ================================================================== *)
(** ** Template store: find *)
(* ================================================================== *)

Lemma searchPrompts_exact_first (w : World) (prompts pre post : list PromptInfo)
  (T : PromptInfo) (query : string) :
  prompts = (pre ++ T :: post)%list ->
  equalsName w query T ->
  (forall P, In P pre -> ~ equalsName w query P) ->
  searchPrompts w prompts query = Ok T.
Proof.
  intros -> HT Hpre. unfold searchPrompts.
  rewrite (find_first _ pre T post); [reflexivity | |].
  - now apply exactMatch_equalsName.
  - apply forallb_forall. intros P HP. apply negb_true_iff.
    destruct (exactMatch w (ToLower (unicode_LowerCase w) (TrimSpace query)) P) eqn:E; [| reflexivity].
    destruct (Hpre P HP). now apply exactMatch_equalsName.
Qed.

Lemma searchPrompts_exact_wins (w : World) (prompts : list PromptInfo) (T : PromptInfo)
  (query : string) :
  In T prompts -> equalsName w query T ->
  exists T', searchPrompts w prompts query = Ok T' /\
             In T' prompts /\ equalsName w query T'.
Proof.
  intros Hin HT. unfold searchPrompts.
  destruct (find (exactMatch w (ToLower (unicode_LowerCase w) (TrimSpace query))) prompts) as [T'|] eqn:E.
  - apply find_some in E as [Hin' HT']. exists T'.
    repeat split; [exact Hin' | now apply exactMatch_equalsName].
  - apply exactMatch_equalsName in HT.
    rewrite (find_none _ _ E T Hin) in HT. discriminate.
Qed.

Lemma searchPrompts_not_found (w : World) (prompts : list PromptInfo) (query : string) :
  (exists e, searchPrompts w prompts query = Err e) <->
  (forall P, In P prompts -> ~ equalsName w query P /\ ~ withinName w query P).
Proof.
  unfold searchPrompts, withinName. split.
  - intros [e He] P HP.
    destruct (find (exactMatch w _) prompts) eqn:E1; [discriminate |].
    destruct (find (partialMatch w _) prompts) eqn:E2; [discriminate |].
    split; intro H.
    + apply exactMatch_equalsName in H.
      rewrite (find_none _ _ E1 P HP) in H. discriminate.
    + pose proof (find_none _ _ E2 P HP) as H'. unfold partialMatch in H'.
      congruence.
  - intro H. exists (E_PromptNotFound query).
    assert (find (exactMatch w (ToLower (unicode_LowerCase w) (TrimSpace query))) prompts = None) as ->.
    { apply find_none_iff. intros P HP.
      destruct (exactMatch w _ P) eqn:E; [| reflexivity].
      apply exactMatch_equalsName in E. now destruct (proj1 (H P HP)). }
    assert (find (partialMatch w (ToLower (unicode_LowerCase w) (TrimSpace query))) prompts = None) as ->.
    { apply find_none_iff. intros P HP. unfold partialMatch.
      destruct (Contains _ _) eqn:E; [| reflexivity].
      now destruct (proj2 (H P HP)). }
    reflexivity.
Qed.

Lemma searchPrompts_error (w : World) (prompts : list PromptInfo) (query : string)
  (e : error) :
  searchPrompts w prompts query = Err e -> e = E_PromptNotFound query.
Proof.
  unfold searchPrompts.
  destruct (find (exactMatch w _) prompts); [discriminate |].
  destruct (find (partialMatch w _) prompts); [discriminate |].
  now inversion 1.
Qed.

(** C3, as the code has it. For every template set and every query equal
    (case-insensitively, after trimming) to the display name or the
    filename without extension of some template, find returns the first
    template in listing order that the query equals in this way - that
    template itself when no template listed before it is equal to the
    query too - even when the query is a substring of other templates'
    names: exact matches are checked against every template before any
    substring match is tried. Once the templates are listed, find fails
    exactly when no template matches exactly or by substring, and then
    with NotFound. *)
Theorem FindPrompt_exact_first (w : World) (projectRoot query : string)
  (prompts : list PromptInfo) (t : list event) :
  ListPrompts w projectRoot = (Ok prompts, t) ->
  (forall pre T post,
     prompts = (pre ++ T :: post)%list ->
     equalsName w query T ->
     (forall P, In P pre -> ~ equalsName w query P) ->
     FindPrompt w projectRoot query = (Ok T, t)) /\
  (forall T,
     In T prompts -> equalsName w query T ->
     exists T', FindPrompt w projectRoot query = (Ok T', t) /\
                In T' prompts /\ equalsName w query T') /\
  ((exists e, FindPrompt w projectRoot query = (Err e, t)) <->
   (forall P, In P prompts -> ~ equalsName w query P /\ ~ withinName w query P)) /\
  (forall e, FindPrompt w projectRoot query = (Err e, t) ->
             e = E_PromptNotFound query /\ kind e = NotFound).
Proof.
  intro Hlist. rewrite (FindPrompt_listed w _ query _ _ Hlist).
  split; [| split; [| split]].
  - intros pre T post Hp HT Hpre.
    now rewrite (searchPrompts_exact_first w prompts pre post T query).
  - intros T Hin HT.
    destruct (searchPrompts_exact_wins w prompts T query Hin HT)
      as (T' & -> & H).
    now exists T'.
  - rewrite <- searchPrompts_not_found.
    split; intros [e He]; exists e; [now inversion He | now rewrite He].
  - intros e He. assert (searchPrompts w prompts query = Err e) as H
      by now inversion He.
    apply searchPrompts_error in H. subst e. split; reflexivity.
Qed.

Lemma FindPrompt_exact_first_witness :
  FindPrompt (storeWorld collidingDir []) "." "  SALES " =
    (Ok (mkPromptInfo "Sales" "Sales.md" "10_PromptTemplates/Sales.md" ""),
     [EvReadFile "10_PromptTemplates/Big_Sales.md";
      EvReadFile "10_PromptTemplates/Sales.md";
      EvReadFile "10_PromptTemplates/Sales_Discovery.md"]).
Proof.
  apply (proj1 (FindPrompt_exact_first (storeWorld collidingDir []) "." "  SALES "
                  _ _ eq_refl)
               [mkPromptInfo "Big Sales" "Big_Sales.md"
                  "10_PromptTemplates/Big_Sales.md" ""]
               (mkPromptInfo "Sales" "Sales.md" "10_PromptTemplates/Sales.md" "")
               [mkPromptInfo "Sales Discovery" "Sales_Discovery.md"
                  "10_PromptTemplates/Sales_Discovery.md" ""]).
  - reflexivity.
  - left; reflexivity.
  - intros P [<- | []] [H | H]; discriminate H.
Defined.

(** The scenarios of the specification: "sales" finds the template by
    substring, and an unknown name is NotFound. *)
Example FindPrompt_sales :
  fst (FindPrompt salesWorld "." "sales") =
    Ok (mkPromptInfo "Sales Discovery" "Sales_Discovery.md"
          "10_PromptTemplates/Sales_Discovery.md" "Discover Needs") /\
  fst (FindPrompt salesWorld "." "pricing") = Err (E_PromptNotFound "pricing").
Proof. split; reflexivity. Qed.

(** C3 as it is stated fails where two templates have one display name:
    the query "a b" equals the display name of a_b.md, and find returns
    the template a b.md, listed before it. *)
Lemma FindPrompt_same_name_counterexample :
  fst (ListPrompts (storeWorld sameNameDir []) ".") =
    Ok [mkPromptInfo "a b" "a b.md" "10_PromptTemplates/a b.md" "";
        mkPromptInfo "a b" "a_b.md" "10_PromptTemplates/a_b.md" ""] /\
  equalsName (storeWorld sameNameDir []) "a b" (mkPromptInfo "a b" "a_b.md" "10_PromptTemplates/a_b.md" "") /\
  fst (FindPrompt (storeWorld sameNameDir []) "." "a b") =
    Ok (mkPromptInfo "a b" "a b.md" "10_PromptTemplates/a b.md" "") /\
  mkPromptInfo "a b" "a b.md" "10_PromptTemplates/a b.md" "" <>
  mkPromptInfo "a b" "a_b.md" "10_PromptTemplates/a_b.md" "".
Proof.
  split; [reflexivity |]. split; [left; reflexivity |].
  split; [reflexivity | discriminate].
Qed.

(** The templates of a project under the names "École.md" and
    "école.md", and under "nécole.md" and "École.md". *)
Example FindPrompt_unicode_case :
  let upper := ofBytes [0xC3; 0x89]%N ++ "cole" in
  let lower := ofBytes [0xC3; 0xA9]%N ++ "cole" in
  let template name :=
    mkPromptInfo name (name ++ ".md") ("10_PromptTemplates/" ++ name ++ ".md") ""
  in
  fst (FindPrompt (storeWorld (Listing [file (upper ++ ".md")]) []) "." lower)
    = Ok (template upper)
  /\ fst (FindPrompt
            (storeWorld (Listing [file (upper ++ ".md"); file (lower ++ ".md")])
               []) "." lower)
    = Ok (template upper)
  /\ fst (FindPrompt
            (storeWorld (Listing [file ("n" ++ lower ++ ".md");
                                  file (upper ++ ".md")]) []) "." lower)
    = Ok (template upper).
Proof. repeat split; vm_compute; reflexivity. Qed.

Lemma templateOf_exactMatch_empty (w : World) (promptsPath : string)
  (entry : DirEntry) :
  exactMatch w "" (templateOf w promptsPath entry) =
  (Name (templateOf w promptsPath entry) =? "").
Proof.
  unfold exactMatch, templateOf, ReplaceAll; simpl.
  rewrite !ToLower_eqb_empty, !eqb_map_bytes_empty. apply orb_diag.
Qed.

(** C10, as the code has it. For every non-empty template set, find with
    a query that is empty or white space only - any query that
    strings.TrimSpace empties, whatever white space of Unicode it is made
    of - never fails: the trimmed query is empty, so it returns the first
    template whose display name is empty (a file named ".md") when there
    is one, and otherwise no exact-match check succeeds, every display
    name contains the empty query, and the first template in listing
    order is returned. *)
Theorem FindPrompt_blank_query (w : World) (projectRoot query : string)
  (prompts : list PromptInfo) (t : list event) :
  ListPrompts w projectRoot = (Ok prompts, t) ->
  TrimSpace query = "" ->
  exists T,
    FindPrompt w projectRoot query = (Ok T, t) /\
    In T prompts /\
    match find (fun P => Name P =? "") prompts with
    | Some P => T = P
    | None =>
        hd_error prompts = Some T /\
        (forall P, In P prompts -> ~ equalsName w query P) /\
        (forall P, In P prompts -> withinName w query P)
    end.
Proof.
  intros Hlist Hblank. rewrite (FindPrompt_listed w _ query _ _ Hlist).
  destruct (ListPrompts_listed w _ _ _ Hlist) as (entries & _ & Hmap & Hne).
  unfold searchPrompts, equalsName, withinName.
  rewrite Hblank.
  change (ToLower (unicode_LowerCase w) "") with "".
  assert (forall P, In P prompts -> exactMatch w "" P = (Name P =? "")) as Hrw.
  { intros P HP. rewrite Hmap in HP. apply in_map_iff in HP as (x & <- & _).
    apply templateOf_exactMatch_empty. }
  assert (find (exactMatch w "") prompts = find (fun P => Name P =? "") prompts)
    as ->.
  { clear - Hrw. induction prompts as [|P l IH]; simpl; [reflexivity |].
    rewrite (Hrw P (or_introl eq_refl)), IH; [reflexivity |].
    intros Q HQ. apply Hrw. now right. }
  destruct (find (fun P => Name P =? "") prompts) as [P|] eqn:E.
  - exists P. apply find_some in E as [HP _]. auto.
  - destruct prompts as [|T rest]; [now destruct Hne |].
    exists T. simpl. unfold partialMatch at 1. rewrite Contains_empty.
    split; [reflexivity |]. split; [now left |]. split; [reflexivity |].
    split.
    + intros P HP Heq.
      assert (exactMatch w "" P = true) as Hex.
      { unfold exactMatch. apply orb_true_iff. rewrite !String.eqb_eq.
        destruct Heq; [left | right]; congruence. }
      rewrite (Hrw P HP), (find_none _ _ E P HP) in Hex. discriminate.
    + intros P HP. apply Contains_empty.
Qed.

(** The query " \u00a0\u2003\n": a blank, a no-break space, an em space
    and a line feed. *)
Lemma FindPrompt_blank_query_witness :
  let query := " " ++ ofBytes [0xC2; 0xA0; 0xE2; 0x80; 0x83]%N ++ nl in
  exists T,
    FindPrompt salesWorld "." query =
      (Ok T, [EvReadFile "10_PromptTemplates/Sales_Discovery.md"]) /\
    In T [mkPromptInfo "Sales Discovery" "Sales_Discovery.md"
            "10_PromptTemplates/Sales_Discovery.md" "Discover Needs"] /\
    hd_error [mkPromptInfo "Sales Discovery" "Sales_Discovery.md"
                "10_PromptTemplates/Sales_Discovery.md" "Discover Needs"]
      = Some T /\
    (forall P,
       In P [mkPromptInfo "Sales Discovery" "Sales_Discovery.md"
               "10_PromptTemplates/Sales_Discovery.md" "Discover Needs"] ->
       ~ equalsName salesWorld query P) /\
    (forall P,
       In P [mkPromptInfo "Sales Discovery" "Sales_Discovery.md"
               "10_PromptTemplates/Sales_Discovery.md" "Discover Needs"] ->
       withinName salesWorld query P).
Proof.
  exact (FindPrompt_blank_query salesWorld "."
           (" " ++ ofBytes [0xC2; 0xA0; 0xE2; 0x80; 0x83]%N ++ nl)
           _ _ eq_refl eq_refl).
Defined.

(** C10 as it is stated fails where a template file is named ".md": its
    display name is empty, the empty query matches it exactly, and find
    returns it although -a.md is listed first. *)
Lemma FindPrompt_blank_query_counterexample :
  fst (ListPrompts (storeWorld bareExtensionDir []) ".") =
    Ok [mkPromptInfo "-a" "-a.md" "10_PromptTemplates/-a.md" "";
        mkPromptInfo "" ".md" "10_PromptTemplates/.md" ""] /\
  allSpace " " = true /\
  TrimSpace " " = "" /\
  exactMatch (storeWorld bareExtensionDir [])
    (ToLower LowerCase (TrimSpace " "))
    (mkPromptInfo "" ".md" "10_PromptTemplates/.md" "") = true /\
  fst (FindPrompt (storeWorld bareExtensionDir []) "." " ") =
    Ok (mkPromptInfo "" ".md" "10_PromptTemplates/.md" "") /\
  mkPromptInfo "" ".md" "10_PromptTemplates/.md" "" <>
  mkPromptInfo "-a" "-a.md" "10_PromptTemplates/-a.md" "".
Proof. repeat split. discriminate. Qed.

(* ================================================================== *)
(** ** Context formatter *)
(* ================================================================== *)

Section Formatter.

Variable w : World.

Lemma FormatFileContext_loop_readable (files : list string) :
  (forall p, In p files -> readable w p = true) ->
  forall builder,
    FormatFileContext_loop w files builder =
    ((builder ++ concatAll (map (contextBlock w) files), None),
     map EvReadFile files).
Proof.
  induction files as [|p files IH]; intros Hall builder; simpl.
  - now rewrite append_nil_r.
  - pose proof (Hall p (or_introl eq_refl)) as Hp.
    unfold ReadFileContent, contextBlock, readable in *.
    destruct (os_ReadFile w p) as [content|e]; [| discriminate].
    rewrite IH by (intros q Hq; apply Hall; now right).
    rewrite !append_assoc. reflexivity.
Qed.

Lemma FormatFileContext_loop_unreadable (pre : list string) (p : string)
  (post : list string) (e : oserror) :
  (forall q, In q pre -> readable w q = true) ->
  os_ReadFile w p = Err e ->
  forall builder,
    FormatFileContext_loop w (pre ++ p :: post) builder =
    (("", Some (E_ReadFile p e)), map EvReadFile (pre ++ [p])).
Proof.
  intros Hpre Hp. induction pre as [|q pre IH]; intro builder; simpl.
  - unfold ReadFileContent. now rewrite Hp.
  - pose proof (Hpre q (or_introl eq_refl)) as Hq.
    unfold ReadFileContent, readable in *.
    destruct (os_ReadFile w q) as [content|e']; [| discriminate].
    rewrite IH by (intros x Hx; apply Hpre; now right). reflexivity.
Qed.

Lemma first_unreadable (files : list string) :
  (exists p, In p files /\ readable w p = false) ->
  exists pre p post,
    files = (pre ++ p :: post)%list /\
    (forall q, In q pre -> readable w q = true) /\
    readable w p = false.
Proof.
  induction files as [|a files IH]; intros (p & Hin & Hp); [destruct Hin |].
  destruct (readable w a) eqn:Ha.
  - destruct IH as (pre & p' & post & -> & Hpre & Hp').
    { destruct Hin as [-> | Hin]; [congruence | now exists p]. }
    exists (a :: pre), p', post. repeat split; [| exact Hp'].
    intros q [<- | Hq]; [exact Ha | now apply Hpre].
  - exists [], a, files. repeat split; [intros q [] | exact Ha].
Qed.

End Formatter.

(** C5. For every list of files that can all be read, the context
    formatter returns, without an error, the fixed header followed by one
    block per file in the order of the list; the block of a file is the
    banner line naming its base name, a blank line, its full content and
    a blank-line separator. Every file is read once, in that order. *)
Theorem FormatFileContext_readable (w : World) (files : list string) :
  (forall p, In p files -> exists content, os_ReadFile w p = Ok content) ->
  FormatFileContext w files =
    ((contextHeader ++ concatAll (map (contextBlock w) files), None),
     map EvReadFile files) /\
  List.length (map (contextBlock w) files) = List.length files /\
  (forall i p,
     nth_error files i = Some p ->
     exists content,
       os_ReadFile w p = Ok content /\
       nth_error (map (contextBlock w) files) i =
         Some ("=== File: " ++ Base p ++ " ===" ++ nl ++ nl
                 ++ content ++ nl ++ nl)).
Proof.
  intro Hall. split; [| split].
  - apply FormatFileContext_loop_readable. intros p Hp.
    destruct (Hall p Hp) as [c Hc]. unfold readable. now rewrite Hc.
  - apply length_map.
  - intros i p Hi. destruct (Hall p (nth_error_In _ _ Hi)) as [c Hc].
    exists c. split; [exact Hc |].
    rewrite nth_error_map, Hi. simpl. unfold contextBlock, banner.
    rewrite Hc, !append_assoc. reflexivity.
Qed.

Lemma FormatFileContext_readable_witness :
  FormatFileContext salesWorld
    ["10_PromptTemplates/Sales_Discovery.md";
     "10_PromptTemplates/Sales_Discovery.md"] =
    (("Context Files:" ++ nl ++ nl ++
      "=== File: Sales_Discovery.md ===" ++ nl ++ nl ++
      "# Discover Needs" ++ nl ++ "Ask about budget." ++ nl ++ nl ++ nl ++
      "=== File: Sales_Discovery.md ===" ++ nl ++ nl ++
      "# Discover Needs" ++ nl ++ "Ask about budget." ++ nl ++ nl ++ nl,
      None),
     [EvReadFile "10_PromptTemplates/Sales_Discovery.md";
      EvReadFile "10_PromptTemplates/Sales_Discovery.md"]).
Proof.
  refine (proj1 (FormatFileContext_readable salesWorld
                   ["10_PromptTemplates/Sales_Discovery.md";
                    "10_PromptTemplates/Sales_Discovery.md"] _)).
  intros p [<- | [<- | []]]; eexists; reflexivity.
Defined.

(** C6. For every list of files with at least one that cannot be read,
    the context formatter fails with the IOError that names the first
    such file in list order, returns the empty string with it, and reads
    the files before that one and that one only. *)
Theorem FormatFileContext_unreadable (w : World) (files : list string) :
  (exists p, In p files /\ readable w p = false) ->
  exists pre p post e,
    files = (pre ++ p :: post)%list /\
    (forall q, In q pre -> readable w q = true) /\
    os_ReadFile w p = Err e /\
    FormatFileContext w files =
      (("", Some (E_ReadFile p e)), map EvReadFile (pre ++ [p])) /\
    kind (E_ReadFile p e) = IOError /\
    Error (E_ReadFile p e) = "failed to read file " ++ p ++ ": " ++ e.
Proof.
  intro H. destruct (first_unreadable w files H) as (pre & p & post & -> & Hpre & Hp).
  unfold readable in Hp. destruct (os_ReadFile w p) as [c|e] eqn:E; [discriminate |].
  exists pre, p, post, e. repeat split; try assumption.
  now apply FormatFileContext_loop_unreadable.
Qed.

Lemma FormatFileContext_unreadable_witness :
  exists pre p post e,
    ["10_PromptTemplates/Sales_Discovery.md"; "missing.txt"; "later.txt"] =
      (pre ++ p :: post)%list /\
    (forall q, In q pre -> readable salesWorld q = true) /\
    os_ReadFile salesWorld p = Err e /\
    FormatFileContext salesWorld
      ["10_PromptTemplates/Sales_Discovery.md"; "missing.txt"; "later.txt"] =
      (("", Some (E_ReadFile p e)), map EvReadFile (pre ++ [p])) /\
    kind (E_ReadFile p e) = IOError /\
    Error (E_ReadFile p e) = "failed to read file " ++ p ++ ": " ++ e.
Proof.
  apply (FormatFileContext_unreadable salesWorld).
  exists "missing.txt". split; [right; left; reflexivity | reflexivity].
Defined.

(** The scenario of the witness, evaluated: the error names missing.txt,
    and later.txt is not read. *)
Example FormatFileContext_unreadable_run :
  FormatFileContext salesWorld
    ["10_PromptTemplates/Sales_Discovery.md"; "missing.txt"; "later.txt"] =
  (("", Some (E_ReadFile "missing.txt"
                "open missing.txt: no such file or directory")),
   [EvReadFile "10_PromptTemplates/Sales_Discovery.md";
    EvReadFile "missing.txt"]).
Proof. reflexivity. Qed.

(* ================================================================== *)
(** ** The local-process backend *)
(* ================================================================== *)

(** C9, as the code has it. For every template body and user input,
    execute writes the single combined prompt (template body, a blank
    line, the line "User Request:", the user input) to the standard input
    of the child process once it has started. It returns an error exactly
    when the input pipe cannot be created, the process cannot start
    (BackendUnavailable), the write of the prompt fails, the process
    exits with an error (ExecutionFailed, the captured standard error in
    the message), or the captured standard output is empty after a
    successful exit (EmptyResponse); otherwise it returns the captured
    standard output with the white space around it trimmed, as
    strings.TrimSpace does it: the white-space characters of Unicode. *)
Theorem ExecutePrompt_contract (w : World) (promptContent userInput : string) :
  let fullPrompt := promptContent ++ nl ++ nl ++ "User Request:" ++ nl ++ userInput in
  let r := ExecutePrompt w promptContent userInput in
  (cmd_StdinPipe w = None -> cmd_Start w = None -> snd r = [EvWriteStdin fullPrompt]) /\
  (snd (fst r) <> None <->
     cmd_StdinPipe w <> None \/ cmd_Start w <> None \/
     cmd_WriteStdin w fullPrompt <> None \/ cmd_Wait w fullPrompt <> None \/
     cmd_stdout w fullPrompt = "") /\
  (forall e, cmd_StdinPipe w = None -> cmd_Start w = Some e ->
     r = (("", Some (E_StartClaude e)), []) /\
     kind (E_StartClaude e) = BackendUnavailable) /\
  (forall e, cmd_StdinPipe w = None -> cmd_Start w = None ->
     cmd_WriteStdin w fullPrompt = None -> cmd_Wait w fullPrompt = Some e ->
     fst r = ("", Some (E_ExecutionFailed e (cmd_stderr w fullPrompt))) /\
     kind (E_ExecutionFailed e (cmd_stderr w fullPrompt)) = ExecutionFailed /\
     Error (E_ExecutionFailed e (cmd_stderr w fullPrompt)) =
       "claude code execution failed: " ++ e ++ nl ++ "Stderr: "
         ++ cmd_stderr w fullPrompt) /\
  (cmd_StdinPipe w = None -> cmd_Start w = None ->
     cmd_WriteStdin w fullPrompt = None -> cmd_Wait w fullPrompt = None ->
     cmd_stdout w fullPrompt = "" ->
     fst r = ("", Some E_NoResponse) /\ kind E_NoResponse = EmptyResponse) /\
  (cmd_StdinPipe w = None -> cmd_Start w = None ->
     cmd_WriteStdin w fullPrompt = None -> cmd_Wait w fullPrompt = None ->
     cmd_stdout w fullPrompt <> "" ->
     fst r = (TrimSpace (cmd_stdout w fullPrompt), None)).
Proof.
  intros fullPrompt r. subst r. unfold ExecutePrompt.
  change (combinedPrompt promptContent userInput) with fullPrompt.
  destruct (cmd_StdinPipe w) as [e1|] eqn:E1;
  destruct (cmd_Start w) as [e2|] eqn:E2;
  destruct (cmd_WriteStdin w fullPrompt) as [e3|] eqn:E3;
  destruct (cmd_Wait w fullPrompt) as [e4|] eqn:E4;
  destruct (String.eqb_spec (cmd_stdout w fullPrompt) "") as [E5|E5];
  simpl;
  repeat match goal with
         | |- _ /\ _ => split
         | |- _ <-> _ => split
         end;
  intros; subst;
  try discriminate; try congruence; try reflexivity;
  try (repeat split; congruence);
  try (intuition congruence).
Qed.

(** The child process prints "\u00a0\u2003answer\u0085\n". *)
Lemma ExecutePrompt_contract_witness :
  fst (ExecutePrompt paddedAnswerWorld "Be brief." "input") =
    (TrimSpace (cmd_stdout paddedAnswerWorld
                  ("Be brief." ++ nl ++ nl ++ "User Request:" ++ nl ++ "input")),
     None) /\
  TrimSpace (cmd_stdout paddedAnswerWorld
               ("Be brief." ++ nl ++ nl ++ "User Request:" ++ nl ++ "input"))
    = "answer".
Proof.
  split; [| reflexivity].
  apply (proj2 (proj2 (proj2 (proj2 (proj2
           (ExecutePrompt_contract paddedAnswerWorld "Be brief." "input"))))));
    try reflexivity.
  discriminate.
Defined.

(** C9 as it is stated fails on an answer that ends in a line feed: the
    captured standard output is "answer\n" and execute returns
    "answer". *)
Lemma ExecutePrompt_trims_counterexample :
  cmd_stdout salesWorld (combinedPrompt "Be brief." "input") = "answer" ++ nl /\
  ExecutePrompt salesWorld "Be brief." "input" =
    (("answer", None),
     [EvWriteStdin ("Be brief." ++ nl ++ nl ++ "User Request:" ++ nl ++ "input")]) /\
  "answer" <> "answer" ++ nl.
Proof. repeat split. discriminate. Qed.

(* ================================================================== *)
(** ** The effects of gathering the input *)
(* ================================================================== *)

Lemma onlyReads_app (t t' : list event) :
  onlyReads (t ++ t') = onlyReads t && onlyReads t'.
Proof. apply forallb_app. Qed.

Lemma onlyReads_noExecution (t : list event) :
  onlyReads t = true -> noExecution t = true.
Proof.
  unfold onlyReads, noExecution. rewrite !forallb_forall.
  intros H ev Hev. specialize (H ev Hev). now destruct ev.
Qed.

Lemma onlyReads_noFileChange (t : list event) :
  onlyReads t = true -> noFileChange t = true.
Proof.
  unfold onlyReads, noFileChange. rewrite !forallb_forall.
  intros H ev Hev. specialize (H ev Hev). now destruct ev.
Qed.

Lemma gathers_ret {A} (a : A) : gathers (ret a).
Proof. split; [reflexivity | discriminate]. Qed.

Lemma gathers_fail {A} (e : error) :
  kind e <> NoProviderConfigured -> gathers (@fail A e).
Proof.
  intro H. split; [reflexivity |]. simpl. intros e' E.
  inversion E; subst. exact H.
Qed.

Lemma gathers_bind {A B} (m : M A) (f : A -> M B) :
  gathers m -> (forall a, gathers (f a)) -> gathers (bind m f).
Proof.
  destruct m as [[a|e] t]; intros [Ht He] Hf; unfold bind.
  - destruct (Hf a) as [Ht' He']. destruct (f a) as [r t'].
    unfold gathers. simpl in *.
    split; [rewrite onlyReads_app, Ht, Ht'; reflexivity | exact He'].
  - split; [exact Ht |]. simpl in *. intros e0 E.
    inversion E; subst. now apply He.
Qed.

Lemma gathers_reads {A} (r : result A) (paths : list string) :
  (forall e, r = Err e -> kind e <> NoProviderConfigured) ->
  gathers (r, map EvReadFile paths).
Proof.
  intro H. split; [| exact H]. simpl.
  unfold onlyReads. rewrite forallb_forall. intros ev Hev.
  apply in_map_iff in Hev as (p & <- & _). reflexivity.
Qed.

Ltac kind_differs :=
  let E := fresh in
  intros ? E; inversion E; subst; simpl; discriminate.

Lemma gathers_ListPrompts (w : World) (projectRoot : string) :
  gathers (ListPrompts w projectRoot).
Proof.
  unfold ListPrompts.
  assert (forall p, gathers
            match os_ReadDir w p with
            | Ok entries =>
                let '(prompts, t) := ListPrompts_loop w p entries in
                match prompts with
                | [] => (Err (E_NoTemplatesFoundIn p), t)
                | _ :: _ => (Ok prompts, t)
                end
            | Err e => fail (E_ReadPromptsDir e)
            end) as H.
  { intro p. destruct (os_ReadDir w p) as [entries|e].
    - rewrite ListPrompts_loop_map.
      rewrite <- (map_map (fun entry => Join [p; entry_Name entry]) EvReadFile).
      destruct (map (templateOf w p) _); apply gathers_reads; kind_differs.
    - apply gathers_fail. discriminate. }
  destruct (os_Stat w _); [apply H | apply gathers_fail; discriminate | apply H].
Qed.

Lemma gathers_FindPrompt (w : World) (projectRoot promptName : string) :
  gathers (FindPrompt w projectRoot promptName).
Proof.
  apply gathers_bind; [apply gathers_ListPrompts |].
  intro prompts. split; [reflexivity |]. simpl. intros e He.
  apply searchPrompts_error in He. subst. discriminate.
Qed.

Lemma gathers_FormatFileContext (w : World) (files : list string) :
  gathers (wrapErr E_ReadContextFiles (liftGo (FormatFileContext w files))).
Proof.
  unfold FormatFileContext. generalize contextHeader.
  induction files as [|p files IH]; intro builder; simpl.
  - split; [reflexivity | discriminate].
  - unfold ReadFileContent. destruct (os_ReadFile w p) as [content|e]; simpl.
    + specialize (IH (((builder ++ banner p) ++ content) ++ nl ++ nl)).
      destruct (FormatFileContext_loop w files _) as [[s [e|]] t];
        destruct IH as [Ht He]; simpl in *; split; try exact Ht; exact He.
    + split; [reflexivity |]. kind_differs.
Qed.

Lemma gathers_run_discover (w : World) (fl : Flags) (projectRoot : string) :
  gathers (run_discover w fl projectRoot).
Proof.
  unfold run_discover. destruct (discoverFiles fl); [| apply gathers_ret].
  assert (snd (discoverAndSelectFiles w projectRoot) = []) as Ht.
  { unfold discoverAndSelectFiles, DiscoverFiles, bind, fail, ret.
    destruct (os_Stat w _); try reflexivity;
      (destruct (filepath_Walk w _) as [visited|]; [| reflexivity]);
      (destruct (fold_left _ visited []); [reflexivity |]);
      (destruct (ui_selectFile w _) as [idx|]; [| reflexivity]);
      destruct (nth_error _ idx); reflexivity. }
  destruct (discoverAndSelectFiles w projectRoot) as [[sel|e] t];
    simpl in Ht; subst t.
  - split; [reflexivity | discriminate].
  - destruct e; split; try reflexivity; try discriminate; kind_differs.
Qed.

Lemma gathers_run_gather (w : World) (fl : Flags) (promptName : string) :
  gathers (run_gather w fl promptName).
Proof.
  unfold run_gather.
  pose proof (gathers_FindPrompt w "." promptName) as [Ht He].
  destruct (FindPrompt w "." promptName) as [[prompt|err] t]; simpl in Ht, He.
  - apply gathers_bind; [split; [exact Ht | discriminate] |]. intros _.
    apply gathers_bind; [split; [reflexivity | discriminate] |]. intros _.
    destruct (os_ReadFile w (Path prompt)) as [promptContent|e];
      [| apply gathers_fail; discriminate].
    apply gathers_bind.
    { unfold run_readStdin. destruct (stdin_pipe w) as [[data|e]|];
        [apply gathers_ret | apply gathers_fail; discriminate | apply gathers_ret]. }
    intro userInput.
    apply gathers_bind; [apply gathers_run_discover |]. intro files.
    apply gathers_bind.
    { unfold run_fileContext. destruct files; [apply gathers_ret |].
      apply gathers_FormatFileContext. }
    intro fileContext.
    apply gathers_bind; [| intro; apply gathers_ret].
    unfold run_promptInput. destruct (_ && _); [| apply gathers_ret].
    destruct (ui_enterInput w); [apply gathers_ret |].
    apply gathers_fail. discriminate.
  - pose proof (gathers_ListPrompts w ".") as [Ht' _].
    destruct (ListPrompts w ".") as [r t']. simpl in *.
    split; [simpl; rewrite onlyReads_app, Ht, Ht'; reflexivity |].
    simpl. intros e E. inversion E; subst. now apply He.
Qed.

(* ================================================================== *)
(** ** Saving *)
(* ================================================================== *)

Lemma bind_inv {A B} (m : M A) (f : A -> M B) (r : result B) (t : list event) :
  bind m f = (r, t) ->
  (exists e, m = (Err e, t) /\ r = Err e) \/
  (exists a t1 t2, m = (Ok a, t1) /\ f a = (r, t2) /\ t = (t1 ++ t2)%list).
Proof.
  unfold bind. destruct m as [[a|e] t1].
  - destruct (f a) as [r' t2] eqn:E. intro H. inversion H; subst.
    right. now exists a, t1, t2.
  - intro H. inversion H; subst. left. now exists e.
Qed.




Lemma noFileChange_bind {A B} (m : M A) (f : A -> M B) :
  noFileChange (snd m) = true ->
  (forall a, noFileChange (snd (f a)) = true) ->
  noFileChange (snd (bind m f)) = true.
Proof.
  destruct m as [[a|e] t]; simpl; intros Ht Hf; [| exact Ht].
  specialize (Hf a). destruct (f a) as [r t']. simpl in *.
  unfold noFileChange in *. now rewrite forallb_app, Ht, Hf.
Qed.

Lemma snd_wrapErr {A} (f : error -> error) (m : M A) :
  snd (wrapErr f m) = snd m.
Proof. now destruct m as [[a|e] t]. Qed.

Lemma snd_liftGo (g : GoString) : snd (liftGo g) = snd g.
Proof. now destruct g as [[s [e|]] t]. Qed.

Lemma ExecutePrompt_trace (w : World) (promptContent userInput : string) :
  snd (ExecutePrompt w promptContent userInput) = [] \/
  snd (ExecutePrompt w promptContent userInput) =
    [EvWriteStdin (combinedPrompt promptContent userInput)].
Proof.
  unfold ExecutePrompt.
  destruct (cmd_StdinPipe w); [now left |].
  destruct (cmd_Start w); [now left |].
  destruct (cmd_WriteStdin w _); [now right |].
  destruct (cmd_Wait w _); [now right |].
  destruct (_ =? _); now right.
Qed.

Lemma execute_noFileChange (w : World) (promptContent userInput : string) :
  noFileChange
    (snd (wrapErr E_ExecWithClaude
            (liftGo (ExecutePrompt w promptContent userInput)))) = true.
Proof.
  rewrite snd_wrapErr, snd_liftGo.
  destruct (ExecutePrompt_trace w promptContent userInput) as [-> | ->];
    reflexivity.
Qed.

Lemma run_execute_noFileChange (w : World) (fl : Flags)
  (promptContent fullInput : string) :
  noFileChange (snd (run_execute w fl promptContent fullInput)) = true.
Proof.
  unfold run_execute.
  destruct (useClaudeCode fl); [| reflexivity].
  destruct (negb (IsAvailable w)); [reflexivity | apply execute_noFileChange].
Qed.

Ltac noFileChange_step :=
  match goal with
  | |- noFileChange (snd (bind _ _)) = true =>
      apply noFileChange_bind; [| intro]
  | |- noFileChange (snd (wrapErr _ _)) = true => apply execute_noFileChange
  | |- noFileChange (snd (match ?x with _ => _ end)) = true => destruct x
  | |- noFileChange (snd (if ?x then _ else _)) = true => destruct x
  | |- noFileChange (snd (_, _)) = true => reflexivity
  end.

(** Up to the displayed response the interactive session changes no
    file. *)
Lemma runPrompt_respond_noFileChange (w : World) :
  noFileChange (snd (runPrompt_respond w)) = true.
Proof.
  unfold runPrompt_respond, runPrompt_execute, emit, fail, ret.
  repeat noFileChange_step.
Qed.

Lemma mkdirAndWrite_ok (w : World) (dir path content : string)
  (t : list event) :
  mkdirAndWrite w dir path content = (Ok tt, t) ->
  t = [EvMkdirAll dir; EvWriteFile path content] /\
  last_write w t path = Some content.
Proof.
  unfold mkdirAndWrite, bind, emit, fail, ret.
  destruct (os_MkdirAll w dir); simpl; [discriminate |].
  destruct (os_WriteFile w path content) eqn:Hw; simpl; [discriminate |].
  intro H. inversion H. split; [reflexivity |].
  simpl. now rewrite String.eqb_refl, Hw.
Qed.

Lemma mkdirAndWrite_written (w : World) (dir path content : string)
  (t : list event) :
  mkdirAndWrite w dir path content = (Ok tt, t) ->
  forall p c, In (EvWriteFile p c) t ->
    c = content /\ last_write w t p = Some c.
Proof.
  intros H p c Hin. apply mkdirAndWrite_ok in H as [-> Hw].
  destruct Hin as [Hin | [Hin | []]]; [discriminate |].
  inversion Hin; subst. now split.
Qed.










(** The scenario of the specification: destination 3 and the filename
    "meeting" in the interactive session. *)
Example runPrompt_saves_meeting :
  exists t,
    runPrompt savingWorld = (Ok tt, t) /\
    read_back savingWorld t "00_Inbox/notes/meeting.md" =
      Ok (sessionLayout "meeting" "2025-01-31 09:30:00" "Sales_Discovery.md"
            "google/gemini-2.0-flash-exp:free" "input" "answer").
Proof. eexists. split; reflexivity. Qed.

(* ================================================================== *)
(** ** Cancelled interactive steps *)
(* ================================================================== *)

Lemma runPrompt_save_cancelled (w : World)
  (selectedPrompt userInput result : string) :
  saveCancelled w (TrimSuffix selectedPrompt ".md" ++ "_" ++ now_day w) = true ->
  runPrompt_save w selectedPrompt userInput result = (Ok tt, []).
Proof.
  unfold saveCancelled, runPrompt_save, ret.
  destruct (ui_confirmSave w); [| reflexivity].
  destruct (ui_selectLocation w locations) as [locIdx|]; [| reflexivity].
  destruct (chooseSavePath w locIdx); [| reflexivity].
  destruct (ui_enterFilename w _); [discriminate | reflexivity].
Qed.

Lemma run_save_cancelled (w : World) (fl : Flags)
  (projectRoot promptName fullInput result : string) :
  outputPath fl = "" -> saveOutput fl = true ->
  saveCancelled w (ReplaceAll promptName " " "_" ++ "_" ++ now_day w) = true ->
  run_save w fl projectRoot promptName fullInput result = (Ok tt, []).
Proof.
  unfold saveCancelled, run_save, savePromptOutputInteractive, ret.
  intros -> ->. simpl.
  destruct (ui_confirmSave w); [| reflexivity].
  destruct (ui_selectLocation w locations) as [locIdx|]; [| reflexivity].
  destruct (chooseSavePath w locIdx); [| reflexivity].
  destruct (ui_enterFilename w _); [discriminate | reflexivity].
Qed.

(** C8, as the code has it. Declining the save confirmation, or
    cancelling a later step of the save dialogue (the destination menu,
    the custom path, the filename), is not an error: the run returns no
    error and has no further effect. Cancelling the template menu or the
    input prompt is an error ("prompt selection failed", "input prompt
    failed"), and cancelling the file menu of --discover is a warning
    after which the run goes on without the file. *)
Theorem cancelled_steps (w : World) :
  (forall selectedPrompt userInput result t,
     runPrompt_respond w = (Ok (selectedPrompt, userInput, result), t) ->
     saveCancelled w (TrimSuffix selectedPrompt ".md" ++ "_" ++ now_day w) = true ->
     runPrompt w = (Ok tt, t)) /\
  (forall fl promptName prompt promptContent fullInput t result t',
     run_gather w fl promptName = (Ok (prompt, promptContent, fullInput), t) ->
     run_execute w fl promptContent fullInput = (Ok result, t') ->
     outputPath fl = "" -> saveOutput fl = true ->
     saveCancelled w (ReplaceAll (Name prompt) " " "_" ++ "_" ++ now_day w) = true ->
     runPromptRun w fl promptName = (Ok tt, (t ++ t')%list)) /\
  (forall entries e,
     (env_OPENROUTER_API_KEY w =? "") && negb (IsAvailable w) = false ->
     os_Stat w (Join ["."; "10_PromptTemplates"]) <> StatNotExist ->
     os_ReadDir w (Join ["."; "10_PromptTemplates"]) = Ok entries ->
     filter isTemplateEntry entries <> [] ->
     ui_selectTemplate w
       (map (fun file => TrimSuffix (ReplaceAll file "_" " ") ".md")
            (map entry_Name (filter isTemplateEntry entries))) = Err e ->
     runPrompt w = (Err (E_SelectionFailed e), [])) /\
  (forall entries idx selectedPrompt promptContent e,
     (env_OPENROUTER_API_KEY w =? "") && negb (IsAvailable w) = false ->
     os_Stat w (Join ["."; "10_PromptTemplates"]) <> StatNotExist ->
     os_ReadDir w (Join ["."; "10_PromptTemplates"]) = Ok entries ->
     ui_selectTemplate w
       (map (fun file => TrimSuffix (ReplaceAll file "_" " ") ".md")
            (map entry_Name (filter isTemplateEntry entries))) = Ok idx ->
     nth_error (map entry_Name (filter isTemplateEntry entries)) idx
       = Some selectedPrompt ->
     os_ReadFile w (Join [Join ["."; "10_PromptTemplates"]; selectedPrompt])
       = Ok promptContent ->
     ui_enterInput w = Err e ->
     runPrompt w =
       (Err (E_InputPromptFailed e),
        [EvReadFile (Join [Join ["."; "10_PromptTemplates"]; selectedPrompt])])) /\
  (forall fl promptName prompt promptContent t e,
     FindPrompt w "." promptName = (Ok prompt, t) ->
     os_ReadFile w (Path prompt) = Ok promptContent ->
     stdin_pipe w = None ->
     discoverFiles fl = false -> inputFiles fl = [] ->
     ui_enterInput w = Err e ->
     runPromptRun w fl promptName =
       (Err (E_InputPromptFailed e), (t ++ [EvReadFile (Path prompt)])%list)) /\
  (forall fl files e,
     discoverFiles fl = true ->
     DiscoverFiles w "." = (Ok files, []) ->
     files <> [] ->
     ui_selectFile w (map discoverItem files) = Err e ->
     run_discover w fl "." = (Ok (inputFiles fl), [])).
Proof.
  repeat match goal with |- _ /\ _ => split end.
  - intros sel ui res t Hr Hc. unfold runPrompt, bind. rewrite Hr.
    rewrite (runPrompt_save_cancelled w sel ui res Hc). now rewrite app_nil_r.
  - intros fl name prompt pc fi t res t' Hg He Ho Hs Hc.
    unfold runPromptRun, bind. rewrite Hg, He.
    rewrite (run_save_cancelled w fl "." (Name prompt) fi res Ho Hs Hc).
    now rewrite app_nil_r.
  - intros entries e Hprov Hstat Hdir Hne Hsel.
    unfold runPrompt, runPrompt_respond, bind, fail.
    rewrite Hprov, Hdir. fold isTemplateEntry. rewrite Hsel.
    destruct (map entry_Name (filter isTemplateEntry entries)) eqn:E.
    { apply map_eq_nil in E. contradiction. }
    destruct (os_Stat w _); [| contradiction |]; reflexivity.
  - intros entries idx sel pc e Hprov Hstat Hdir Hsel Hnth Hread Hin.
    unfold runPrompt, runPrompt_respond, bind, fail, emit.
    rewrite Hprov, Hdir. fold isTemplateEntry. rewrite Hsel, Hnth, Hread, Hin.
    destruct (map entry_Name (filter isTemplateEntry entries)) eqn:E.
    { destruct idx; discriminate. }
    destruct (os_Stat w _); [| contradiction |]; reflexivity.
  - intros fl name prompt pc t e Hf Hread Hpipe Hd Hi Hin.
    unfold runPromptRun, run_gather, bind, emit, fail, ret.
    rewrite Hf, Hread. unfold run_readStdin, run_discover, ret.
    rewrite Hpipe, Hd, Hi. simpl. unfold run_promptInput. simpl.
    rewrite Hin. reflexivity.
  - intros fl files e Hd Hfiles Hne Hsel.
    unfold run_discover, discoverAndSelectFiles, bind. rewrite Hd, Hfiles.
    destruct files as [|f files]; [contradiction |].
    rewrite Hsel. reflexivity.
Qed.

Lemma cancelled_steps_witness :
  runPrompt salesWorld =
    (Ok tt,
     [EvReadFile "10_PromptTemplates/Sales_Discovery.md";
      EvWriteStdin ("# Discover Needs" ++ nl ++ "Ask about budget." ++ nl
                      ++ nl ++ nl ++ "User Request:" ++ nl ++ "input")]) /\
  runPrompt cancelFilenameWorld =
    (Ok tt,
     [EvReadFile "10_PromptTemplates/Sales_Discovery.md";
      EvWriteStdin ("# Discover Needs" ++ nl ++ "Ask about budget." ++ nl
                      ++ nl ++ nl ++ "User Request:" ++ nl ++ "input")]) /\
  runPrompt cancelMenuWorld = (Err (E_SelectionFailed "^C"), []).
Proof.
  split; [| split].
  - apply (proj1 (cancelled_steps salesWorld)
             "Sales_Discovery.md" "input" "answer"); reflexivity.
  - apply (proj1 (cancelled_steps cancelFilenameWorld)
             "Sales_Discovery.md" "input" "answer"); reflexivity.
  - apply (proj1 (proj2 (proj2 (cancelled_steps cancelMenuWorld)))
             [file "Sales_Discovery.md"; file "notes.txt"] "^C");
      try reflexivity; discriminate.
Defined.

(** C8 as it is stated fails when the user cancels the template menu, or
    the input prompt of either command: the run returns an error. *)
Lemma cancelled_menu_counterexample :
  ui_selectTemplate cancelMenuWorld ["Sales Discovery"] = Err "^C" /\
  runPrompt cancelMenuWorld = (Err (E_SelectionFailed "^C"), []) /\
  Error (E_SelectionFailed "^C") = "prompt selection failed: ^C" /\
  ui_enterInput cancelInputWorld = Err "^C" /\
  fst (runPrompt cancelInputWorld) = Err (E_InputPromptFailed "^C") /\
  fst (runPromptRun cancelInputWorld defaultFlags "sales") =
    Err (E_InputPromptFailed "^C").
Proof. repeat split. Qed.

(* ================================================================== *)
(** ** Backend availability *)
(* ================================================================== *)

(** C1, as the code has it. With neither the local assistant binary nor
    the credential variable, the interactive session fails with
    NoProviderConfigured before anything is read or executed. The run
    command has no such check and never fails with NoProviderConfigured:
    without the local assistant binary it always fails, and executes no
    template - with the error of the first step that fails and, once the
    template is found and the input gathered, with "Claude Code not
    available" (with --claude=false: "OpenRouter integration not yet
    implemented for run command"). *)
Theorem no_provider (w : World) :
  IsAvailable w = false ->
  (env_OPENROUTER_API_KEY w = "" ->
   runPrompt w = (Err E_NoProviderConfigured, [])) /\
  (forall fl promptName,
   exists e t,
     runPromptRun w fl promptName = (Err e, t) /\
     kind e <> NoProviderConfigured /\
     e <> E_NoProviderConfigured /\
     noExecution t = true /\ noFileChange t = true) /\
  (forall fl promptName gathered t,
     run_gather w fl promptName = (Ok gathered, t) ->
     runPromptRun w fl promptName =
       (Err (if useClaudeCode fl then E_ClaudeNotAvailable
             else E_OpenRouterNotImplemented), t)).
Proof.
  intro Hno.
  assert (forall fl promptContent fullInput,
            run_execute w fl promptContent fullInput =
            (Err (if useClaudeCode fl then E_ClaudeNotAvailable
                  else E_OpenRouterNotImplemented), [])) as Hexec.
  { intros fl pc fi. unfold run_execute. rewrite Hno.
    destruct (useClaudeCode fl); reflexivity. }
  assert (forall fl promptName gathered t,
            run_gather w fl promptName = (Ok gathered, t) ->
            runPromptRun w fl promptName =
            (Err (if useClaudeCode fl then E_ClaudeNotAvailable
                  else E_OpenRouterNotImplemented), t)) as Hrun.
  { intros fl name [[prompt pc] fi] t Hg. unfold runPromptRun, bind.
    rewrite Hg, Hexec. now rewrite app_nil_r. }
  split; [| split; [| exact Hrun]].
  - intro Hkey. unfold runPrompt, runPrompt_respond, bind, fail.
    rewrite Hkey, Hno. reflexivity.
  - intros fl name.
    pose proof (gathers_run_gather w fl name) as [Ht He].
    destruct (run_gather w fl name) as [[gathered|e] t] eqn:Hg; simpl in *.
    + exists (if useClaudeCode fl then E_ClaudeNotAvailable
              else E_OpenRouterNotImplemented), t.
      split; [now apply (Hrun fl name gathered) |].
      destruct (useClaudeCode fl); repeat split; try discriminate;
        solve [now apply onlyReads_noExecution
              | now apply onlyReads_noFileChange].
    + exists e, t. unfold runPromptRun, bind. rewrite Hg.
      split; [reflexivity |]. split; [now apply He |].
      split; [intros ->; now apply (He _ eq_refl) |].
      split; [now apply onlyReads_noExecution
             | now apply onlyReads_noFileChange].
Qed.

Lemma no_provider_witness :
  runPrompt noProviderWorld = (Err E_NoProviderConfigured, []) /\
  runPromptRun noProviderWorld defaultFlags "sales" =
    (Err E_ClaudeNotAvailable,
     [EvReadFile "10_PromptTemplates/Sales_Discovery.md";
      EvReadFile "10_PromptTemplates/Sales_Discovery.md"]).
Proof.
  split.
  - apply (proj1 (no_provider noProviderWorld eq_refl)). reflexivity.
  - apply (proj2 (proj2 (no_provider noProviderWorld eq_refl))
             defaultFlags "sales"
             (mkPromptInfo "Sales Discovery" "Sales_Discovery.md"
                "10_PromptTemplates/Sales_Discovery.md" "Discover Needs",
              "# Discover Needs" ++ nl ++ "Ask about budget." ++ nl,
              "input")).
    reflexivity.
Defined.

(** C1 as it is stated fails for the run command: with neither the local
    assistant binary nor the credential variable, `run sales` fails with
    "Claude Code not available", and `run` of an unknown template with
    "prompt not found". *)
Lemma run_without_provider_counterexample :
  env_OPENROUTER_API_KEY noProviderWorld = "" /\
  IsAvailable noProviderWorld = false /\
  fst (runPromptRun noProviderWorld defaultFlags "sales") =
    Err E_ClaudeNotAvailable /\
  Error E_ClaudeNotAvailable = "Claude Code not available" /\
  E_ClaudeNotAvailable <> E_NoProviderConfigured /\
  fst (runPromptRun noProviderWorld defaultFlags "unknown") =
    Err (E_PromptNotFound "unknown").
Proof. repeat split. discriminate. Qed.

(* ================================================================== *)
(** ** More on the template store *)
(* ================================================================== *)

Lemma map_bytes_length (f : ascii -> ascii) (s : string) :
  String.length (map_bytes f s) = String.length s.
Proof. induction s as [|c s IH]; simpl; [reflexivity | now rewrite IH]. Qed.

Lemma ReplaceAll_without (s : string) (old new : ascii) :
  Ascii.eqb new old = false -> without old (ReplaceAll s old new) = true.
Proof.
  intro H. unfold ReplaceAll. induction s as [|c s IH]; simpl; [reflexivity |].
  rewrite IH, andb_true_r.
  destruct (Ascii.eqb c old) eqn:E; [now rewrite H | now rewrite E].
Qed.

Lemma TrimSuffix_length (s suf : string) :
  HasSuffix s suf = true ->
  String.length (TrimSuffix s suf) + String.length suf = String.length s.
Proof.
  intro H. apply HasSuffix_spec in H as [pre ->].
  now rewrite TrimSuffix_app, append_length.
Qed.

Lemma truncate60_length (d : string) : String.length (truncate60 d) <= 63.
Proof.
  destruct (truncate60_cases d) as [Hshort Hlong].
  destruct (Nat.le_gt_cases (String.length d) 60) as [H | H].
  - rewrite (Hshort H). lia.
  - destruct (Hlong H) as [_ ->]. lia.
Qed.

Lemma ListPrompts_ok (w : World) (projectRoot : string)
  (entries : list DirEntry) :
  os_Stat w (Join [projectRoot; "10_PromptTemplates"]) <> StatNotExist ->
  os_ReadDir w (Join [projectRoot; "10_PromptTemplates"]) = Ok entries ->
  filter isTemplateEntry entries <> [] ->
  ListPrompts w projectRoot =
    (Ok (map (templateOf w (Join [projectRoot; "10_PromptTemplates"]))
             (filter isTemplateEntry entries)),
     map (fun entry =>
            EvReadFile (Join [Join [projectRoot; "10_PromptTemplates"];
                              entry_Name entry]))
         (filter isTemplateEntry entries)).
Proof.
  intros Hstat Hdir Hne. unfold ListPrompts.
  rewrite Hdir, ListPrompts_loop_map.
  destruct (filter isTemplateEntry entries) as [|e rest]; [contradiction |].
  simpl. destruct (os_Stat w _); [| contradiction |]; reflexivity.
Qed.

(** X1. Listing returns one template for every non-directory entry whose
    name ends in ".md", in the order of the directory listing, with the
    entry name as file name and the path under the templates directory;
    it reads these files, once each and in that order, and no other
    file. *)
Theorem ListPrompts_lists_template_entries (w : World) (projectRoot : string)
  (entries : list DirEntry) :
  os_Stat w (Join [projectRoot; "10_PromptTemplates"]) <> StatNotExist ->
  os_ReadDir w (Join [projectRoot; "10_PromptTemplates"]) = Ok entries ->
  filter isTemplateEntry entries <> [] ->
  exists prompts,
    ListPrompts w projectRoot = (Ok prompts, map EvReadFile (map Path prompts)) /\
    map FileName prompts = map entry_Name (filter isTemplateEntry entries) /\
    (forall P, In P prompts ->
       Path P = Join [Join [projectRoot; "10_PromptTemplates"]; FileName P]).
Proof.
  intros Hstat Hdir Hne.
  exists (map (templateOf w (Join [projectRoot; "10_PromptTemplates"]))
              (filter isTemplateEntry entries)).
  rewrite (ListPrompts_ok w projectRoot entries Hstat Hdir Hne).
  rewrite !map_map. simpl. repeat split.
  intros P HP. apply in_map_iff in HP as (entry & <- & _). reflexivity.
Qed.

Lemma ListPrompts_lists_template_entries_witness :
  exists prompts,
    ListPrompts salesWorld "." = (Ok prompts, map EvReadFile (map Path prompts)) /\
    map FileName prompts = ["Sales_Discovery.md"] /\
    (forall P, In P prompts ->
       Path P = Join [Join ["."; "10_PromptTemplates"]; FileName P]).
Proof.
  apply (ListPrompts_lists_template_entries salesWorld "."
           [file "Sales_Discovery.md"; file "notes.txt"]).
  - discriminate.
  - reflexivity.
  - discriminate.
Defined.

(** X2. Every template of a listing has a file name that ends in ".md", a
    display name without underscores that is three bytes shorter than
    the file name, and a description of at most 63 bytes; a listing that
    succeeds is never empty. *)
Theorem ListPrompts_invariants (w : World) (projectRoot : string)
  (prompts : list PromptInfo) (t : list event) :
  ListPrompts w projectRoot = (Ok prompts, t) ->
  prompts <> [] /\
  forall P, In P prompts ->
    HasSuffix (FileName P) ".md" = true /\
    without "_" (Name P) = true /\
    String.length (Name P) + 3 = String.length (FileName P) /\
    String.length (Description P) <= 63.
Proof.
  intro H. destruct (ListPrompts_listed w _ _ _ H) as (entries & _ & -> & Hne).
  split; [exact Hne |]. intros P HP.
  apply in_map_iff in HP as (entry & <- & Hentry).
  apply filter_In in Hentry as [_ Htpl].
  unfold isTemplateEntry in Htpl. apply andb_true_iff in Htpl as [_ Hsuf].
  unfold templateOf; simpl. repeat split.
  - exact Hsuf.
  - now apply ReplaceAll_without.
  - unfold ReplaceAll. rewrite map_bytes_length.
    exact (TrimSuffix_length _ ".md" Hsuf).
  - destruct (os_ReadFile w _) as [content|e]; [| simpl; lia].
    rewrite describe_firstLine. apply truncate60_length.
Qed.

Lemma ListPrompts_invariants_witness :
  [mkPromptInfo "Sales Discovery" "Sales_Discovery.md"
     "10_PromptTemplates/Sales_Discovery.md" "Discover Needs"] <> [] /\
  forall P,
    In P [mkPromptInfo "Sales Discovery" "Sales_Discovery.md"
            "10_PromptTemplates/Sales_Discovery.md" "Discover Needs"] ->
    HasSuffix (FileName P) ".md" = true /\
    without "_" (Name P) = true /\
    String.length (Name P) + 3 = String.length (FileName P) /\
    String.length (Description P) <= 63.
Proof.
  exact (ListPrompts_invariants salesWorld "." _ _ eq_refl).
Defined.

(** X3. A template file that cannot be read is listed all the same, with an
    empty description: the failed read is not an error of the listing. *)
Theorem ListPrompts_unreadable_template (w : World) (projectRoot : string)
  (entries : list DirEntry) (entry : DirEntry) (e : oserror) :
  os_Stat w (Join [projectRoot; "10_PromptTemplates"]) <> StatNotExist ->
  os_ReadDir w (Join [projectRoot; "10_PromptTemplates"]) = Ok entries ->
  In entry entries ->
  isTemplateEntry entry = true ->
  os_ReadFile w (Join [Join [projectRoot; "10_PromptTemplates"];
                       entry_Name entry]) = Err e ->
  exists prompts t P,
    ListPrompts w projectRoot = (Ok prompts, t) /\
    In P prompts /\
    FileName P = entry_Name entry /\
    Description P = "" /\
    In (EvReadFile (Path P)) t.
Proof.
  intros Hstat Hdir Hin Htpl Hread.
  assert (In entry (filter isTemplateEntry entries)) as Hf
    by (apply filter_In; now split).
  assert (filter isTemplateEntry entries <> []) as Hne
    by (intro E; rewrite E in Hf; destruct Hf).
  rewrite (ListPrompts_ok w projectRoot entries Hstat Hdir Hne).
  eexists _, _, (templateOf w _ entry). split; [reflexivity |].
  split; [now apply in_map |]. split; [reflexivity |].
  split; [unfold templateOf; simpl; now rewrite Hread |].
  apply in_map_iff. now exists entry.
Qed.

Lemma ListPrompts_unreadable_template_witness :
  exists prompts t P,
    ListPrompts (storeWorld lockedDir salesFiles) "." = (Ok prompts, t) /\
    In P prompts /\
    FileName P = "Locked.md" /\
    Description P = "" /\
    In (EvReadFile (Path P)) t.
Proof.
  apply (ListPrompts_unreadable_template (storeWorld lockedDir salesFiles) "."
           [file "Locked.md"; file "Sales_Discovery.md"] (file "Locked.md")
           "open 10_PromptTemplates/Locked.md: no such file or directory").
  - discriminate.
  - reflexivity.
  - left; reflexivity.
  - reflexivity.
  - reflexivity.
Defined.

Lemma searchPrompts_partial_first (w : World) (prompts pre post : list PromptInfo)
  (T : PromptInfo) (query : string) :
  prompts = (pre ++ T :: post)%list ->
  (forall P, In P prompts -> ~ equalsName w query P) ->
  withinName w query T ->
  (forall P, In P pre -> ~ withinName w query P) ->
  searchPrompts w prompts query = Ok T.
Proof.
  intros Hp Hexact HT Hpre. unfold searchPrompts.
  assert (find (exactMatch w (ToLower (unicode_LowerCase w) (TrimSpace query))) prompts = None) as ->.
  { apply find_none_iff. intros P HP.
    destruct (exactMatch w _ P) eqn:E; [| reflexivity].
    apply exactMatch_equalsName in E. now destruct (Hexact P HP). }
  subst prompts. rewrite (find_first _ pre T post); [reflexivity | exact HT |].
  apply forallb_forall. intros P HP. apply negb_true_iff.
  unfold partialMatch. destruct (Contains _ _) eqn:E; [| reflexivity].
  now destruct (Hpre P HP).
Qed.

(** X4. When no template equals the query by display name or file name, find
    returns the first template in listing order whose lower-cased
    display name contains the trimmed, lower-cased query. *)
Theorem FindPrompt_substring_first (w : World) (projectRoot query : string)
  (prompts pre post : list PromptInfo) (T : PromptInfo) (t : list event) :
  ListPrompts w projectRoot = (Ok prompts, t) ->
  prompts = (pre ++ T :: post)%list ->
  (forall P, In P prompts -> ~ equalsName w query P) ->
  withinName w query T ->
  (forall P, In P pre -> ~ withinName w query P) ->
  FindPrompt w projectRoot query = (Ok T, t).
Proof.
  intros Hlist Hp Hexact HT Hpre.
  rewrite (FindPrompt_listed w _ query _ _ Hlist).
  now rewrite (searchPrompts_partial_first w prompts pre post T query).
Qed.

Lemma FindPrompt_substring_first_witness :
  FindPrompt (storeWorld collidingDir []) "." "DISCO" =
    (Ok (mkPromptInfo "Sales Discovery" "Sales_Discovery.md"
           "10_PromptTemplates/Sales_Discovery.md" ""),
     [EvReadFile "10_PromptTemplates/Big_Sales.md";
      EvReadFile "10_PromptTemplates/Sales.md";
      EvReadFile "10_PromptTemplates/Sales_Discovery.md"]).
Proof.
  apply (FindPrompt_substring_first (storeWorld collidingDir []) "." "DISCO"
           [mkPromptInfo "Big Sales" "Big_Sales.md"
              "10_PromptTemplates/Big_Sales.md" "";
            mkPromptInfo "Sales" "Sales.md" "10_PromptTemplates/Sales.md" "";
            mkPromptInfo "Sales Discovery" "Sales_Discovery.md"
              "10_PromptTemplates/Sales_Discovery.md" ""]
           [mkPromptInfo "Big Sales" "Big_Sales.md"
              "10_PromptTemplates/Big_Sales.md" "";
            mkPromptInfo "Sales" "Sales.md" "10_PromptTemplates/Sales.md" ""]
           []
           (mkPromptInfo "Sales Discovery" "Sales_Discovery.md"
              "10_PromptTemplates/Sales_Discovery.md" "")).
  - reflexivity.
  - reflexivity.
  - intros P [<- | [<- | [<- | []]]] [H | H]; discriminate H.
  - reflexivity.
  - intros P [<- | [<- | []]] H; discriminate H.
Defined.

(** X5. find never invents a template: what it returns is a template of the
    listing that the query equals or whose display name contains the
    query; and when it fails, either the listing failed, with that error,
    or the listing succeeded and the error is "prompt not found" with the
    query as it was typed. *)
Theorem FindPrompt_sound (w : World) (projectRoot query : string)
  (t : list event) :
  (forall T,
     FindPrompt w projectRoot query = (Ok T, t) ->
     exists prompts,
       ListPrompts w projectRoot = (Ok prompts, t) /\
       In T prompts /\
       (equalsName w query T \/ withinName w query T)) /\
  (forall e,
     FindPrompt w projectRoot query = (Err e, t) ->
     ListPrompts w projectRoot = (Err e, t) \/
     exists prompts,
       ListPrompts w projectRoot = (Ok prompts, t) /\
       e = E_PromptNotFound query /\
       Error e = "prompt not found: " ++ query).
Proof.
  split.
  - intros T H. unfold FindPrompt in H.
    apply bind_inv in H as [(e & _ & He) | (prompts & t1 & t2 & Hl & Hs & ->)];
      [discriminate |].
    inversion Hs; subst. rewrite app_nil_r. exists prompts.
    split; [exact Hl |].
    unfold searchPrompts in H0.
    destruct (find (exactMatch w _) prompts) as [P|] eqn:E1.
    + inversion H0; subst. apply find_some in E1 as [Hin Hm].
      split; [exact Hin |]. left. now apply exactMatch_equalsName.
    + destruct (find (partialMatch w _) prompts) as [P|] eqn:E2; [| discriminate].
      inversion H0; subst. apply find_some in E2 as [Hin Hm].
      split; [exact Hin |]. now right.
  - intros e H. unfold FindPrompt in H.
    apply bind_inv in H as [(e' & Hl & He) | (prompts & t1 & t2 & Hl & Hs & ->)].
    + inversion He; subst. now left.
    + inversion Hs; subst. rewrite app_nil_r. right. exists prompts.
      apply searchPrompts_error in H0. subst e. repeat split. exact Hl.
Qed.

(** X6. find depends on the query only through its trimmed, lower-cased
    form: two queries with the same form find the same template. *)
Theorem FindPrompt_normalises_query (w : World)
  (projectRoot query query' : string) :
  ToLower (unicode_LowerCase w) (TrimSpace query)
    = ToLower (unicode_LowerCase w) (TrimSpace query') ->
  forall T t,
    FindPrompt w projectRoot query = (Ok T, t) <->
    FindPrompt w projectRoot query' = (Ok T, t).
Proof.
  assert (forall q q',
            ToLower (unicode_LowerCase w) (TrimSpace q)
              = ToLower (unicode_LowerCase w) (TrimSpace q') ->
            forall T t, FindPrompt w projectRoot q = (Ok T, t) ->
                        FindPrompt w projectRoot q' = (Ok T, t)) as H.
  { intros q q' Hq T t. unfold FindPrompt, bind.
    destruct (ListPrompts w projectRoot) as [[prompts|e] t1]; [| discriminate].
    unfold searchPrompts. rewrite Hq.
    destruct (find (exactMatch w _) prompts); [trivial |].
    destruct (find (partialMatch w _) prompts); [trivial | discriminate]. }
  intros Hq T t. split; apply H; [exact Hq | now symmetry].
Qed.

(** The queries "\u00a0 SALES discovery\u2003" and "sales Discovery". *)
Lemma FindPrompt_normalises_query_witness :
  FindPrompt salesWorld "."
    (ofBytes [0xC2; 0xA0]%N ++ " SALES discovery" ++ ofBytes [0xE2; 0x80; 0x83]%N)
    = (Ok (mkPromptInfo "Sales Discovery" "Sales_Discovery.md"
             "10_PromptTemplates/Sales_Discovery.md" "Discover Needs"),
       [EvReadFile "10_PromptTemplates/Sales_Discovery.md"]) <->
  FindPrompt salesWorld "." "sales Discovery" =
    (Ok (mkPromptInfo "Sales Discovery" "Sales_Discovery.md"
           "10_PromptTemplates/Sales_Discovery.md" "Discover Needs"),
     [EvReadFile "10_PromptTemplates/Sales_Discovery.md"]).
Proof.
  exact (FindPrompt_normalises_query salesWorld "."
           (ofBytes [0xC2; 0xA0]%N ++ " SALES discovery"
              ++ ofBytes [0xE2; 0x80; 0x83]%N)
           "sales Discovery" eq_refl _ _).
Defined.

Lemma FindPrompt_sound_witness :
  exists prompts,
    ListPrompts salesWorld "." =
      (Ok prompts, [EvReadFile "10_PromptTemplates/Sales_Discovery.md"]) /\
    In (mkPromptInfo "Sales Discovery" "Sales_Discovery.md"
          "10_PromptTemplates/Sales_Discovery.md" "Discover Needs") prompts /\
    (equalsName salesWorld "sales"
       (mkPromptInfo "Sales Discovery" "Sales_Discovery.md"
          "10_PromptTemplates/Sales_Discovery.md" "Discover Needs") \/
     withinName salesWorld "sales"
       (mkPromptInfo "Sales Discovery" "Sales_Discovery.md"
          "10_PromptTemplates/Sales_Discovery.md" "Discover Needs")).
Proof.
  exact (proj1 (FindPrompt_sound salesWorld "." "sales" _) _ eq_refl).
Defined.

(* ================================================================== *)
(** ** File discovery *)
(* ================================================================== *)

Lemma DiscoverFiles_fold (w : World) (projectRoot : string)
  (visited : list WalkItem) (files : list FileInfo) :
  fold_left (DiscoverFiles_callback w projectRoot) visited files =
  (files ++ map (fileInfoOf w projectRoot) (filter isRegular visited))%list.
Proof.
  revert files. induction visited as [|it visited IH]; intro files; simpl.
  - now rewrite app_nil_r.
  - rewrite IH. unfold DiscoverFiles_callback at 1, isRegular at 2.
    destruct (walk_IsDir it); simpl; [reflexivity |].
    now rewrite <- app_assoc.
Qed.

Lemma DiscoverFiles_ok (w : World) (projectRoot : string)
  (visited : list WalkItem) :
  os_Stat w (Join [projectRoot; "00_Inbox"]) <> StatNotExist ->
  filepath_Walk w (Join [projectRoot; "00_Inbox"]) = Ok visited ->
  DiscoverFiles w projectRoot =
    (Ok (map (fileInfoOf w projectRoot) (filter isRegular visited)), []).
Proof.
  intros Hstat Hwalk. unfold DiscoverFiles. rewrite Hwalk, DiscoverFiles_fold.
  destruct (os_Stat w _); [| contradiction |]; reflexivity.
Qed.

(** X8. Discovery fails with NotFound when the inbox is absent and with
    IOError when the walk fails. Otherwise it returns, without reading
    any file, one record for every visited path that is not a directory,
    in the order of the walk, with the path, name and size the walk gave
    and, as relative path, the path relative to the project root or the
    path itself where that cannot be computed; an inbox without files
    gives the empty list and no error. *)
Theorem DiscoverFiles_regular_files (w : World) (projectRoot : string) :
  (os_Stat w (Join [projectRoot; "00_Inbox"]) = StatNotExist ->
   DiscoverFiles w projectRoot =
     (Err (E_InboxNotFoundAt (Join [projectRoot; "00_Inbox"])), []) /\
   kind (E_InboxNotFoundAt (Join [projectRoot; "00_Inbox"])) = NotFound) /\
  (forall e,
   os_Stat w (Join [projectRoot; "00_Inbox"]) <> StatNotExist ->
   filepath_Walk w (Join [projectRoot; "00_Inbox"]) = Err e ->
   DiscoverFiles w projectRoot = (Err (E_ScanInbox e), []) /\
   kind (E_ScanInbox e) = IOError) /\
  (forall visited,
   os_Stat w (Join [projectRoot; "00_Inbox"]) <> StatNotExist ->
   filepath_Walk w (Join [projectRoot; "00_Inbox"]) = Ok visited ->
   exists files,
     DiscoverFiles w projectRoot = (Ok files, []) /\
     map file_Path files = map walk_path (filter isRegular visited) /\
     map file_Name files = map walk_Name (filter isRegular visited) /\
     map file_Size files = map walk_Size (filter isRegular visited) /\
     (forall f, In f files ->
        filepath_Rel w projectRoot (file_Path f) = Ok (file_RelativePath f) \/
        ((exists e, filepath_Rel w projectRoot (file_Path f) = Err e) /\
         file_RelativePath f = file_Path f)) /\
     ((forall it, In it visited -> walk_IsDir it = true) -> files = [])).
Proof.
  split; [| split].
  - intro H. unfold DiscoverFiles. rewrite H. split; reflexivity.
  - intros e Hstat Hwalk. unfold DiscoverFiles. rewrite Hwalk.
    destruct (os_Stat w _); [| contradiction |]; split; reflexivity.
  - intros visited Hstat Hwalk.
    exists (map (fileInfoOf w projectRoot) (filter isRegular visited)).
    split; [now apply DiscoverFiles_ok |].
    rewrite !map_map. simpl. repeat split.
    + intros f Hf. apply in_map_iff in Hf as (it & <- & _).
      unfold fileInfoOf; simpl.
      destruct (filepath_Rel w projectRoot (walk_path it)) as [r|e];
        [now left | right; split; [now exists e | reflexivity]].
    + intro Hdirs.
      assert (filter isRegular visited = []) as ->; [| reflexivity].
      clear - Hdirs. induction visited as [|it visited IH]; [reflexivity |].
      simpl. unfold isRegular at 1. rewrite (Hdirs it (or_introl eq_refl)).
      simpl. apply IH. intros x Hx. apply Hdirs. now right.
Qed.

Lemma DiscoverFiles_regular_files_witness :
  exists files,
    DiscoverFiles inboxWorld "." = (Ok files, []) /\
    map file_Path files = ["00_Inbox/notes/call.txt"; "00_Inbox/brief.md"] /\
    map file_Name files = ["call.txt"; "brief.md"] /\
    map file_Size files = [2500%Z; 120%Z] /\
    (forall f, In f files ->
       filepath_Rel inboxWorld "." (file_Path f) = Ok (file_RelativePath f) \/
       ((exists e, filepath_Rel inboxWorld "." (file_Path f) = Err e) /\
        file_RelativePath f = file_Path f)) /\
    ((forall it, In it inboxItems -> walk_IsDir it = true) -> files = []).
Proof.
  apply (proj2 (proj2 (DiscoverFiles_regular_files inboxWorld ".")) inboxItems).
  - discriminate.
  - reflexivity.
Defined.

(** X9. The file selection of --discover returns exactly one path: the path
    of the discovered file the user picked, a visited path that is not a
    directory. Without any file in the inbox it fails with "no files
    found in inbox" and shows no menu. It reads no file. *)
Theorem discoverAndSelectFiles_one_file (w : World) (projectRoot : string)
  (visited : list WalkItem) :
  os_Stat w (Join [projectRoot; "00_Inbox"]) <> StatNotExist ->
  filepath_Walk w (Join [projectRoot; "00_Inbox"]) = Ok visited ->
  (forall selected t,
     discoverAndSelectFiles w projectRoot = (Ok selected, t) ->
     t = [] /\
     exists it idx,
       selected = [walk_path it] /\
       In it visited /\ walk_IsDir it = false /\
       ui_selectFile w (map discoverItem
                          (map (fileInfoOf w projectRoot)
                               (filter isRegular visited))) = Ok idx /\
       nth_error (filter isRegular visited) idx = Some it) /\
  (filter isRegular visited = [] ->
   discoverAndSelectFiles w projectRoot = (Err E_NoFilesInInbox, [])).
Proof.
  intros Hstat Hwalk.
  unfold discoverAndSelectFiles, bind.
  rewrite (DiscoverFiles_ok w projectRoot visited Hstat Hwalk).
  split.
  - intros selected t.
    destruct (map (fileInfoOf w projectRoot) (filter isRegular visited))
      as [|f files] eqn:E; [discriminate |].
    rewrite <- E. clear E f files.
    destruct (ui_selectFile w _) as [idx|e] eqn:Hsel; [| discriminate].
    rewrite nth_error_map.
    destruct (nth_error (filter isRegular visited) idx) as [it|] eqn:Hnth;
      [| discriminate].
    simpl. intro H. inversion H; subst. split; [reflexivity |].
    exists it, idx. pose proof (nth_error_In _ _ Hnth) as Hin.
    apply filter_In in Hin as [Hin Hreg].
    unfold isRegular in Hreg. apply negb_true_iff in Hreg.
    repeat split; assumption.
  - intros ->. reflexivity.
Qed.

Lemma discoverAndSelectFiles_one_file_witness :
  @nil event = [] /\
  exists it idx,
    ["00_Inbox/brief.md"] = [walk_path it] /\
    In it inboxItems /\ walk_IsDir it = false /\
    ui_selectFile inboxWorld
      (map discoverItem
         (map (fileInfoOf inboxWorld ".") (filter isRegular inboxItems)))
      = Ok idx /\
    nth_error (filter isRegular inboxItems) idx = Some it.
Proof.
  refine (proj1 (discoverAndSelectFiles_one_file inboxWorld "." inboxItems _ _)
                ["00_Inbox/brief.md"] [] eq_refl).
  - discriminate.
  - reflexivity.
Defined.

Example discoverAndSelectFiles_run :
  discoverAndSelectFiles inboxWorld "." = (Ok ["00_Inbox/brief.md"], []) /\
  map discoverItem (map (fileInfoOf inboxWorld ".") (filter isRegular inboxItems)) =
    ["00_Inbox/notes/call.txt (2 KB, modified: 2025-01-30 08:05)";
     "00_Inbox/brief.md (0 KB, modified: 2025-01-29 17:40)"].
Proof. split; reflexivity. Qed.

Lemma DiscoverFiles_reads_nothing (w : World) (projectRoot : string) :
  snd (DiscoverFiles w projectRoot) = [].
Proof.
  unfold DiscoverFiles.
  destruct (os_Stat w _); try reflexivity;
    destruct (filepath_Walk w _); reflexivity.
Qed.

Lemma DiscoverFiles_error (w : World) (projectRoot : string) (e : error)
  (t : list event) :
  DiscoverFiles w projectRoot = (Err e, t) -> e <> E_IndexOutOfRange.
Proof.
  unfold DiscoverFiles, fail, ret.
  destruct (os_Stat w _); try (intro H; inversion H; discriminate);
    destruct (filepath_Walk w _); intro H; inversion H; discriminate.
Qed.

Lemma discoverAndSelectFiles_shape (w : World) (projectRoot : string) :
  menuInRange w ->
  exists r,
    discoverAndSelectFiles w projectRoot = (r, []) /\
    r <> Err E_IndexOutOfRange /\
    (forall selected, r = Ok selected -> exists p, selected = [p]).
Proof.
  intro Hmenu. unfold discoverAndSelectFiles, bind.
  pose proof (DiscoverFiles_reads_nothing w projectRoot) as Ht.
  destruct (DiscoverFiles w projectRoot) as [[files|e] t] eqn:Hd;
    simpl in Ht; subst t.
  - destruct files as [|f files].
    + eexists. split; [reflexivity |]. split; discriminate.
    + destruct (ui_selectFile w _) as [idx|e] eqn:E.
      * apply Hmenu in E. rewrite length_map in E.
        destruct (nth_error (f :: files) idx) as [file|] eqn:Hn.
        -- eexists. split; [reflexivity |]. split; [discriminate |].
           intros sel H. inversion H. now exists (file_Path file).
        -- apply nth_error_None in Hn. lia.
      * eexists. split; [reflexivity |]. split; discriminate.
  - exists (Err e). split; [reflexivity |]. split; [| discriminate].
    intro H. inversion H; subst. now apply (DiscoverFiles_error _ _ _ _ Hd).
Qed.

(** X10. A failed discovery never aborts the run command: with a terminal
    library that returns an index of the menu it showed, the discovery
    step always succeeds, reads no file, and returns the files given
    with --file, followed by at most one discovered file; without
    --discover it returns the given files as they are. *)
Theorem run_discover_never_aborts (w : World) (fl : Flags)
  (projectRoot : string) :
  menuInRange w ->
  exists files,
    run_discover w fl projectRoot = (Ok files, []) /\
    (files = inputFiles fl \/ exists p, files = (inputFiles fl ++ [p])%list) /\
    (discoverFiles fl = false -> files = inputFiles fl).
Proof.
  intro Hmenu. unfold run_discover.
  destruct (discoverFiles fl); [| exists (inputFiles fl); auto].
  destruct (discoverAndSelectFiles_shape w projectRoot Hmenu)
    as (r & -> & Hne & Hone).
  destruct r as [selected|e].
  - destruct (Hone selected eq_refl) as [p ->].
    eexists. split; [reflexivity |]. split; [right; now exists p | discriminate].
  - exists (inputFiles fl).
    split; [destruct e; try reflexivity; now destruct Hne |].
    split; [now left | discriminate].
Qed.

Lemma pickLast_inRange (items : list string) (idx : nat) :
  pickLast items = Ok idx -> idx < List.length items.
Proof.
  destruct items as [|a rest]; simpl; intro H; inversion H. lia.
Defined.

Lemma run_discover_never_aborts_witness :
  exists files,
    run_discover inboxWorld (mkFlags ["a.txt"] true true true "") "."
      = (Ok files, []) /\
    (files = ["a.txt"] \/ exists p, files = (["a.txt"] ++ [p])%list) /\
    (true = false -> files = ["a.txt"]).
Proof.
  apply (run_discover_never_aborts inboxWorld
           (mkFlags ["a.txt"] true true true "") ".").
  exact pickLast_inRange.
Defined.

Example run_discover_run :
  run_discover inboxWorld (mkFlags ["a.txt"] true true true "") "." =
    (Ok ["a.txt"; "00_Inbox/brief.md"], []).
Proof. reflexivity. Qed.

(* ================================================================== *)
(** ** The input of the run command *)
(* ================================================================== *)

Lemma run_fileContext_readable (w : World) (files : list string) :
  files <> [] ->
  (forall p, In p files -> readable w p = true) ->
  run_fileContext w files =
    (Ok (contextHeader ++ concatAll (map (contextBlock w) files)),
     map EvReadFile files).
Proof.
  intros Hne Hall. unfold run_fileContext.
  destruct files as [|p files]; [contradiction |].
  unfold FormatFileContext.
  rewrite (FormatFileContext_loop_readable w (p :: files) Hall). reflexivity.
Qed.

Lemma contextHeader_not_empty (s : string) : (contextHeader ++ s =? "") = false.
Proof. reflexivity. Qed.

(** X11. Data piped into the run command is the user input, and the
    interactive prompt is not shown: without context files the full
    input is the piped data, and with (readable) context files it is the
    formatted context, a blank line, the line "User Input:" and the piped
    data. *)
Theorem run_gather_piped (w : World) (fl : Flags) (promptName : string)
  (prompt : PromptInfo) (promptContent : string) (t : list event)
  (data : string) :
  FindPrompt w "." promptName = (Ok prompt, t) ->
  os_ReadFile w (Path prompt) = Ok promptContent ->
  stdin_pipe w = Some (Ok data) ->
  data <> "" ->
  discoverFiles fl = false ->
  (forall p, In p (inputFiles fl) -> readable w p = true) ->
  run_gather w fl promptName =
    (Ok (prompt, promptContent,
         match inputFiles fl with
         | [] => data
         | _ => (contextHeader ++ concatAll (map (contextBlock w) (inputFiles fl)))
                  ++ nl ++ nl ++ "User Input:" ++ nl ++ data
         end),
     (t ++ EvReadFile (Path prompt) :: map EvReadFile (inputFiles fl))%list).
Proof.
  intros Hf Hread Hpipe Hdata Hd Hall.
  apply String.eqb_neq in Hdata.
  pose proof (run_fileContext_readable w (inputFiles fl)) as Hctx.
  unfold run_gather, bind, emit, fail, ret. rewrite Hf, Hread.
  unfold run_readStdin, run_discover, ret. rewrite Hpipe, Hd.
  destruct (inputFiles fl) as [|p files] eqn:E.
  - unfold run_fileContext, run_promptInput, combineInput, ret.
    rewrite Hdata. simpl. rewrite Hdata. reflexivity.
  - rewrite Hctx by (discriminate || exact Hall).
    unfold run_promptInput, combineInput, ret.
    rewrite Hdata. simpl. rewrite Hdata.
    rewrite !app_nil_r. reflexivity.
Qed.

Lemma run_gather_piped_witness :
  run_gather pipedWorld defaultFlags "sales" =
    (Ok (mkPromptInfo "Sales Discovery" "Sales_Discovery.md"
           "10_PromptTemplates/Sales_Discovery.md" "Discover Needs",
         "# Discover Needs" ++ nl ++ "Ask about budget." ++ nl,
         "from the pipe"),
     [EvReadFile "10_PromptTemplates/Sales_Discovery.md";
      EvReadFile "10_PromptTemplates/Sales_Discovery.md"]).
Proof.
  apply (run_gather_piped pipedWorld defaultFlags "sales"
           (mkPromptInfo "Sales Discovery" "Sales_Discovery.md"
              "10_PromptTemplates/Sales_Discovery.md" "Discover Needs")
           ("# Discover Needs" ++ nl ++ "Ask about budget." ++ nl)
           [EvReadFile "10_PromptTemplates/Sales_Discovery.md"]
           "from the pipe").
  - reflexivity.
  - reflexivity.
  - reflexivity.
  - discriminate.
  - reflexivity.
  - intros p [].
Defined.

(** X12. With context files and nothing piped in, the run command does not
    ask for input: the full input is the formatted context alone, so the
    user has no request of their own in the prompt. *)
Theorem run_gather_files_only (w : World) (fl : Flags) (promptName : string)
  (prompt : PromptInfo) (promptContent : string) (t : list event) :
  FindPrompt w "." promptName = (Ok prompt, t) ->
  os_ReadFile w (Path prompt) = Ok promptContent ->
  stdin_pipe w = None \/ stdin_pipe w = Some (Ok "") ->
  discoverFiles fl = false ->
  inputFiles fl <> [] ->
  (forall p, In p (inputFiles fl) -> readable w p = true) ->
  run_gather w fl promptName =
    (Ok (prompt, promptContent,
         contextHeader ++ concatAll (map (contextBlock w) (inputFiles fl))),
     (t ++ EvReadFile (Path prompt) :: map EvReadFile (inputFiles fl))%list).
Proof.
  intros Hf Hread Hpipe Hd Hne Hall.
  assert (run_readStdin w = (Ok "", [])) as Hstdin
    by (unfold run_readStdin; destruct Hpipe as [-> | ->]; reflexivity).
  unfold run_gather, bind, emit, fail, ret. rewrite Hf, Hread, Hstdin.
  unfold run_discover, ret. rewrite Hd.
  rewrite (run_fileContext_readable w (inputFiles fl) Hne Hall).
  unfold run_promptInput, combineInput, ret.
  rewrite contextHeader_not_empty. simpl.
  rewrite !app_nil_r. reflexivity.
Qed.

Lemma run_gather_files_only_witness :
  run_gather salesWorld
    (mkFlags ["10_PromptTemplates/Sales_Discovery.md"] true false true "")
    "sales" =
    (Ok (mkPromptInfo "Sales Discovery" "Sales_Discovery.md"
           "10_PromptTemplates/Sales_Discovery.md" "Discover Needs",
         "# Discover Needs" ++ nl ++ "Ask about budget." ++ nl,
         "Context Files:" ++ nl ++ nl ++
         "=== File: Sales_Discovery.md ===" ++ nl ++ nl ++
         "# Discover Needs" ++ nl ++ "Ask about budget." ++ nl ++ nl ++ nl),
     [EvReadFile "10_PromptTemplates/Sales_Discovery.md";
      EvReadFile "10_PromptTemplates/Sales_Discovery.md";
      EvReadFile "10_PromptTemplates/Sales_Discovery.md"]).
Proof.
  apply (run_gather_files_only salesWorld
           (mkFlags ["10_PromptTemplates/Sales_Discovery.md"] true false true "")
           "sales"
           (mkPromptInfo "Sales Discovery" "Sales_Discovery.md"
              "10_PromptTemplates/Sales_Discovery.md" "Discover Needs")
           ("# Discover Needs" ++ nl ++ "Ask about budget." ++ nl)
           [EvReadFile "10_PromptTemplates/Sales_Discovery.md"]).
  - reflexivity.
  - reflexivity.
  - left; reflexivity.
  - reflexivity.
  - discriminate.
  - intros p [<- | []]. reflexivity.
Defined.

(** X13. With no context file and nothing (or an empty text) piped in, the
    run command asks for the input, and what the user types is the full
    input - also when it is empty. *)
Theorem run_gather_prompted (w : World) (fl : Flags) (promptName : string)
  (prompt : PromptInfo) (promptContent : string) (t : list event)
  (typed : string) :
  FindPrompt w "." promptName = (Ok prompt, t) ->
  os_ReadFile w (Path prompt) = Ok promptContent ->
  stdin_pipe w = None \/ stdin_pipe w = Some (Ok "") ->
  discoverFiles fl = false ->
  inputFiles fl = [] ->
  ui_enterInput w = Ok typed ->
  run_gather w fl promptName =
    (Ok (prompt, promptContent, typed), (t ++ [EvReadFile (Path prompt)])%list).
Proof.
  intros Hf Hread Hpipe Hd Hfiles Htyped.
  assert (run_readStdin w = (Ok "", [])) as Hstdin
    by (unfold run_readStdin; destruct Hpipe as [-> | ->]; reflexivity).
  unfold run_gather, bind, emit, fail, ret. rewrite Hf, Hread, Hstdin.
  unfold run_discover, ret. rewrite Hd, Hfiles.
  unfold run_fileContext, run_promptInput, combineInput, ret. simpl.
  rewrite Htyped. now destruct typed.
Qed.

Lemma run_gather_prompted_witness :
  run_gather salesWorld defaultFlags "sales" =
    (Ok (mkPromptInfo "Sales Discovery" "Sales_Discovery.md"
           "10_PromptTemplates/Sales_Discovery.md" "Discover Needs",
         "# Discover Needs" ++ nl ++ "Ask about budget." ++ nl,
         "input"),
     [EvReadFile "10_PromptTemplates/Sales_Discovery.md";
      EvReadFile "10_PromptTemplates/Sales_Discovery.md"]).
Proof.
  apply (run_gather_prompted salesWorld defaultFlags "sales"
           (mkPromptInfo "Sales Discovery" "Sales_Discovery.md"
              "10_PromptTemplates/Sales_Discovery.md" "Discover Needs")
           ("# Discover Needs" ++ nl ++ "Ask about budget." ++ nl)
           [EvReadFile "10_PromptTemplates/Sales_Discovery.md"]
           "input").
  - reflexivity.
  - reflexivity.
  - left; reflexivity.
  - reflexivity.
  - reflexivity.
  - reflexivity.
Defined.
(* ================================================================== *)
(** ** More on the local-process backend *)
(* ================================================================== *)

(** X14. A response of the local-process backend never begins or ends with
    white space - the encoding of a white-space character of Unicode -
    whatever the child process printed. *)
Theorem ExecutePrompt_response_trimmed (w : World)
  (promptContent userInput response : string) :
  fst (ExecutePrompt w promptContent userInput) = (response, None) ->
  noSpaceAround response.
Proof.
  unfold ExecutePrompt.
  destruct (cmd_StdinPipe w); [discriminate |].
  destruct (cmd_Start w); [discriminate |].
  destruct (cmd_WriteStdin w _); [discriminate |].
  destruct (cmd_Wait w _); [discriminate |].
  destruct (_ =? _); [discriminate |].
  simpl. intro H. inversion H. apply TrimSpace_noSpaceAround.
Qed.

Lemma ExecutePrompt_response_trimmed_witness :
  fst (ExecutePrompt paddedAnswerWorld "Be brief." "input") = ("answer", None)
  /\ noSpaceAround "answer".
Proof.
  split; [reflexivity |].
  exact (ExecutePrompt_response_trimmed paddedAnswerWorld "Be brief." "input"
           "answer" eq_refl).
Defined.

(** X15. The emptiness of the answer is tested before it is trimmed: when the
    child process succeeds and prints white space only - every character
    of its output is white space of Unicode - execute returns the empty
    response and no error; only when it prints nothing at all is the
    result the "no response" error. *)
Theorem ExecutePrompt_blank_answer (w : World) (promptContent userInput : string) :
  cmd_StdinPipe w = None -> cmd_Start w = None ->
  cmd_WriteStdin w (combinedPrompt promptContent userInput) = None ->
  cmd_Wait w (combinedPrompt promptContent userInput) = None ->
  allSpace (cmd_stdout w (combinedPrompt promptContent userInput)) = true ->
  (cmd_stdout w (combinedPrompt promptContent userInput) <> "" ->
   fst (ExecutePrompt w promptContent userInput) = ("", None)) /\
  (cmd_stdout w (combinedPrompt promptContent userInput) = "" ->
   fst (ExecutePrompt w promptContent userInput) = ("", Some E_NoResponse)).
Proof.
  intros Hpipe Hstart Hwrite Hwait Hblank. unfold ExecutePrompt.
  rewrite Hpipe, Hstart, Hwrite, Hwait. split; intro H.
  - apply String.eqb_neq in H. rewrite H. simpl.
    now rewrite (TrimSpace_allSpace _ Hblank).
  - now rewrite H.
Qed.

Lemma ExecutePrompt_blank_answer_witness :
  fst (ExecutePrompt blankAnswerWorld "Be brief." "input") = ("", None) /\
  fst (ExecutePrompt silentWorld "Be brief." "input") = ("", Some E_NoResponse).
Proof.
  split.
  - apply (proj1 (ExecutePrompt_blank_answer blankAnswerWorld "Be brief." "input"
                    eq_refl eq_refl eq_refl eq_refl eq_refl)).
    discriminate.
  - apply (proj2 (ExecutePrompt_blank_answer silentWorld "Be brief." "input"
                    eq_refl eq_refl eq_refl eq_refl eq_refl)).
    reflexivity.
Defined.

Lemma ExecuteWithFiles_loop_blocks (files : list string) (builder : string) :
  ExecuteWithFiles_loop files builder =
  builder ++ concatAll (map (fun filePath =>
                               "=== File: " ++ filePath ++ " ===" ++ nl
                                 ++ nl ++ nl) files).
Proof.
  revert builder. induction files as [|p files IH]; intro builder.
  - simpl. now rewrite append_nil_r.
  - cbn [ExecuteWithFiles_loop map concatAll fold_right].
    rewrite IH. unfold concatAll. rewrite !append_assoc. reflexivity.
Qed.

(** X16. ExecuteWithFiles puts the paths of the files in the prompt and not
    their contents: it reads no file, and what it writes to the child
    process is the header, one banner with the full path and three line
    feeds per file, the template, the user request, and then a second,
    empty "User Request:" section. Its result is that of execute on this
    text. *)
Theorem ExecuteWithFiles_names_only (w : World) (promptContent : string)
  (files : list string) (userInput : string) :
  let fullPrompt :=
    "Context Files:" ++ nl ++ nl ++
    concatAll (map (fun filePath =>
                      "=== File: " ++ filePath ++ " ===" ++ nl ++ nl ++ nl)
                   files) ++
    nl ++ nl ++ promptContent ++ nl ++ nl ++ "User Request:" ++ nl ++ userInput in
  ExecuteWithFiles w promptContent files userInput =
    ExecutePrompt w fullPrompt "" /\
  (snd (ExecuteWithFiles w promptContent files userInput) = [] \/
   snd (ExecuteWithFiles w promptContent files userInput) =
     [EvWriteStdin (fullPrompt ++ nl ++ nl ++ "User Request:" ++ nl)]) /\
  forallb (fun ev => negb (isRead ev))
    (snd (ExecuteWithFiles w promptContent files userInput)) = true.
Proof.
  intro fullPrompt.
  assert (ExecuteWithFiles w promptContent files userInput =
          ExecutePrompt w fullPrompt "") as ->.
  { unfold ExecuteWithFiles. rewrite ExecuteWithFiles_loop_blocks.
    subst fullPrompt. now rewrite !append_assoc. }
  split; [reflexivity |].
  assert (combinedPrompt fullPrompt "" =
          fullPrompt ++ nl ++ nl ++ "User Request:" ++ nl) as <-
    by (unfold combinedPrompt; now rewrite append_nil_r).
  destruct (ExecutePrompt_trace w fullPrompt "") as [-> | ->];
    split; auto.
Qed.

Lemma writeLines_blocks (lines : list string) (response : string) :
  writeLines lines response =
  response ++ concatAll (map (fun line => dropCR line ++ nl) lines).
Proof.
  revert response. induction lines as [|l lines IH]; intro response.
  - simpl. now rewrite append_nil_r.
  - cbn [writeLines map concatAll fold_right].
    rewrite IH. unfold concatAll. rewrite !append_assoc. reflexivity.
Qed.

Lemma dropCR_without (line : string) : without CR line = true -> dropCR line = line.
Proof.
  induction line as [|c rest IH]; [reflexivity |]. simpl.
  intro H. apply andb_true_iff in H as [Hc Hrest].
  apply negb_true_iff in Hc. rewrite Hc.
  destruct rest; [reflexivity |]. now rewrite IH.
Qed.

Lemma Split_without (s : string) (c sep : ascii) :
  without c s = true -> Forall (fun l => without c l = true) (Split s sep).
Proof.
  induction s as [|x s IH]; simpl; intro H.
  - repeat constructor.
  - apply andb_true_iff in H as [Hx Hs]. specialize (IH Hs).
    destruct (Ascii.eqb x sep).
    + constructor; [reflexivity | exact IH].
    + destruct (Split s sep) as [|h t].
      * constructor; [simpl; now rewrite Hx | constructor].
      * inversion IH; subst. constructor; [simpl; now rewrite Hx | assumption].
Qed.

(** The segments of a text, each followed by a line feed, give the text
    followed by a line feed. *)
Lemma Split_lines (s : string) :
  concatAll (map (fun line => line ++ nl) (Split s LF)) = s ++ nl.
Proof.
  induction s as [|c s IH]; [reflexivity |].
  cbn [Split]. destruct (Ascii.eqb_spec c LF) as [-> | Hc].
  - cbn [map concatAll fold_right]. unfold concatAll in IH. now rewrite IH.
  - destruct (Split s LF) as [|h t] eqn:E.
    + now destruct (Split_not_nil s LF).
    + cbn [map concatAll fold_right] in *. cbn [append].
      f_equal. exact IH.
Qed.

Lemma append_nl_inj (a b : string) : a ++ nl = b ++ nl -> a = b.
Proof.
  revert b. induction a as [|x a IH]; intros [|y b]; simpl; intro H.
  - reflexivity.
  - inversion H. destruct b; discriminate.
  - inversion H. destruct a; discriminate.
  - inversion H. f_equal. now apply IH.
Qed.

Lemma concatAll_app (xs ys : list string) :
  concatAll (xs ++ ys) = concatAll xs ++ concatAll ys.
Proof.
  induction xs as [|x xs IH]; simpl; [reflexivity |].
  unfold concatAll in *. simpl. now rewrite IH, append_assoc.
Qed.

(** The scanned lines of a text, each followed by a line feed, give the
    text itself when it is empty or ends in a line feed, and the text
    followed by a line feed otherwise. *)
Lemma scanLines_lines (s : string) :
  concatAll (map (fun line => line ++ nl) (scanLines s)) = s \/
  concatAll (map (fun line => line ++ nl) (scanLines s)) = s ++ nl.
Proof.
  unfold scanLines. pose proof (Split_lines s) as H.
  destruct (String.eqb_spec (last (Split s LF) "") "") as [E | E];
    [left | now right].
  rewrite (app_removelast_last "" (Split_not_nil s LF)), E in H.
  rewrite map_app, concatAll_app in H. simpl in H.
  now apply append_nl_inj.
Qed.

(** X18. ReadStreamResponse on a reader that delivers a text and then ends:
    when the text has no carriage return and no line of 64 KiB or more,
    the result is the text with the white space of Unicode around it
    trimmed, so the line structure inside is kept as it is. When the reader ends
    with an error instead, or a line is that long, the result is the
    empty string with an "error reading stream" error. *)
Theorem ReadStreamResponse_trims (text : string) (failure : option oserror) :
  existsb tokenTooLong (scanLines text) = false ->
  (failure = None -> without CR text = true ->
   ReadStreamResponse (mkReader text failure) = (TrimSpace text, None)) /\
  (forall e, failure = Some e ->
   ReadStreamResponse (mkReader text failure) = ("", Some (S_ReadStream e)) /\
   stream_Error (S_ReadStream e) = "error reading stream: " ++ e).
Proof.
  intro Hshort. unfold ReadStreamResponse. simpl. rewrite Hshort. split.
  - intros -> Hcr. f_equal.
    rewrite writeLines_blocks. simpl.
    assert (map (fun line => dropCR line ++ nl) (scanLines text) =
            map (fun line => line ++ nl) (scanLines text)) as ->.
    { apply map_ext_in. intros l Hl. rewrite dropCR_without; [reflexivity |].
      pose proof (Split_without text CR LF Hcr) as Hall.
      rewrite Forall_forall in Hall. apply Hall.
      unfold scanLines in Hl. destruct (_ =? _); [| exact Hl].
      clear - Hl. induction (Split text LF) as [|a l' IH]; [destruct Hl |].
      destruct l'; [destruct Hl |]. destruct Hl as [<- | Hl];
        [now left | right; now apply IH]. }
    destruct (scanLines_lines text) as [-> | ->]; [reflexivity |].
    apply TrimSpace_app_nl.
  - intros e ->. split; reflexivity.
Qed.

(** The text "\n\u3000first\n\nsecond \u00a0\n\n". *)
Lemma ReadStreamResponse_trims_witness :
  ReadStreamResponse
    (mkReader (nl ++ ofBytes [0xE3; 0x80; 0x80]%N ++ "first" ++ nl ++ nl
                 ++ "second " ++ ofBytes [0xC2; 0xA0]%N ++ nl ++ nl) None) =
    ("first" ++ nl ++ nl ++ "second", None).
Proof.
  apply (proj1 (ReadStreamResponse_trims
                  (nl ++ ofBytes [0xE3; 0x80; 0x80]%N ++ "first" ++ nl ++ nl
                     ++ "second " ++ ofBytes [0xC2; 0xA0]%N ++ nl ++ nl) None
                  eq_refl)); reflexivity.
Defined.

Example ReadStreamResponse_carriage_returns :
  ReadStreamResponse
    (mkReader ("a" ++ String CR nl ++ "b" ++ String CR "") None) =
    ("a" ++ nl ++ "b", None) /\
  scanLines ("a" ++ nl ++ nl ++ "b") = ["a"; ""; "b"] /\
  scanLines ("a" ++ nl) = ["a"] /\ scanLines "" = [].
Proof. repeat split. Qed.

(* ================================================================== *)
(** ** More on the session controller *)
(* ================================================================== *)

Lemma traceAll_bind {A B} (P : event -> bool) (m : M A) (f : A -> M B) :
  traceAll P m -> (forall a, traceAll P (f a)) -> traceAll P (bind m f).
Proof.
  unfold traceAll. destruct m as [[a|e] t]; simpl; intros Ht Hf; [| exact Ht].
  specialize (Hf a). destruct (f a) as [r t']. simpl in *.
  now rewrite forallb_app, Ht, Hf.
Qed.

Lemma traceAll_execute (P : event -> bool) (w : World)
  (promptContent userInput : string) :
  (forall text, P (EvWriteStdin text) = true) ->
  traceAll P (wrapErr E_ExecWithClaude
                (liftGo (ExecutePrompt w promptContent userInput))).
Proof.
  intro HP. unfold traceAll. rewrite snd_wrapErr, snd_liftGo.
  destruct (ExecutePrompt_trace w promptContent userInput) as [-> | ->];
    simpl; now rewrite ?HP.
Qed.

Lemma traceAll_mkdirAndWrite (P : event -> bool) (w : World)
  (dir path content : string) :
  P (EvMkdirAll dir) = true -> P (EvWriteFile path content) = true ->
  traceAll P (mkdirAndWrite w dir path content).
Proof.
  intros Hm Hw. unfold traceAll, mkdirAndWrite, bind, emit, fail, ret.
  destruct (os_MkdirAll w dir); simpl; [now rewrite Hm |].
  destruct (os_WriteFile w path content); simpl; now rewrite Hm, Hw.
Qed.

Lemma traceAll_runPrompt_save (P : event -> bool) (w : World)
  (selectedPrompt userInput result : string) :
  (forall dir, P (EvMkdirAll dir) = true) ->
  (forall path content, P (EvWriteFile path content) = true) ->
  traceAll P (runPrompt_save w selectedPrompt userInput result).
Proof.
  intros Hm Hw. unfold runPrompt_save.
  destruct (ui_confirmSave w); [| reflexivity].
  destruct (ui_selectLocation w locations) as [locIdx|]; [| reflexivity].
  destruct (chooseSavePath w locIdx); [| reflexivity].
  destruct (ui_enterFilename w _); [| reflexivity].
  now apply traceAll_mkdirAndWrite.
Qed.

(** X19. The interactive session prefers the local assistant: when it is
    available the remote API is never called, with or without a
    credential; when it is not, no child process is ever written to, and
    the remote API is the only backend used. *)
Theorem runPrompt_backend_choice (w : World) :
  (IsAvailable w = true ->
   traceAll (fun ev => negb (isOpenRouter ev)) (runPrompt w)) /\
  (IsAvailable w = false ->
   traceAll (fun ev => negb (isWriteStdin ev)) (runPrompt w)).
Proof.
  split; intro Hav; unfold runPrompt;
    (apply traceAll_bind;
     [| intros [[sel ui] res]; now apply traceAll_runPrompt_save]);
    unfold runPrompt_respond; cbv zeta; rewrite Hav;
    destruct (env_OPENROUTER_API_KEY w =? ""); cbn [negb andb];
    repeat match goal with
           | |- traceAll _ (bind _ _) => apply traceAll_bind; [| intro]
           | |- traceAll _ (runPrompt_execute _ _ _ _ _) =>
               unfold runPrompt_execute
           | |- traceAll _ (wrapErr _ _) => now apply traceAll_execute
           | |- traceAll _ (match ?x with _ => _ end) => destruct x
           | |- traceAll _ (if ?x then _ else _) => destruct x
           | |- traceAll _ (fail _) => reflexivity
           | |- traceAll _ (ret _) => reflexivity
           | |- traceAll _ (emit _) => reflexivity
           end.
Qed.

Lemma runPrompt_backend_choice_witness :
  traceAll (fun ev => negb (isOpenRouter ev)) (runPrompt savingWorld) /\
  traceAll (fun ev => negb (isWriteStdin ev)) (runPrompt remoteWorld).
Proof.
  split.
  - apply (proj1 (runPrompt_backend_choice savingWorld)). reflexivity.
  - apply (proj2 (runPrompt_backend_choice remoteWorld)). reflexivity.
Defined.

(** X20. With --claude=false the run command never succeeds, whatever
    credential is set: it fails without executing a template and without
    changing a file, and once the template is found and the input
    gathered the error is "OpenRouter integration not yet implemented for
    run command". *)
Theorem run_without_claude_flag (w : World) (fl : Flags) (promptName : string) :
  useClaudeCode fl = false ->
  exists e t,
    runPromptRun w fl promptName = (Err e, t) /\
    onlyReads t = true /\
    (forall gathered t',
       run_gather w fl promptName = (Ok gathered, t') ->
       e = E_OpenRouterNotImplemented /\ t = t').
Proof.
  intro Hflag.
  pose proof (gathers_run_gather w fl promptName) as [Ht _].
  unfold runPromptRun, bind.
  destruct (run_gather w fl promptName) as [[[[prompt pc] fi]|e] t] eqn:Hg;
    simpl in Ht.
  - unfold run_execute. rewrite Hflag. simpl.
    exists E_OpenRouterNotImplemented, (t ++ [])%list.
    rewrite app_nil_r. split; [reflexivity |]. split; [exact Ht |].
    intros g0 t0 H. now inversion H.
  - exists e, t. split; [reflexivity |]. split; [exact Ht |]. discriminate.
Qed.

Lemma run_without_claude_flag_witness :
  exists e t,
    runPromptRun remoteWorld (mkFlags [] false false true "") "sales" = (Err e, t) /\
    onlyReads t = true /\
    (forall gathered t',
       run_gather remoteWorld (mkFlags [] false false true "") "sales"
         = (Ok gathered, t') ->
       e = E_OpenRouterNotImplemented /\ t = t').
Proof.
  exact (run_without_claude_flag remoteWorld (mkFlags [] false false true "")
           "sales" eq_refl).
Defined.

Lemma run_save_silent (w : World) (fl : Flags)
  (projectRoot promptName fullInput result : string) :
  outputPath fl = "" ->
  saveOutput fl = false \/ (exists e, ui_confirmSave w = Err e) ->
  run_save w fl projectRoot promptName fullInput result = (Ok tt, []).
Proof.
  intros Hout H. unfold run_save. rewrite Hout. simpl.
  destruct (saveOutput fl); [| reflexivity].
  destruct H as [H | [e H]]; [discriminate | now rewrite H].
Qed.

Lemma noFileChange_In (t : list event) (ev : event) :
  noFileChange t = true -> In ev t -> isFileChange ev = false.
Proof.
  unfold noFileChange. rewrite forallb_forall. intros H Hin.
  apply negb_true_iff. now apply H.
Qed.

(** X21. No file is written without the user's confirmation: when the
    interactive session creates a directory or writes a file, the user
    has confirmed the save; when the run command without --output does,
    --save is on and the user has confirmed the save. *)
Theorem writes_need_confirmation (w : World) :
  (forall ev,
     In ev (snd (runPrompt w)) -> isFileChange ev = true ->
     exists answer, ui_confirmSave w = Ok answer) /\
  (forall fl promptName ev,
     outputPath fl = "" ->
     In ev (snd (runPromptRun w fl promptName)) -> isFileChange ev = true ->
     saveOutput fl = true /\ exists answer, ui_confirmSave w = Ok answer).
Proof.
  split.
  - intros ev Hin Hev.
    destruct (ui_confirmSave w) as [answer|e] eqn:Hc; [now exists answer |].
    exfalso.
    assert (noFileChange (snd (runPrompt w)) = true) as Hn.
    { unfold runPrompt. apply noFileChange_bind;
        [apply runPrompt_respond_noFileChange |].
      intros [[sel ui] res]. unfold runPrompt_save. now rewrite Hc. }
    rewrite (noFileChange_In _ _ Hn Hin) in Hev. discriminate.
  - intros fl promptName ev Hout Hin Hev.
    assert (saveOutput fl = false \/ (exists e, ui_confirmSave w = Err e) ->
            False) as Hno.
    { intro H.
      assert (noFileChange (snd (runPromptRun w fl promptName)) = true) as Hn.
      { unfold runPromptRun. apply noFileChange_bind.
        - apply onlyReads_noFileChange. apply gathers_run_gather.
        - intros [[prompt pc] fi]. apply noFileChange_bind;
            [apply run_execute_noFileChange |].
          intro res. now rewrite run_save_silent. }
      rewrite (noFileChange_In _ _ Hn Hin) in Hev. discriminate. }
    destruct (saveOutput fl); [| destruct Hno; now left].
    split; [reflexivity |].
    destruct (ui_confirmSave w) as [answer|e]; [now exists answer |].
    destruct Hno. right. now exists e.
Qed.

Lemma writes_need_confirmation_witness :
  exists answer, ui_confirmSave savingWorld = Ok answer.
Proof.
  apply (proj1 (writes_need_confirmation savingWorld)
           (EvMkdirAll "00_Inbox/notes")).
  - right; right; left; reflexivity.
  - reflexivity.
Defined.

Lemma map_bytes_app (f : ascii -> ascii) (a b : string) :
  map_bytes f (a ++ b) = map_bytes f a ++ map_bytes f b.
Proof. induction a as [|c a IH]; simpl; [reflexivity | now rewrite IH]. Qed.

(** The label of the menu for a template file is the display name of the
    listing: the order of removing ".md" and replacing underscores does
    not matter. *)
Lemma menu_label (name : string) :
  HasSuffix name ".md" = true ->
  TrimSuffix (ReplaceAll name "_" " ") ".md" =
  ReplaceAll (TrimSuffix name ".md") "_" " ".
Proof.
  intro H. apply HasSuffix_spec in H as [pre ->].
  rewrite TrimSuffix_app. unfold ReplaceAll. rewrite map_bytes_app.
  change (map_bytes _ ".md") with ".md". now rewrite TrimSuffix_app.
Qed.

Lemma ListPrompts_listed_stat (w : World) (projectRoot : string)
  (prompts : list PromptInfo) (t : list event) :
  ListPrompts w projectRoot = (Ok prompts, t) ->
  os_Stat w (Join [projectRoot; "10_PromptTemplates"]) <> StatNotExist.
Proof.
  unfold ListPrompts. intros H E. rewrite E in H. discriminate.
Qed.

(** X22. The interactive session and the listing agree: the menu of the
    session shows the display names of the listing, in its order, and
    the template file the session reads is the path of the listed
    template at the index picked. A cancelled menu is the "prompt
    selection failed" error, and an index outside the menu a panic. *)
Theorem runPrompt_menu_is_listing (w : World) (prompts : list PromptInfo)
  (t : list event) :
  (env_OPENROUTER_API_KEY w =? "") && negb (IsAvailable w) = false ->
  ListPrompts w "." = (Ok prompts, t) ->
  (forall e,
     ui_selectTemplate w (map Name prompts) = Err e ->
     runPrompt w = (Err (E_SelectionFailed e), [])) /\
  (forall idx,
     ui_selectTemplate w (map Name prompts) = Ok idx ->
     match nth_error prompts idx with
     | Some P => exists r t', runPrompt w = (r, EvReadFile (Path P) :: t')
     | None => runPrompt w = (Err E_IndexOutOfRange, [])
     end).
Proof.
  intros Hprov Hlist.
  pose proof (ListPrompts_listed_stat w _ _ _ Hlist) as Hstat.
  destruct (ListPrompts_listed w _ _ _ Hlist) as (entries & Hdir & -> & Hne).
  set (promptsPath := Join ["."; "10_PromptTemplates"]) in *.
  assert (map (fun file => TrimSuffix (ReplaceAll file "_" " ") ".md")
              (map entry_Name (filter isTemplateEntry entries)) =
          map Name (map (templateOf w promptsPath)
                        (filter isTemplateEntry entries))) as Hlabels.
  { rewrite !map_map. apply map_ext_in. intros entry He.
    apply filter_In in He as [_ He]. unfold isTemplateEntry in He.
    apply andb_true_iff in He as [_ He]. now apply menu_label. }
  assert (map entry_Name (filter isTemplateEntry entries) <> []) as Hfiles.
  { intro E. apply map_eq_nil in E. rewrite E in Hne. now destruct Hne. }
  unfold runPrompt, runPrompt_respond. cbv zeta. fold promptsPath.
  rewrite Hprov, Hdir. fold isTemplateEntry. rewrite Hlabels.
  destruct (map entry_Name (filter isTemplateEntry entries)) as [|f fs] eqn:Ef;
    [now destruct Hfiles |]. rewrite <- Ef. clear Hfiles.
  split.
  - intros e Hsel. rewrite Hsel.
    destruct (os_Stat w promptsPath); [| contradiction |]; reflexivity.
  - intros idx Hsel. rewrite Hsel. rewrite !nth_error_map.
    destruct (nth_error (filter isTemplateEntry entries) idx) as [entry|];
      simpl.
    + change (Join [promptsPath; entry_Name entry])
        with (Path (templateOf w promptsPath entry)).
      set (P := templateOf w promptsPath entry).
      assert (forall (X : M (string * string * string)) (k : _ -> M unit),
                exists r t',
                  bind (bind (emit (EvReadFile (Path P))) (fun _ => X)) k =
                  (r, EvReadFile (Path P) :: t')) as Hshape.
      { intros X k. unfold bind, emit. destruct X as [[a|e] tx].
        - destruct (k a) as [r tk]. now exists r, (tx ++ tk)%list.
        - now exists (Err e), tx. }
      destruct (os_Stat w promptsPath); [| contradiction |]; apply Hshape.
    + destruct (os_Stat w promptsPath); [| contradiction |]; reflexivity.
Qed.

Lemma runPrompt_menu_is_listing_witness :
  runPrompt cancelMenuWorld = (Err (E_SelectionFailed "^C"), []).
Proof.
  apply (proj1 (runPrompt_menu_is_listing cancelMenuWorld _ _ eq_refl eq_refl)).
  reflexivity.
Defined.

(** X23. With --output the run command does not look at --save: the run is
    the same whether --save is on or off. *)
Theorem run_output_overrides_save (w : World) (fl : Flags)
  (promptName : string) (save : bool) :
  outputPath fl <> "" ->
  runPromptRun w
    (mkFlags (inputFiles fl) (useClaudeCode fl) (discoverFiles fl) save
       (outputPath fl)) promptName =
  runPromptRun w fl promptName.
Proof.
  intro Hout. apply String.eqb_neq in Hout.
  destruct fl as [files claude discover save0 out]. simpl in *.
  unfold runPromptRun, run_save. simpl. rewrite Hout. reflexivity.
Qed.

Lemma run_output_overrides_save_witness :
  runPromptRun savingWorld (mkFlags [] true false false "out/x.md") "sales" =
  runPromptRun savingWorld (mkFlags [] true false true "out/x.md") "sales".
Proof.
  apply (run_output_overrides_save savingWorld
           (mkFlags [] true false true "out/x.md") "sales" false).
  discriminate.
Defined.

Lemma Split_nosep (t : string) (sep : ascii) :
  without sep t = true -> Split t sep = [t].
Proof.
  induction t as [|c t IH]; simpl; [reflexivity |].
  intro H. apply andb_true_iff in H as [Hc Ht].
  apply negb_true_iff in Hc. now rewrite Hc, IH.
Qed.

Lemma Split_app_nosep (s t : string) (sep : ascii) :
  without sep t = true ->
  Split (s ++ t) sep =
  (removelast (Split s sep) ++ [(last (Split s sep) "" ++ t)%string])%list.
Proof.
  intro Ht. induction s as [|c s IH].
  - simpl. now apply Split_nosep.
  - cbn [append Split]. rewrite IH.
    pose proof (Split_not_nil s sep) as Hne.
    destruct (Split s sep) as [|h tl]; [now destruct Hne |].
    destruct (Ascii.eqb c sep).
    + destruct tl; reflexivity.
    + destruct tl; reflexivity.
Qed.

Lemma with_extension_not_dots (l : string) :
  (l ++ ".md" =? "") = false /\ (l ++ ".md" =? ".") = false /\
  (l ++ ".md" =? "..") = false.
Proof.
  repeat split; apply String.eqb_neq; intro H;
    apply (f_equal String.length) in H; rewrite append_length in H;
    simpl in H; lia.
Qed.

Lemma JoinWith_snoc (ys : list string) (L sep : string) :
  exists Q, JoinWith (ys ++ [L])%list sep = Q ++ L.
Proof.
  induction ys as [|y ys [Q IH]].
  - now exists "".
  - exists (y ++ sep ++ Q). cbn [app JoinWith].
    destruct (ys ++ [L])%list as [|z zs] eqn:E.
    + now destruct (app_cons_not_nil ys [] L).
    + rewrite IH, !append_assoc. reflexivity.
Qed.

(** filepath.Clean keeps a last element that ends in ".md". *)
Lemma Clean_keeps_extension (J : string) :
  exists R, Clean (J ++ ".md") = R ++ ".md".
Proof.
  unfold Clean. rewrite (Split_app_nosep J ".md" slash eq_refl).
  set (L := last (Split J slash) "").
  rewrite fold_left_app. cbn [fold_left].
  set (K := fold_left _ (removelast (Split J slash)) []).
  destruct (with_extension_not_dots L) as (H1 & H2 & H3).
  unfold cleanStep. rewrite H1, H2, H3. cbn [orb rev].
  destruct (JoinWith_snoc (rev K) (L ++ ".md") "/") as [Q HQ].
  destruct (HasPrefix (J ++ ".md") "/").
  - exists ("/" ++ Q ++ L). rewrite HQ, !append_assoc. reflexivity.
  - destruct (rev K ++ [(L ++ ".md")%string])%list as [|z zs] eqn:E.
    + now destruct (app_cons_not_nil (rev K) [] (L ++ ".md")).
    + exists (Q ++ L). rewrite HQ, append_assoc. reflexivity.
Qed.

Lemma dropEmpty_snoc (elems : list string) (x : string) :
  (x =? "") = false ->
  exists es, dropEmpty (elems ++ [x])%list = (es ++ [x])%list.
Proof.
  intro Hx. induction elems as [|e elems [es IH]]; simpl.
  - rewrite Hx. now exists [].
  - destruct (e =? ""); [now exists es | now exists (e :: elems)].
Qed.

(** filepath.Join keeps the ".md" of a last element. *)
Lemma Join_keeps_extension (elems : list string) (name : string) :
  HasSuffix (Join (elems ++ [(name ++ ".md")%string])%list) ".md" = true.
Proof.
  apply HasSuffix_spec. unfold Join.
  destruct (dropEmpty_snoc elems (name ++ ".md")
              (proj1 (with_extension_not_dots name))) as [es ->].
  destruct (es ++ [(name ++ ".md")%string])%list as [|z zs] eqn:E.
  - now destruct (app_cons_not_nil es [] (name ++ ".md")).
  - rewrite <- E. destruct (JoinWith_snoc es (name ++ ".md") "/") as [Q ->].
    rewrite <- append_assoc. apply Clean_keeps_extension.
Qed.

Lemma mkdirAndWrite_events (w : World) (dir path content p c : string) :
  In (EvWriteFile p c) (snd (mkdirAndWrite w dir path content)) ->
  p = path /\ c = content.
Proof.
  unfold mkdirAndWrite, bind, emit, fail, ret.
  destruct (os_MkdirAll w dir); simpl.
  - intros [H | []]. discriminate.
  - destruct (os_WriteFile w path content); simpl;
      intros [H | [H | []]]; try discriminate; now inversion H.
Qed.

(** X24. The save dialogue always writes a file whose path ends in ".md",
    whatever destination and file name the user enters (the extension is
    added to the name as typed, also to one that has it already), in the
    interactive session and in the run command alike; with --output the
    file is written at the given path as it is. *)
Theorem saved_path_has_extension (w : World) :
  (forall selectedPrompt userInput result path content,
     In (EvWriteFile path content)
        (snd (runPrompt_save w selectedPrompt userInput result)) ->
     HasSuffix path ".md" = true) /\
  (forall projectRoot promptName input response path content,
     In (EvWriteFile path content)
        (snd (savePromptOutputInteractive w projectRoot promptName input
                response)) ->
     HasSuffix path ".md" = true) /\
  (forall projectRoot promptName input response outputPath path content,
     In (EvWriteFile path content)
        (snd (savePromptOutput w projectRoot promptName input response
                outputPath)) ->
     path = outputPath).
Proof.
  split; [| split].
  - intros sel ui res path content. unfold runPrompt_save, ret.
    destruct (ui_confirmSave w); [| intros []].
    destruct (ui_selectLocation w locations) as [locIdx|]; [| intros []].
    destruct (chooseSavePath w locIdx) as [savePath|]; [| intros []].
    destruct (ui_enterFilename w _) as [filename|]; [| intros []].
    intro H. apply mkdirAndWrite_events in H as [-> _].
    apply (Join_keeps_extension ["."; savePath] filename).
  - intros root name input resp path content.
    unfold savePromptOutputInteractive, savePromptOutput, ret.
    destruct (ui_selectLocation w locations) as [locIdx|]; [| intros []].
    destruct (chooseSavePath w locIdx) as [savePath|]; [| intros []].
    destruct (ui_enterFilename w _) as [filename|]; [| intros []].
    intro H. apply mkdirAndWrite_events in H as [-> _].
    apply (Join_keeps_extension [root; savePath] filename).
  - intros root name input resp out path content. unfold savePromptOutput.
    intro H. now apply mkdirAndWrite_events in H as [-> _].
Qed.

Lemma saved_path_has_extension_witness :
  HasSuffix "00_Inbox/notes/meeting.md" ".md" = true.
Proof.
  apply (proj1 (saved_path_has_extension savingWorld)
           "Sales_Discovery.md" "input" "answer" "00_Inbox/notes/meeting.md"
           (sessionLayout "meeting" "2025-01-31 09:30:00" "Sales_Discovery.md"
              modelIdentifier "input" "answer")).
  right; left; reflexivity.
Defined.

Example Join_extension_added_twice :
  Join ["."; "00_Inbox/notes"; "meeting.md" ++ ".md"] =
    "00_Inbox/notes/meeting.md.md" /\
  Join ["."; "99_Assets"; "../up" ++ ".md"] = "up.md".
Proof. split; reflexivity. Qed.

(* ================================================================== *)
(** ** From the listing to find *)
(* ================================================================== *)

(** X7. What the listing shows can be found: for every template of a
    listing, find with its display name as the query succeeds, with a
    template of the listing whose display name contains the query or
    equals it. *)
Theorem FindPrompt_finds_listed_names (w : World) (projectRoot : string)
  (prompts : list PromptInfo) (t : list event) (P : PromptInfo) :
  ListPrompts w projectRoot = (Ok prompts, t) ->
  In P prompts ->
  exists T,
    FindPrompt w projectRoot (Name P) = (Ok T, t) /\
    In T prompts /\
    (equalsName w (Name P) T \/ withinName w (Name P) T).
Proof.
  intros Hlist HP. rewrite (FindPrompt_listed w _ (Name P) _ _ Hlist).
  unfold searchPrompts.
  destruct (find (exactMatch w _) prompts) as [T|] eqn:E1.
  - apply find_some in E1 as [Hin Hm]. exists T.
    repeat split; [exact Hin |]. left. now apply exactMatch_equalsName.
  - destruct (find (partialMatch w _) prompts) as [T|] eqn:E2.
    + apply find_some in E2 as [Hin Hm]. exists T.
      repeat split; [exact Hin | now right].
    + pose proof (find_none _ _ E2 P HP) as H.
      unfold partialMatch in H. rewrite ToLower_TrimSpace in H.
      discriminate.
Qed.

(** The template file "\u00a0École_Notes.md": its display name starts
    with a no-break space, which the query loses, and has a capital
    letter outside ASCII. *)
Lemma FindPrompt_finds_listed_names_witness :
  let name := ofBytes [0xC2; 0xA0; 0xC3; 0x89]%N ++ "cole Notes" in
  let P := mkPromptInfo name (paddedName ++ ".md")
             ("10_PromptTemplates/" ++ paddedName ++ ".md") "" in
  exists T,
    FindPrompt (storeWorld (Listing [file (paddedName ++ ".md")]) []) "." name
      = (Ok T, [EvReadFile ("10_PromptTemplates/" ++ paddedName ++ ".md")]) /\
    In T [P] /\
    (equalsName (storeWorld (Listing [file (paddedName ++ ".md")]) []) name T \/
     withinName (storeWorld (Listing [file (paddedName ++ ".md")]) []) name T).
Proof.
  apply (FindPrompt_finds_listed_names
           (storeWorld (Listing [file (paddedName ++ ".md")]) []) "." _ _
           (mkPromptInfo (ofBytes [0xC2; 0xA0; 0xC3; 0x89]%N ++ "cole Notes")
              (paddedName ++ ".md")
              ("10_PromptTemplates/" ++ paddedName ++ ".md") "")
           eq_refl).
  left; reflexivity.
Defined.

(** The file name without extension does not always find its template:
    for the file " a_b.md" the trimmed query "a_b" equals neither name
    and is no part of the display name " a b". *)
Example FindPrompt_by_file_name_can_fail :
  fst (ListPrompts (storeWorld (Listing [file " a_b.md"]) []) ".") =
    Ok [mkPromptInfo " a b" " a_b.md" "10_PromptTemplates/ a_b.md" ""] /\
  fst (FindPrompt (storeWorld (Listing [file " a_b.md"]) []) "." " a_b") =
    Err (E_PromptNotFound " a_b").
Proof. split; reflexivity. Qed.
